(** * carbon-cost backend: a shallow embedding of [backend/app.py]

    The backend is a Flask application with three handlers over one table:
    [record] (POST /record), [stats] (GET /stats) and [latest_co2_badge]
    (GET /latest_co2_badge).  The table is modelled as the list of its rows
    in insertion order, each handler as a function of the table (and, for
    [record], of the decoded JSON body) returning the response and, for
    [record], the new table.

    Python values are modelled by [pyval]; exceptions by the error monad
    [result]; the arithmetic of Python's [float] by the interface [PyFloat],
    with IEEE binary64 ([binary64], on the Standard Library's [spec_float])
    as the instance the handlers are evaluated with.

    The simulator [simulate_runs.py], which posts generated runs to the
    backend, is modelled on what it draws, the clock it reads and the
    server it talks to; of the dashboard [dashboard/app.py], the filter of
    the date range. *)

From Stdlib Require Import ZArith String Ascii List Bool Lia DecimalString.
From Stdlib Require Import Floats.SpecFloat.
From stdpp Require Import base option gmap strings list.

#[local] Set Warnings "-register-all".
#[local] Open Scope Z_scope.

(** ** Exceptions *)

(** The exception classes the handlers can meet.  [str(e)], which the
    handlers put in the error body, is not modelled: an error body carries
    the exception itself. *)
Inductive exn : Set :=
  | AttributeError
  | TypeError
  | ValueError
  | OverflowError
  | ZeroDivisionError
  | IntegrityError
  | InterfaceError
  | OperationalError.

Inductive result (A : Type) : Type :=
  | Ok (a : A)
  | Raise (e : exn).
Arguments Ok {A} a.
Arguments Raise {A} e.

#[global] Instance result_ret : MRet result := fun A a => Ok a.
#[global] Instance result_bind : MBind result :=
  fun A B f m => match m with Ok a => f a | Raise e => Raise e end.

(** [from_option e o]: the value of [o], or exception [e]. *)
Definition from_option {A} (e : exn) (o : option A) : result A :=
  match o with Some a => Ok a | None => Raise e end.

(** ** datetime *)

(** [datetime.datetime]: the wall-clock fields and the offset of its
    [tzinfo] from UTC in microseconds ([None] for a naive value). *)
Record datetime : Set := mkdt {
  year : Z;
  month : Z;
  day : Z;
  hour : Z;
  minute : Z;
  second : Z;
  microsecond : Z;
  utcoffset : option Z
}.

Definition is_leap (y : Z) : bool :=
  (y mod 4 =? 0) && (negb (y mod 100 =? 0) || (y mod 400 =? 0)).

Definition days_in_month (y m : Z) : Z :=
  if m =? 2 then (if is_leap y then 29 else 28)
  else if (m =? 4) || (m =? 6) || (m =? 9) || (m =? 11) then 30
  else 31.

(** The range checks of the [datetime] constructor, on the wall-clock fields. *)
Definition valid_fields (y mo d h mi s us : Z) : bool :=
  (1 <=? y) && (y <=? 9999) && (1 <=? mo) && (mo <=? 12)
  && (1 <=? d) && (d <=? days_in_month y mo)
  && (0 <=? h) && (h <=? 23) && (0 <=? mi) && (mi <=? 59)
  && (0 <=? s) && (s <=? 59) && (0 <=? us) && (us <=? 999999).

(** [timezone(offset)] needs an offset strictly between -24h and +24h. *)
Definition valid_offset (off : Z) : bool :=
  (-86400000000 <? off) && (off <? 86400000000).

Definition valid_datetime (dt : datetime) : bool :=
  valid_fields (year dt) (month dt) (day dt) (hour dt) (minute dt)
               (second dt) (microsecond dt)
  && match utcoffset dt with None => true | Some off => valid_offset off end.

(** The wall-clock fields, most significant first. *)
Definition dt_fields (dt : datetime) : list Z :=
  [year dt; month dt; day dt; hour dt; minute dt; second dt; microsecond dt].

(** What a [DateTime] column of the SQLite dialect keeps of a value: the
    wall-clock fields, without the [tzinfo]. *)
Definition naive (dt : datetime) : datetime :=
  mkdt (year dt) (month dt) (day dt) (hour dt) (minute dt) (second dt)
       (microsecond dt) None.

(** *** Decimal fields *)

Definition digit_of (c : ascii) : option Z :=
  let n := Z.of_N (N_of_ascii c) in
  if (48 <=? n) && (n <=? 57) then Some (n - 48) else None.

Definition digit_char (d : Z) : ascii := ascii_of_N (Z.to_N (48 + d)).

(** [parse_digits n acc s]: exactly [n] decimal digits at the head of [s],
    accumulated on [acc], and the rest of [s]. *)
Fixpoint parse_digits (n : nat) (acc : Z) (s : string) : option (Z * string) :=
  match n with
  | O => Some (acc, s)
  | S n' =>
      match s with
      | EmptyString => None
      | String c s' => d ← digit_of c; parse_digits n' (10 * acc + d) s'
      end
  end.

(** [fmt_digits n z]: [z] on [n] decimal digits, zero padded ([%0nd]). *)
Fixpoint fmt_digits (n : nat) (z : Z) : string :=
  match n with
  | O => EmptyString
  | S n' =>
      String (digit_char (z / 10 ^ Z.of_nat n'))
             (fmt_digits n' (z mod 10 ^ Z.of_nat n'))
  end.

(** *** datetime.isoformat *)

Definition fmt_hms (h mi s : Z) : string :=
  fmt_digits 2 h +:+ ":" +:+ fmt_digits 2 mi +:+ ":" +:+ fmt_digits 2 s.

Definition fmt_offset (off : Z) : string :=
  let a := Z.abs off in
  let us := a mod 1000000 in
  let secs := a / 1000000 in
  let s := secs mod 60 in
  let mi := (secs / 60) mod 60 in
  let h := secs / 3600 in
  (if off <? 0 then "-" else "+")
  +:+ fmt_digits 2 h +:+ ":" +:+ fmt_digits 2 mi
  +:+ (if (s =? 0) && (us =? 0) then ""
       else ":" +:+ fmt_digits 2 s
            +:+ (if us =? 0 then "" else "." +:+ fmt_digits 6 us)).

(** [dt.isoformat()]: [YYYY-MM-DDTHH:MM:SS], then [.ffffff] when the
    microsecond is not 0, then the offset of an aware value. *)
Definition isoformat (dt : datetime) : string :=
  fmt_digits 4 (year dt) +:+ "-" +:+ fmt_digits 2 (month dt) +:+ "-"
  +:+ fmt_digits 2 (day dt) +:+ "T"
  +:+ fmt_hms (hour dt) (minute dt) (second dt)
  +:+ (if microsecond dt =? 0 then "" else "." +:+ fmt_digits 6 (microsecond dt))
  +:+ match utcoffset dt with None => "" | Some off => fmt_offset off end.

(** *** datetime.fromisoformat

    The grammar is the one [datetime.fromisoformat] documents as the inverse
    of [isoformat]:
    [YYYY-MM-DD[*HH[:MM[:SS[.fff[fff]]]][+HH:MM[:SS[.ffffff]]]]], where [*]
    is any one character.  Strings are sequences of bytes, so the separator
    is one byte. *)

(** [.fff] or [.ffffff], after the dot: the microseconds. *)
Definition parse_fraction (s : string) : option Z :=
  match String.length s with
  | 3%nat => '(v, _) ← parse_digits 3 0 s; Some (v * 1000)
  | 6%nat => '(v, _) ← parse_digits 6 0 s; Some v
  | _ => None
  end.

(** [HH[:MM[:SS[.fff[fff]]]]], the whole of [s]. *)
Definition parse_hh_mm_ss_ff (s : string) : option (Z * Z * Z * Z) :=
  '(h, r) ← parse_digits 2 0 s;
  match r with
  | EmptyString => Some (h, 0, 0, 0)
  | String c r1 =>
      if negb (Ascii.eqb c ":") then None else
      '(mi, r2) ← parse_digits 2 0 r1;
      match r2 with
      | EmptyString => Some (h, mi, 0, 0)
      | String c r3 =>
          if negb (Ascii.eqb c ":") then None else
          '(sec, r4) ← parse_digits 2 0 r3;
          match r4 with
          | EmptyString => Some (h, mi, sec, 0)
          | String c r5 =>
              if negb (Ascii.eqb c ".") then None else
              us ← parse_fraction r5; Some (h, mi, sec, us)
          end
      end
  end.

(** Split a time string at its first [+] or [-]: the time before it, and
    the sign ([true] for [-]) with the offset after it. *)
Fixpoint split_tz (s : string) : string * option (bool * string) :=
  match s with
  | EmptyString => (EmptyString, None)
  | String c s' =>
      if Ascii.eqb c "+" then (EmptyString, Some (false, s'))
      else if Ascii.eqb c "-" then (EmptyString, Some (true, s'))
      else let '(t, z) := split_tz s' in (String c t, z)
  end.

(** The offset after the sign: [HH:MM], [HH:MM:SS] or [HH:MM:SS.ffffff];
    in microseconds. *)
Definition parse_offset (neg : bool) (s : string) : option Z :=
  match String.length s with
  | 5%nat | 8%nat | 15%nat =>
      '(h, mi, sec, us) ← parse_hh_mm_ss_ff s;
      let off := ((h * 3600 + mi * 60 + sec) * 1000000 + us) in
      Some (if neg then - off else off)
  | _ => None
  end.

(** The time part: the wall-clock time and the offset, if any. *)
Definition parse_isoformat_time (s : string) : option (Z * Z * Z * Z * option Z) :=
  let '(t, z) := split_tz s in
  '(h, mi, sec, us) ← parse_hh_mm_ss_ff t;
  match z with
  | None => Some (h, mi, sec, us, None)
  | Some (neg, o) => off ← parse_offset neg o; Some (h, mi, sec, us, Some off)
  end.

(** [YYYY-MM-DD] at the head of [s], and the rest. *)
Definition parse_isoformat_date (s : string) : option (Z * Z * Z * string) :=
  '(y, r) ← parse_digits 4 0 s;
  match r with
  | EmptyString => None
  | String c r1 =>
      if negb (Ascii.eqb c "-") then None else
      '(mo, r2) ← parse_digits 2 0 r1;
      match r2 with
      | EmptyString => None
      | String c r3 =>
          if negb (Ascii.eqb c "-") then None else
          '(d, r4) ← parse_digits 2 0 r3; Some (y, mo, d, r4)
      end
  end.

(** [datetime.fromisoformat(s)]; [None] stands for its [ValueError]. *)
Definition fromisoformat (s : string) : option datetime :=
  '(y, mo, d, r) ← parse_isoformat_date s;
  dt ← match r with
       | EmptyString => Some (mkdt y mo d 0 0 0 0 None)
       | String _ t =>
           '(h, mi, sec, us, off) ← parse_isoformat_time t;
           Some (mkdt y mo d h mi sec us off)
       end;
  if valid_datetime dt then Some dt else None.

(** [s.replace(c, by)] for a one-character [c]: every occurrence. *)
Fixpoint str_replace (c : ascii) (by_ : string) (s : string) : string :=
  match s with
  | EmptyString => EmptyString
  | String a s' =>
      if Ascii.eqb a c then by_ +:+ str_replace c by_ s'
      else String a (str_replace c by_ s')
  end.

(** [c in s] *)
Fixpoint occurs (c : ascii) (s : string) : bool :=
  match s with
  | EmptyString => false
  | String a s' => Ascii.eqb a c || occurs c s'
  end.

(** Rows are ordered by a [DateTime] column as by the wall-clock fields,
    most significant first. *)
Fixpoint lex_ltb (a b : list Z) : bool :=
  match a, b with
  | x :: a', y :: b' => (x <? y) || ((x =? y) && lex_ltb a' b')
  | _, _ => false
  end.

Definition dt_ltb (d1 d2 : datetime) : bool :=
  lex_ltb (dt_fields d1) (dt_fields d2).

(** [d1 <= d2] on the wall clock. *)
Definition dt_leb (d1 d2 : datetime) : bool := negb (dt_ltb d2 d1).

(** [str(n)] for an int, which is also the text SQLite gives an integer. *)
Definition str_of_int (n : Z) : string := NilZero.string_of_int (Z.to_int n).

(** ** Python numbers *)

(** What the handlers use of Python's [float] and of the conversions of
    [int] and [float].  A conversion that raises returns the exception.
    [float_truediv_int f n] is [f / n] for an [int] [n]; it raises for
    [n = 0] and for an [n] too large for a float, which no length of a list
    is.  [float_text f] is the text the database gives a float stored in a
    [String] column. *)
Class PyFloat : Type := {
  float : Type;
  float_zero : float;
  float_eqb : float → float → bool;
  float_isnan : float → bool;
  float_leb : float → float → bool;
  float_add : float → float → float;
  float_truediv_int : float → Z → result float;
  float_of_int : Z → result float;
  float_of_str : string → result float;
  int_of_float : float → result Z;
  int_of_str : string → result Z;
  float_text : float → string;
  float_of_int_0 : float_of_int 0 = Ok float_zero;
  float_zero_number : float_isnan float_zero = false;
  float_truediv_int_ok :
    ∀ f n, 0 < n < 2 ^ 63 → ∃ q, float_truediv_int f n = Ok q
}.

Section Backend.
Context `{PyFloat}.

(** ** Python values *)

(** The values a decoded JSON body is made of, which are also the values
    [jsonify] encodes. *)
Inductive pyval : Type :=
  | PNone
  | PBool (b : bool)
  | PInt (z : Z)
  | PFloat (f : float)
  | PStr (s : string)
  | PList (l : list pyval)
  | PDict (m : gmap string pyval).

(** [bool(v)], as [not v] uses it. *)
Definition truthy (v : pyval) : bool :=
  match v with
  | PNone => false
  | PBool b => b
  | PInt z => negb (z =? 0)
  | PFloat f => negb (float_eqb f float_zero)
  | PStr s => negb (String.eqb s "")
  | PList l => match l with [] => false | _ :: _ => true end
  | PDict m => negb (Nat.eqb (size m) 0)
  end.

(** [v.get(key, dflt)]: only a dict has the method. *)
Definition py_get (v : pyval) (key : string) (dflt : pyval) : result pyval :=
  match v with
  | PDict m => Ok (default dflt (m !! key))
  | _ => Raise AttributeError
  end.

(** [float(v)] *)
Definition py_float (v : pyval) : result float :=
  match v with
  | PFloat f => Ok f
  | PInt z => float_of_int z
  | PBool b => float_of_int (if b then 1 else 0)
  | PStr s => float_of_str s
  | PNone | PList _ | PDict _ => Raise TypeError
  end.

(** [int(v)] *)
Definition py_int (v : pyval) : result Z :=
  match v with
  | PInt z => Ok z
  | PBool b => Ok (if b then 1 else 0)
  | PFloat f => int_of_float f
  | PStr s => int_of_str s
  | PNone | PList _ | PDict _ => Raise TypeError
  end.

(** [v.replace('Z', '+00:00')]: only a str has the method. *)
Definition py_replace_Z (v : pyval) : result string :=
  match v with
  | PStr s => Ok (str_replace "Z" "+00:00" s)
  | _ => Raise AttributeError
  end.

(** [sum(xs)] over floats: the accumulator starts at the int [0], which the
    first addition converts to [0.0]. *)
Definition py_sum (xs : list float) : pyval :=
  match xs with
  | [] => PInt 0
  | x :: xs' => PFloat (fold_left float_add xs' (float_add float_zero x))
  end.

(** [v / n] for a float [v] and an int [n], the one division of the
    handlers: the sum of a non-empty list of floats is a float. *)
Definition py_truediv_int (v : pyval) (n : Z) : result pyval :=
  match v with
  | PFloat t => q ← float_truediv_int t n; Ok (PFloat q)
  | _ => Raise TypeError
  end.

(** ** The table *)

(** An object of the [Emission] model, and a row of the table.  The [id]
    of an object is [None] until it is inserted, and its [String] columns
    hold the values the handler passed, whatever their type; in a row of
    the table they hold text. *)
Record Emission : Type := mkEmission {
  id : option Z;
  repo : pyval;
  owner : pyval;
  run_id : pyval;
  co2 : float;
  duration : Z;
  machine_type : pyval;
  badge : pyval;
  timestamp : datetime
}.

(** The table, in insertion order. *)
Definition table : Type := list Emission.

(** The key of a new row: one more than the greatest key. *)
Definition next_id (db : table) : Z :=
  1 + fold_right Z.max 0 (map (fun e => default 0 (id e)) db).

Definition with_id (i : Z) (e : Emission) : Emission :=
  mkEmission (Some i) (repo e) (owner e) (run_id e) (co2 e) (duration e)
             (machine_type e) (badge e) (timestamp e).

(** An [Integer] column holds a signed 64-bit integer. *)
Definition int64 (z : Z) : bool := (- 2 ^ 63 <=? z) && (z <? 2 ^ 63).

(** What a [Float] column gives back of a float it was given: the float,
    but [0.0] for [-0.0] (SQLite keeps a float that is an integer as an
    integer). *)
Definition float_real (f : float) : float :=
  if float_eqb f float_zero then float_zero else f.

(** What a [String] column gives back of a value it was given: a string
    as it is, a number as its text (the column has the affinity TEXT, and
    its length is not enforced); a NaN is stored as NULL. *)
Definition column_text (v : pyval) : pyval :=
  match v with
  | PBool b => PStr (if b then "1" else "0")
  | PInt z => PStr (str_of_int z)
  | PFloat f => if float_isnan f then PNone else PStr (float_text f)
  | _ => v
  end.

(** What the table gives back of a row: the text of the [String] columns,
    the co2 as a [Float] column keeps it and, of the timestamp, what a
    [DateTime] column keeps. *)
Definition stored (e : Emission) : Emission :=
  mkEmission (id e) (column_text (repo e)) (column_text (owner e))
             (column_text (run_id e)) (float_real (co2 e)) (duration e)
             (column_text (machine_type e)) (column_text (badge e))
             (naive (timestamp e)).

(** Binding a value to a parameter of the statement: the driver takes
    [None], strings and numbers, an int within 64 bits only, no list and no
    dict (for which older versions of the driver raise an
    [InterfaceError], newer ones a [ProgrammingError]; the handler answers
    500 to either). *)
Definition bind (v : pyval) : result unit :=
  match v with
  | PList _ | PDict _ => Raise InterfaceError
  | PInt z => if int64 z then Ok () else Raise OverflowError
  | _ => Ok ()
  end.

Definition bindable (v : pyval) : bool :=
  match bind v with Ok _ => true | Raise _ => false end.

(** [nullable=False] *)
Definition not_null (v : pyval) : bool :=
  match v with PNone => false | _ => true end.

Definition string_columns (e : Emission) : list pyval :=
  [repo e; owner e; run_id e; machine_type e; badge e].

(** SQLite stores a NaN as NULL, which [nullable=False] rejects. *)
Definition not_nan (f : float) : bool := negb (float_isnan f).

(** [db.session.add(e); db.session.commit()] for a new object [e]: the
    row is appended with the next key, or the statement fails and the
    table is as before.  The values are bound in the order of the columns
    (a float and the text of a timestamp always bind), and the first that
    does not bind raises; then the statement runs and a NULL in a column
    fails it, as does a table with no key left.  Returns the table and the
    object as it is after the commit, which is the row as the table gives
    it back. *)
Definition add_commit (db : table) (e : Emission) : result (table * Emission) :=
  let i := next_id db in
  _ ← bind (repo e);
  _ ← bind (owner e);
  _ ← bind (run_id e);
  _ ← bind (PInt (duration e));
  _ ← bind (machine_type e);
  _ ← bind (badge e);
  let row := stored (with_id i e) in
  if negb (forallb not_null (string_columns row)) then Raise IntegrityError
  else if negb (not_nan (co2 e)) then Raise IntegrityError
  else if negb (int64 i) then Raise OperationalError
  else Ok (db ++ [row], row).

(** [Emission.query.filter_by(badge=b).count()] *)
Definition badge_is (b : string) (e : Emission) : bool :=
  match badge e with PStr s => String.eqb s b | _ => false end.

Definition count_by_badge (db : table) (b : string) : Z :=
  Z.of_nat (length (List.filter (badge_is b) db)).

(** [Emission.query.order_by(Emission.timestamp.desc())]: a stable sort,
    latest first. *)
Fixpoint insert_desc (e : Emission) (l : list Emission) : list Emission :=
  match l with
  | [] => [e]
  | x :: l' =>
      if dt_ltb (timestamp e) (timestamp x) then x :: insert_desc e l'
      else e :: l
  end.

Fixpoint order_by_timestamp_desc (db : table) : list Emission :=
  match db with
  | [] => []
  | e :: db' => insert_desc e (order_by_timestamp_desc db')
  end.

(** ** Responses *)

(** [jsonify(body), status], and [jsonify({'error': str(e)}), status]. *)
Inductive response : Type :=
  | Json (body : pyval) (status : Z)
  | JsonError (e : exn) (status : Z).

Definition status_of (r : response) : Z :=
  match r with Json _ s | JsonError _ s => s end.

(** A dict display [{k1: v1, ...}]. *)
Definition py_dict (kvs : list (string * pyval)) : pyval :=
  PDict (list_to_map kvs).

(** ** POST /record *)

(** The [Emission(...)] call of [record]: the keyword arguments are
    evaluated in the order they are written. *)
Definition new_emission (data : pyval) : result Emission :=
  repo_ ← py_get data "repo" (PStr "");
  owner_ ← py_get data "owner" (PStr "");
  run_id_ ← py_get data "run_id" (PStr "");
  co2_ ← py_get data "co2" (PInt 0) ≫= py_float;
  duration_ ← py_get data "duration" (PInt 0) ≫= py_int;
  machine_type_ ← py_get data "machine_type" (PStr "");
  badge_ ← py_get data "badge" (PStr "");
  ts ← py_get data "timestamp" (PStr "") ≫= py_replace_Z;
  timestamp_ ← from_option ValueError (fromisoformat ts);
  Ok (mkEmission None repo_ owner_ run_id_ co2_ duration_
                 machine_type_ badge_ timestamp_).

(** [e.id] as a Python value. *)
Definition py_id (e : Emission) : pyval :=
  match id e with Some i => PInt i | None => PNone end.

(** [record], on the outcome of [request.json] and the table: the new
    table and the response.  An exception anywhere in the [try] block is
    answered with 500 after [db.session.rollback()]. *)
Definition record (request_json : result pyval) (db : table) : table * response :=
  match request_json with
  | Raise e => (db, JsonError e 500)
  | Ok data =>
      if negb (truthy data) then
        (db, Json (py_dict [("error", PStr "No data provided")]) 400)
      else
        match new_emission data ≫= add_commit db with
        | Ok (db', emission) =>
            (db', Json (py_dict [("status", PStr "success");
                                 ("id", py_id emission)]) 201)
        | Raise e => (db, JsonError e 500)
        end
  end.

(** ** GET /stats *)

Definition emission_data (e : Emission) : pyval :=
  py_dict [("repo", repo e); ("owner", owner e); ("run_id", run_id e);
           ("co2", PFloat (co2 e)); ("duration", PInt (duration e));
           ("machine_type", machine_type e); ("badge", badge e);
           ("timestamp", PStr (isoformat (timestamp e)))].

Definition stats (db : table) : response :=
  let emissions := db in
  let total_co2 := py_sum (map co2 emissions) in
  let avg_co2 :=
    match emissions with
    | _ :: _ => py_truediv_int total_co2 (Z.of_nat (length emissions))
    | [] => Ok (PInt 0)
    end in
  let badge_counts :=
    py_dict (map (fun b => (b, PInt (count_by_badge db b)))
                 ["Green"; "Yellow"; "Red"]) in
  let emissions_data := map emission_data emissions in
  match avg_co2 with
  | Ok avg =>
      Json (py_dict [("total_co2", total_co2); ("average_co2", avg);
                     ("badge_counts", badge_counts);
                     ("emissions", PList emissions_data)]) 200
  | Raise e => JsonError e 500
  end.

(** ** GET /latest_co2_badge *)

(** [color_map.get(k, "lightgrey")]: a list or a dict is not hashable. *)
Definition color_map_get (k : pyval) : result string :=
  match k with
  | PList _ | PDict _ => Raise TypeError
  | PStr s =>
      Ok (default "lightgrey"
            ((list_to_map [("Green", "brightgreen"); ("Yellow", "yellow");
                           ("Red", "red")] : gmap string string) !! s))
  | _ => Ok "lightgrey"
  end.

Definition latest_co2_badge (db : table) : response :=
  let latest := head (order_by_timestamp_desc db) in
  let vc :=
    match latest with
    | None => Ok (PStr "No Data", "lightgrey")
    | Some e => color ← color_map_get (badge e); Ok (badge e, color)
    end in
  match vc with
  | Ok (value, color) =>
      Json (py_dict [("schemaVersion", PInt 1); ("label", PStr "CO2");
                     ("message", value); ("color", PStr color)]) 200
  | Raise e => JsonError e 500
  end.

(** ** Reading a response *)

(** [v[k]] for a dict [v]. *)
Definition py_lookup (v : pyval) (k : string) : option pyval :=
  match v with PDict m => m !! k | _ => None end.

(** The entry [k] of the JSON object a response carries. *)
Definition body_get (r : response) (k : string) : option pyval :=
  match r with Json body _ => py_lookup body k | JsonError _ _ => None end.

(** The count of badge [b] in the answer of GET /stats. *)
Definition stats_count (r : response) (b : string) : option pyval :=
  c ← body_get r "badge_counts"; py_lookup c b.

(** ** The states of the table *)

(** The tables the application can be in: empty at first, then changed by
    [record] only ([stats] and [latest_co2_badge] do not write). *)
Inductive reachable : table → Prop :=
  | reachable_nil : reachable []
  | reachable_record (rq : result pyval) (db : table) :
      reachable db → reachable (fst (record rq db)).

(** The table after a sequence of POST /record requests. *)
Definition run (rqs : list (result pyval)) (db : table) : table :=
  fold_left (fun db rq => fst (record rq db)) rqs db.

(** The keys of a table filled by [record]: 1, 2, ... in insertion order. *)
Definition ids_ok (db : table) : Prop :=
  map id db = map (fun k => Some (Z.of_nat k)) (seq 1 (length db)).

(** What [add_commit] checks of an object, in whatever order. *)
Definition insertable (e : Emission) : bool :=
  forallb bindable (string_columns e) && int64 (duration e)
  && forallb not_null (map column_text (string_columns e)) && not_nan (co2 e).

Definition is_text (v : pyval) : bool :=
  match v with PStr _ => true | _ => false end.

(** A row as the table holds it: text in the [String] columns, a duration
    of 64 bits, a co2 that is a number. *)
Definition row_ok (e : Emission) : bool :=
  forallb is_text (string_columns e) && int64 (duration e) && not_nan (co2 e).

(** ** The words of the specification *)

(** "The number of stored records whose badge equals [b]". *)
Inductive badge_count (b : string) : table → Z → Prop :=
  | badge_count_nil : badge_count b [] 0
  | badge_count_eq e db n :
      badge e = PStr b → badge_count b db n → badge_count b (e :: db) (n + 1)
  | badge_count_ne e db n :
      badge e ≠ PStr b → badge_count b db n → badge_count b (e :: db) n.

(** "The sum of co2 across all stored records", as the running total of
    the ingests: 0 with no record, and every record adds its co2 to the
    total of the records before it. *)
Inductive co2_total : table → pyval → Prop :=
  | co2_total_nil : co2_total [] (PInt 0)
  | co2_total_first row :
      co2_total [row] (PFloat (float_add float_zero (co2 row)))
  | co2_total_snoc db t row :
      co2_total db (PFloat t) →
      co2_total (db ++ [row]) (PFloat (float_add t (co2 row))).

(** "co2 >= 0 and duration >= 0". *)
Definition non_negative (e : Emission) : Prop :=
  float_leb float_zero (co2 e) = true ∧ 0 <= duration e.

(** A payload whose timestamp is a string that parses, once [Z] is
    rewritten. *)
Definition timestamp_parses (m : gmap string pyval) (dt : datetime) : Prop :=
  ∃ s, m !! "timestamp" = Some (PStr s)
       ∧ fromisoformat (str_replace "Z" "+00:00" s) = Some dt.

(** A supplied field has the Python type of its column: [str] for a
    [String] column, [float] for [co2], [int] for [duration]. *)
Definition well_typed (k : string) (v : pyval) : bool :=
  match v with
  | PStr _ =>
      bool_decide (k ∈ ["repo"; "owner"; "run_id"; "machine_type"; "badge"])
  | PFloat _ => String.eqb k "co2"
  | PInt _ => String.eqb k "duration"
  | _ => false
  end.

(** "Every caller-supplied field preserved, the timestamp rendered as
    ISO-8601": a supplied field of the type of its column is in the entry
    as it was supplied, and the timestamp of the entry reads back as the
    datetime that was supplied. *)
Definition preserved (m : gmap string pyval) (entry : pyval) : Prop :=
  (∀ k v, m !! k = Some v → well_typed k v = true → py_lookup entry k = Some v)
  ∧ ∃ s dt, py_lookup entry "timestamp" = Some (PStr s)
            ∧ fromisoformat s = Some dt ∧ timestamp_parses m dt.

(** ** The records of the scenario of the specification *)

Definition record_A : pyval :=
  py_dict [("timestamp", PStr "2024-01-01T00:00:00Z"); ("badge", PStr "Green")].

Definition record_B : pyval :=
  py_dict [("timestamp", PStr "2024-01-05T00:00:00Z"); ("badge", PStr "Red")].

End Backend.

(** ** IEEE binary64

    Python's [float] is the binary64 format; [spec_float] at precision 53
    and exponent bound 1024 is that format, with round to nearest even. *)

Definition b64_of_Z (z : Z) : spec_float := binary_normalize 53 1024 z 0 false.

(** [float(z)] for an int: an int that rounds to a finite float, which are
    those below [2^1024 - 2^970] in absolute value. *)
Definition b64_of_int (z : Z) : result spec_float :=
  if Z.abs z <? 2 ^ 1024 - 2 ^ 970 then Ok (b64_of_Z z) else Raise OverflowError.

Definition b64_isnan (f : spec_float) : bool :=
  match f with S754_nan => true | _ => false end.

(** [int(f)]: truncation towards zero. *)
Definition b64_to_int (f : spec_float) : result Z :=
  match f with
  | S754_zero _ => Ok 0
  | S754_infinity _ => Raise OverflowError
  | S754_nan => Raise ValueError
  | S754_finite s m e =>
      let a := if 0 <=? e then Z.pos m * 2 ^ e else Z.pos m / 2 ^ (- e) in
      Ok (if s then - a else a)
  end.

Definition b64_truediv_int (f : spec_float) (n : Z) : result spec_float :=
  if n =? 0 then Raise ZeroDivisionError
  else c ← b64_of_int n; Ok (SFdiv 53 1024 f c).

(** *** Numbers from strings

    [int(s)] and [float(s)] on ASCII strings: surrounding white space, a
    sign, and decimal digits that single underscores may separate. *)

Definition is_space (c : ascii) : bool :=
  let n := N_of_ascii c in
  ((9 <=? n) && (n <=? 13) || (28 <=? n) && (n <=? 32))%N.

Fixpoint lstrip (s : string) : string :=
  match s with
  | String c s' => if is_space c then lstrip s' else s
  | EmptyString => s
  end.

(** [rstrip s]: [s] without its trailing white space. *)
Fixpoint rstrip (s : string) : string :=
  match s with
  | String c s' =>
      match rstrip s' with
      | EmptyString => if is_space c then EmptyString else String c EmptyString
      | r => String c r
      end
  | EmptyString => EmptyString
  end.

Definition strip (s : string) : string := rstrip (lstrip s).

(** A sign at the head of [s] ([true] for [-]) and the rest. *)
Definition take_sign (s : string) : bool * string :=
  match s with
  | String c s' =>
      if Ascii.eqb c "-" then (true, s')
      else if Ascii.eqb c "+" then (false, s')
      else (false, s)
  | EmptyString => (false, s)
  end.

(** The digits after the first of a digit part: the value accumulated on
    [acc], the number of digits added to [n], the rest. *)
Fixpoint digits_tail (acc : Z) (n : Z) (s : string) : Z * Z * string :=
  match s with
  | String c s' =>
      match digit_of c with
      | Some d => digits_tail (10 * acc + d) (n + 1) s'
      | None =>
          if Ascii.eqb c "_" then
            match s' with
            | String c2 s'' =>
                match digit_of c2 with
                | Some d => digits_tail (10 * acc + d) (n + 1) s''
                | None => (acc, n, s)
                end
            | EmptyString => (acc, n, s)
            end
          else (acc, n, s)
      end
  | EmptyString => (acc, n, s)
  end.

(** A digit part: one digit at least. *)
Definition digitpart (acc : Z) (n : Z) (s : string) : option (Z * Z * string) :=
  match s with
  | String c s' => d ← digit_of c; Some (digits_tail (10 * acc + d) (n + 1) s')
  | EmptyString => None
  end.

Definition int_of_ascii_str (s : string) : result Z :=
  let '(neg, r) := take_sign (strip s) in
  match digitpart 0 0 r with
  | Some (v, _, EmptyString) => Ok (if neg then - v else v)
  | _ => Raise ValueError
  end.

(** The float nearest to [m * 10 ^ e], for [0 <= m]. *)
Definition b64_of_decimal (neg : bool) (m e : Z) : spec_float :=
  match m with
  | Z.pos p =>
      if 0 <=? e then binary_normalize 53 1024 (if neg then - (m * 10 ^ e) else m * 10 ^ e) 0 false
      else SFdiv 53 1024 (S754_finite neg p 0)
                         (S754_finite false (Z.to_pos (10 ^ (- e))) 0)
  | _ => S754_zero neg
  end.

Definition lower (c : ascii) : ascii :=
  let n := N_of_ascii c in
  if ((65 <=? n) && (n <=? 90))%N then ascii_of_N (n + 32) else c.

Fixpoint lower_str (s : string) : string :=
  match s with
  | String c s' => String (lower c) (lower_str s')
  | EmptyString => EmptyString
  end.

(** An exponent [e[+-]digits] taking the whole of [s], or nothing. *)
Definition exponent (s : string) : option Z :=
  match s with
  | EmptyString => Some 0
  | String c s' =>
      if Ascii.eqb (lower c) "e" then
        let '(neg, r) := take_sign s' in
        match digitpart 0 0 r with
        | Some (v, _, EmptyString) => Some (if neg then - v else v)
        | _ => None
        end
      else None
  end.

(** [digits[.[digits]][exponent]] or [.digits[exponent]]: mantissa and
    decimal exponent. *)
Definition floatnumber (s : string) : option (Z * Z) :=
  match digitpart 0 0 s with
  | Some (ip, _, String c r) =>
      if Ascii.eqb c "." then
        match digitpart ip 0 r with
        | Some (m, n, r') => e ← exponent r'; Some (m, e - n)
        | None => e ← exponent r; Some (ip, e)
        end
      else e ← exponent (String c r); Some (ip, e)
  | Some (ip, _, EmptyString) => Some (ip, 0)
  | None =>
      match s with
      | String c r =>
          if Ascii.eqb c "." then
            '(m, n, r') ← digitpart 0 0 r; e ← exponent r'; Some (m, e - n)
          else None
      | EmptyString => None
      end
  end.

Definition float_of_ascii_str (s : string) : result spec_float :=
  let '(neg, r) := take_sign (strip s) in
  let l := lower_str r in
  if String.eqb l "inf" || String.eqb l "infinity" then Ok (S754_infinity neg)
  else if String.eqb l "nan" then Ok S754_nan
  else match floatnumber r with
       | Some (m, e) => Ok (b64_of_decimal neg m e)
       | None => Raise ValueError
       end.

(** *** The text of a float

    What SQLite makes of a float bound to a [String] column: the text its
    own [printf] gives for ["%!.15g"], 15 significant digits computed in
    the extended precision of the x86 ([long double], a mantissa of 64
    bits).  The functions below follow that [printf] step by step. *)

Definition ext_of_Z (z : Z) : spec_float := binary_normalize 64 16384 z 0 false.

(** A double as an extended float: the conversion is exact. *)
Definition ext_of_b64 (f : spec_float) : spec_float :=
  match f with
  | S754_finite s m e =>
      binary_normalize 64 16384 (if s then Z.neg m else Z.pos m) e false
  | _ => f
  end.

(** The literal [m * 10 ^ e] of the C source, a double. *)
Definition ext_lit (m e : Z) : spec_float := ext_of_b64 (b64_of_decimal false m e).

Definition ext_mul : spec_float → spec_float → spec_float := SFmul 64 16384.
Definition ext_div : spec_float → spec_float → spec_float := SFdiv 64 16384.
Definition ext_add : spec_float → spec_float → spec_float := SFadd 64 16384.
Definition ext_sub : spec_float → spec_float → spec_float := SFsub 64 16384.

(** [(int)val] for a [val] that is not negative. *)
Definition ext_trunc (val : spec_float) : Z :=
  match val with
  | S754_finite false m e => if 0 <=? e then Z.pos m * 2 ^ e else Z.pos m / 2 ^ (- e)
  | _ => 0
  end.

(** [while( realvalue>=step*scale && exp<=350 ){ scale *= step; exp+=n; }] *)
Fixpoint scale_up (fuel : nat) (step : spec_float) (n : Z)
    (realvalue scale : spec_float) (exp : Z) : spec_float * Z :=
  match fuel with
  | O => (scale, exp)
  | S fuel' =>
      if SFleb (ext_mul step scale) realvalue && (exp <=? 350) then
        scale_up fuel' step n realvalue (ext_mul scale step) (exp + n)
      else (scale, exp)
  end.

(** [while( realvalue<bound ){ realvalue *= step; exp-=n; }] *)
Fixpoint scale_down (fuel : nat) (bound step : spec_float) (n : Z)
    (realvalue : spec_float) (exp : Z) : spec_float * Z :=
  match fuel with
  | O => (realvalue, exp)
  | S fuel' =>
      if SFltb realvalue bound then
        scale_down fuel' bound step n (ext_mul realvalue step) (exp - n)
      else (realvalue, exp)
  end.

(** [et_getdigit]: the next digit of [val], of which [cnt] are
    significant; the new [val] and [cnt]. *)
Definition et_getdigit (val : spec_float) (cnt : Z) : ascii * spec_float * Z :=
  if cnt <=? 0 then ("0"%char, val, cnt)
  else
    let digit := ext_trunc val in
    (digit_char digit, ext_mul (ext_sub val (ext_of_Z digit)) (ext_lit 1 1),
     cnt - 1).

Fixpoint et_digits (n : nat) (val : spec_float) (cnt : Z)
    : string * spec_float * Z :=
  match n with
  | O => (EmptyString, val, cnt)
  | S n' =>
      let '(c, val1, cnt1) := et_getdigit val cnt in
      let '(s, val2, cnt2) := et_digits n' val1 cnt1 in
      (String c s, val2, cnt2)
  end.

(** [s] without its trailing zeros. *)
Fixpoint strip_zeros (s : string) : string :=
  match s with
  | String c s' =>
      match strip_zeros s' with
      | EmptyString => if Ascii.eqb c "0" then EmptyString else String c EmptyString
      | r => String c r
      end
  | EmptyString => EmptyString
  end.

Fixpoint zeros (n : nat) : string :=
  match n with O => EmptyString | S n' => String "0" (zeros n') end.

(** [sqlite3_snprintf("%!.15g", f)] *)
Definition b64_text (f : spec_float) : string :=
  match f with
  | S754_nan => "NaN"
  | S754_infinity s => if s then "-Inf" else "Inf"
  | _ =>
      let prefix := if SFltb f (S754_zero false) then "-" else "" in
      let realvalue := ext_of_b64 (SFabs f) in
      let precision := 14 in
      let rounder :=
        ext_of_b64 (SFmul 53 1024 (b64_of_decimal false 5 (-5))
                                  (b64_of_decimal false 1 (-10))) in
      let '(realvalue, exp) :=
        if SFltb (S754_zero false) realvalue then
          let '(scale, exp) :=
            scale_up 8 (ext_lit 1 100) 100 realvalue (ext_lit 1 0) 0 in
          let '(scale, exp) := scale_up 16 (ext_lit 1 10) 10 realvalue scale exp in
          let '(scale, exp) := scale_up 16 (ext_lit 1 1) 1 realvalue scale exp in
          let realvalue := ext_div realvalue scale in
          let '(realvalue, exp) :=
            scale_down 64 (ext_lit 1 (-8)) (ext_lit 1 8) 8 realvalue exp in
          scale_down 16 (ext_lit 1 0) (ext_lit 1 1) 1 realvalue exp
        else (realvalue, 0) in
      let realvalue := ext_add realvalue rounder in
      let '(realvalue, exp) :=
        if SFleb (ext_lit 1 1) realvalue then
          (ext_mul realvalue (ext_lit 1 (-1)), exp + 1)
        else (realvalue, exp) in
      let nsd := 26 in
      if (exp <? -4) || (precision <? exp) then
        let '(ip, val, nsd) := et_digits 1 realvalue nsd in
        let '(fp, _, _) := et_digits (Z.to_nat precision) val nsd in
        let a := Z.abs exp in
        prefix +:+ ip +:+ "."
        +:+ match strip_zeros fp with EmptyString => "0" | r => r end
        +:+ "e" +:+ (if exp <? 0 then "-" else "+")
        +:+ (if 100 <=? a then String (digit_char (a / 100)) EmptyString else "")
        +:+ fmt_digits 2 (a mod 100)
      else
        let precision := precision - exp in
        let '(ip, val, nsd) :=
          if exp <? 0 then ("0", realvalue, nsd)
          else et_digits (Z.to_nat (exp + 1)) realvalue nsd in
        let lead := if exp <? 0 then Z.to_nat (- exp - 1) else O in
        let '(fp, _, _) :=
          et_digits (Z.to_nat precision - lead) val nsd in
        prefix +:+ ip +:+ "."
        +:+ match strip_zeros (zeros lead +:+ fp) with
            | EmptyString => "0"
            | r => r
            end
  end.

#[global, refine] Instance binary64 : PyFloat := {|
  float := spec_float;
  float_zero := S754_zero false;
  float_eqb := SFeqb;
  float_isnan := b64_isnan;
  float_leb := SFleb;
  float_add := SFadd 53 1024;
  float_truediv_int := b64_truediv_int;
  float_of_int := b64_of_int;
  float_of_str := float_of_ascii_str;
  int_of_float := b64_to_int;
  int_of_str := int_of_ascii_str;
  float_text := b64_text;
  float_of_int_0 := eq_refl;
  float_zero_number := eq_refl
|}.
Proof.
  abstract (
    intros f n [Hlo Hhi]; unfold b64_truediv_int, b64_of_int;
    destruct (Z.eqb_spec n 0) as [->|_]; [lia|];
    assert (Hlt : Z.abs n < 2 ^ 1024 - 2 ^ 970)
      by (rewrite Z.abs_eq by lia; eapply Z.lt_trans; [exact Hhi|reflexivity]);
    apply Z.ltb_lt in Hlt; rewrite Hlt; simpl; eauto).
Defined.

(** ** Sample payloads *)

(** A run as the simulator posts it: 420 s on ubuntu-latest, 0.084 kg. *)
Definition sample_run : gmap string pyval :=
  list_to_map
    [("repo", PStr "frontend-app"); ("owner", PStr "carbon-cost-team");
     ("run_id", PStr "1"); ("co2", PFloat (b64_of_decimal false 84 (-3)));
     ("duration", PInt 420); ("machine_type", PStr "ubuntu-latest");
     ("badge", PStr "Green");
     ("timestamp", PStr "2024-01-03T12:30:00.250000")].

(** A payload with timestamp and badge only. *)
Definition bare_run : gmap string pyval :=
  list_to_map
    [("timestamp", PStr "2024-01-02T08:00:00Z"); ("badge", PStr "Yellow")].

(** A payload with a negative co2, -1.5, and a negative duration. *)
Definition negative_run : gmap string pyval :=
  list_to_map
    [("co2", PFloat (b64_of_decimal true 15 (-1))); ("duration", PInt (-5));
     ("timestamp", PStr "2024-01-01T00:00:00Z")].

(** A payload without timestamp. *)
Definition untimed_run : gmap string pyval :=
  list_to_map
    [("repo", PStr "frontend-app");
     ("co2", PFloat (b64_of_decimal false 84 (-3)))].

(** A payload whose badge is null. *)
Definition null_badge_run : gmap string pyval :=
  list_to_map
    [("badge", PNone); ("timestamp", PStr "2024-01-02T08:00:00Z")].

(** A run with a timestamp at five hours east of UTC. *)
Definition offset_run : gmap string pyval :=
  list_to_map
    [("repo", PStr "frontend-app"); ("owner", PStr "carbon-cost-team");
     ("run_id", PStr "7"); ("co2", PFloat (b64_of_decimal false 84 (-3)));
     ("duration", PInt 420); ("machine_type", PStr "ubuntu-latest");
     ("badge", PStr "Green");
     ("timestamp", PStr "2024-01-03T12:30:00+05:00")].

(** The row [offset_run] leaves in the empty table. *)
Definition offset_row : Emission :=
  mkEmission (Some 1) (PStr "frontend-app") (PStr "carbon-cost-team")
    (PStr "7") (b64_of_decimal false 84 (-3)) 420 (PStr "ubuntu-latest")
    (PStr "Green") (mkdt 2024 1 3 12 30 0 0 None).

(** A payload whose co2 is [-0.0] and whose repo and badge are numbers. *)
Definition untyped_run : gmap string pyval :=
  list_to_map
    [("repo", PInt 5); ("badge", PFloat (b64_of_decimal false 15 (-1)));
     ("owner", PBool true); ("co2", PFloat (S754_zero true));
     ("timestamp", PStr "2024-01-01T00:00:00")].

(** The row [untyped_run] leaves in the empty table. *)
Definition untyped_row : Emission :=
  mkEmission (Some 1) (PStr "5") (PStr "1") (PStr "") (S754_zero false) 0
    (PStr "") (PStr "1.5") (mkdt 2024 1 1 0 0 0 0 None).

(** A run later than every row of the table of samples below. *)
Definition later_run : gmap string pyval :=
  list_to_map
    [("timestamp", PStr "2024-01-06T09:00:00Z"); ("badge", PStr "Green")].

(** The row [negative_run] leaves in the empty table. *)
Definition negative_row : Emission :=
  mkEmission (Some 1) (PStr "") (PStr "") (PStr "")
    (b64_of_decimal true 15 (-1)) (-5) (PStr "") (PStr "")
    (mkdt 2024 1 1 0 0 0 0 None).

(** The table after three accepted requests and a rejected one. *)
Definition sample_table : table :=
  run [Ok (PDict sample_run); Ok record_B; Ok (PDict untimed_run);
       Ok (PDict bare_run)] [].

(** * The simulator: [simulate_runs.py]

    The simulator draws a run at random, posts it to POST /record and
    sleeps between two runs.  What it draws and the clock it reads are
    inputs of the model. *)

Definition REPOS : list string :=
  ["frontend-app"; "backend-api"; "mobile-app"; "data-pipeline"; "ml-service"].

Definition MACHINE_TYPES : list string :=
  ["ubuntu-latest"; "windows-latest"; "macos-latest"].

(** ** Arithmetic of the simulator *)

(** [round(x, 3)] for a float: the decimal with three places nearest to the
    exact value of [x], ties to even, then the float nearest to it. *)
Definition py_round3 (x : spec_float) : spec_float :=
  match x with
  | S754_finite s m e =>
      let n := if 0 <=? e then Z.pos m * 2 ^ e * 1000 else Z.pos m * 1000 in
      let d := if 0 <=? e then 1 else 2 ^ (- e) in
      let q := n / d in
      let r := n mod d in
      let q' := if (d <? 2 * r) || ((2 * r =? d) && Z.odd q) then q + 1 else q in
      b64_of_decimal s q' (-3)
  | _ => x
  end.

(** [n * f] for an int [n] and a float [f]; [None] for the [OverflowError]
    of an int too large for a float. *)
Definition int_mul_float (n : Z) (f : spec_float) : option spec_float :=
  match b64_of_int n with
  | Ok c => Some (SFmul 53 1024 c f)
  | Raise _ => None
  end.

(** ** Dates *)

Definition days_before_year (y : Z) : Z :=
  (y - 1) * 365 + (y - 1) / 4 - (y - 1) / 100 + (y - 1) / 400.

(** The days of a common year before month [m]. *)
Definition DAYS_BEFORE_MONTH (m : Z) : Z :=
  match m with
  | 1 => 0 | 2 => 31 | 3 => 59 | 4 => 90 | 5 => 120 | 6 => 151 | 7 => 181
  | 8 => 212 | 9 => 243 | 10 => 273 | 11 => 304 | 12 => 334 | _ => -1
  end.

(** The days of month [m] in a common year. *)
Definition DAYS_IN_MONTH (m : Z) : Z :=
  match m with
  | 1 => 31 | 2 => 28 | 3 => 31 | 4 => 30 | 5 => 31 | 6 => 30 | 7 => 31
  | 8 => 31 | 9 => 30 | 10 => 31 | 11 => 30 | 12 => 31 | _ => -1
  end.

Definition days_before_month (y m : Z) : Z :=
  DAYS_BEFORE_MONTH m + (if (2 <? m) && is_leap y then 1 else 0).

(** [date(y, m, d).toordinal()]: 1 for 0001-01-01. *)
Definition ymd2ord (y m d : Z) : Z :=
  days_before_year y + days_before_month y m + d.

(** [date.fromordinal(n)]: year, month and day of ordinal [n]. *)
Definition ord2ymd (n : Z) : Z * Z * Z :=
  let n := n - 1 in
  let n400 := n / 146097 in
  let n := n mod 146097 in
  let n100 := n / 36524 in
  let n := n mod 36524 in
  let n4 := n / 1461 in
  let n := n mod 1461 in
  let n1 := n / 365 in
  let n := n mod 365 in
  let year := n400 * 400 + 1 + n100 * 100 + n4 * 4 + n1 in
  if (n1 =? 4) || (n100 =? 4) then (year - 1, 12, 31)
  else
    let leapyear := (n1 =? 3) && (negb (n4 =? 24) || (n100 =? 3)) in
    let month := Z.shiftr (n + 50) 5 in
    let preceding :=
      DAYS_BEFORE_MONTH month + (if (2 <? month) && leapyear then 1 else 0) in
    if n <? preceding then
      let month := month - 1 in
      let preceding :=
        preceding
        - (DAYS_IN_MONTH month + (if (month =? 2) && leapyear then 1 else 0)) in
      (year, month, n - preceding + 1)
    else (year, month, n - preceding + 1).

(** [timedelta(days=d, hours=h, minutes=m)], in microseconds. *)
Definition timedelta (d h m : Z) : Z := ((d * 24 + h) * 60 + m) * 60 * 1000000.

(** The days and the time of day of [dt] as one count of microseconds,
    as [datetime.__add__] forms it from [toordinal()] and the time. *)
Definition dt_us (dt : datetime) : Z :=
  ymd2ord (year dt) (month dt) (day dt) * 86400000000
  + ((hour dt * 60 + minute dt) * 60 + second dt) * 1000000
  + microsecond dt.

(** [dt - td]: the datetime [td] microseconds before [dt], with the
    [tzinfo] of [dt]; [None] for the [OverflowError] of a date out of
    range. *)
Definition datetime_sub (dt : datetime) (td : Z) : option datetime :=
  let t := dt_us dt - td in
  let days := t / 86400000000 in
  let rem := t mod 86400000000 in
  if (0 <? days) && (days <=? 3652059) then
    let '(y, m, d) := ord2ymd days in
    Some (mkdt y m d (rem / 3600000000) (rem / 60000000 mod 60)
               (rem / 1000000 mod 60) (rem mod 1000000) (utcoffset dt))
  else None.

(** ** One simulated run *)

(** What a call of [generate_emission_data] draws, and the clock it
    reads. *)
Record draws : Type := mkDraws {
  d_duration : Z;
  d_machine_type : string;
  d_days_ago : Z;
  d_hours_ago : Z;
  d_minutes_ago : Z;
  d_now : datetime
}.

(** The draws [random.randint] and [random.choice] can make, and a clock
    that is a naive datetime. *)
Definition draws_ok (d : draws) : Prop :=
  30 <= d_duration d <= 900 ∧ d_machine_type d ∈ MACHINE_TYPES
  ∧ 0 <= d_days_ago d <= 7 ∧ 0 <= d_hours_ago d <= 24
  ∧ 0 <= d_minutes_ago d <= 60
  ∧ valid_datetime (d_now d) = true ∧ utcoffset (d_now d) = None.

Definition co2_factors : gmap string spec_float :=
  list_to_map [("ubuntu-latest", b64_of_decimal false 2 (-4));
               ("windows-latest", b64_of_decimal false 3 (-4));
               ("macos-latest", b64_of_decimal false 25 (-5))].

(** The badge of a co2. *)
Definition badge_of_co2 (co2 : spec_float) : string :=
  if SFltb co2 (b64_of_decimal false 5 (-1)) then "Green"
  else if SFltb co2 (b64_of_decimal false 15 (-1)) then "Yellow"
  else "Red".

(** [generate_emission_data(repo, run_id)] on its draws; [None] when it
    raises. *)
Definition generate_emission_data (repo : string) (run_id : Z) (d : draws)
    : option pyval :=
  let duration := d_duration d in
  let machine_type := d_machine_type d in
  factor ← co2_factors !! machine_type;
  co2 ← int_mul_float duration factor;
  let badge := badge_of_co2 co2 in
  timestamp ←
    datetime_sub (d_now d)
      (timedelta (d_days_ago d) (d_hours_ago d) (d_minutes_ago d));
  Some (py_dict [("repo", PStr repo); ("owner", PStr "carbon-cost-team");
                 ("run_id", PStr (str_of_int run_id));
                 ("co2", PFloat (py_round3 co2)); ("duration", PInt duration);
                 ("machine_type", PStr machine_type); ("badge", PStr badge);
                 ("timestamp", PStr (isoformat timestamp))]).

(** ** The simulator and the server

    What the simulator does to the outside, in order: the requests it
    sends, each with the status of the answer ([None] for a
    [RequestException]), and the calls of [time.sleep] that returned. *)
Inductive event : Type :=
  | Get (status : option Z)
  | Post (data : pyval) (status : option Z)
  | Sleep (delay : spec_float).

(** How a run of the simulator ends: with the summary line and its count
    of recorded runs, with an exception nothing catches, or, for [main],
    after a health check that failed. *)
Inductive outcome : Type :=
  | Complete (successful_runs : Z)
  | Raises
  | NoBackend.

(** [range(a, b)] *)
Definition py_range (a b : Z) : list Z :=
  map (fun k => a + Z.of_nat k) (seq 0 (Z.to_nat (b - a))).

(** [s or dflt] for strings. *)
Definition str_or (s dflt : string) : string :=
  if String.eqb s "" then dflt else s.

Section Simulator.

(** The server: the state behind the URL, and what a POST of [data] to
    [BACKEND_URL] and a GET of [/stats] do to it and answer. *)
Context {server : Type}.
Variable post : pyval → server → server * option Z.
Variable get : server → server * option Z.

(** Whether [time.sleep(delay)] returns: it raises for a negative delay. *)
Variable sleep : spec_float → bool.

(** What iteration [i] of the loop draws: the repository, then the draws
    of [generate_emission_data]. *)
Variable random : Z → string * draws.

(** The state of the server and the events so far. *)
Definition world : Type := server * list event.

(** [send_emission_data(data)]: [None] when a key the message prints is
    missing. *)
Definition send_emission_data (data : pyval) (w : world) : world * option bool :=
  let '(s, response) := post data w.1 in
  let w' := (s, w.2 ++ [Post data response]) in
  match response with
  | Some status_code =>
      if status_code =? 201 then
        (w', _ ← py_lookup data "repo"; _ ← py_lookup data "co2";
             _ ← py_lookup data "badge"; Some true)
      else (w', _ ← py_lookup data "repo"; Some false)
  | None => (w', _ ← py_lookup data "repo"; Some false)
  end.

(** The [for] loop of [simulate_runs] over the values of [i] left. *)
Fixpoint simulate_loop (range : list Z) (num_runs : Z) (delay : spec_float)
    (successful_runs : Z) (w : world) : world * outcome :=
  match range with
  | [] => (w, Complete successful_runs)
  | i :: range' =>
      let '(repo, d) := random i in
      match generate_emission_data repo i d with
      | None => (w, Raises)
      | Some data =>
          match send_emission_data data w with
          | (w1, None) => (w1, Raises)
          | (w1, Some sent) =>
              let successful_runs :=
                if sent then successful_runs + 1 else successful_runs in
              if i <? num_runs then
                if sleep delay then
                  simulate_loop range' num_runs delay successful_runs
                                (w1.1, w1.2 ++ [Sleep delay])
                else (w1, Raises)
              else simulate_loop range' num_runs delay successful_runs w1
          end
      end
  end.

Definition simulate_runs (num_runs : Z) (delay : spec_float) (w : world)
    : world * outcome :=
  simulate_loop (py_range 1 (num_runs + 1)) num_runs delay 0 w.

(** [main], on the lines [input] reads; a line that is missing is an
    [EOFError]. *)
Definition main (inputs : list string) (w : world) : world * outcome :=
  let '(s, response) := get w.1 in
  let w' := (s, w.2 ++ [Get response]) in
  match response with
  | Some status_code =>
      if status_code =? 200 then
        match inputs with
        | [] => (w', Raises)
        | line1 :: inputs' =>
            match int_of_ascii_str (str_or line1 "20") with
            | Ok num_runs =>
                match inputs' with
                | [] => (w', Raises)
                | line2 :: _ =>
                    match float_of_ascii_str (str_or line2 "0.5") with
                    | Ok delay => simulate_runs num_runs delay w'
                    | Raise _ =>
                        simulate_runs 20 (b64_of_decimal false 5 (-1)) w'
                    end
                end
            | Raise _ => simulate_runs 20 (b64_of_decimal false 5 (-1)) w'
            end
        end
      else (w', NoBackend)
  | None => (w', NoBackend)
  end.

End Simulator.

(** What iteration [i] draws is what [random.choice] and [random.randint]
    can give, on a clock after year 1. *)
Definition random_ok (random : Z → string * draws) (i : Z) : Prop :=
  (random i).1 ∈ REPOS ∧ draws_ok (random i).2
  ∧ 2 <= year (d_now (random i).2).

(** The payloads a trace posts, each with the status of its answer, and
    the delays it sleeps. *)
Definition posts (tr : list event) : list (pyval * option Z) :=
  omap (fun e => match e with Post data st => Some (data, st) | _ => None end)
       tr.

Definition sleeps (tr : list event) : list spec_float :=
  omap (fun e => match e with Sleep delay => Some delay | _ => None end) tr.

(** A post that was answered 201. *)
Definition recorded (p : pyval * option Z) : bool :=
  match p.2 with Some status_code => status_code =? 201 | None => false end.

(** The backend as the server of the simulator: the state is the table.
    A payload of strings, ints and finite floats reaches [record] as it was
    sent. *)
Definition backend_post (data : pyval) (db : table) : table * option Z :=
  let '(db', r) := record (Ok data) db in (db', Some (status_of r)).

Definition backend_get (db : table) : table * option Z :=
  (db, Some (status_of (stats db))).

(** [time.sleep(delay)] of CPython returns for a delay that is not
    negative and whose nanoseconds fit a signed 64-bit integer; it raises
    for any other. *)
Definition sleep_returns (delay : spec_float) : bool :=
  SFleb (S754_zero false) delay
  && SFltb (SFmul 53 1024 delay (b64_of_Z (10 ^ 9))) (b64_of_Z (2 ^ 63)).

(** * The dashboard: [dashboard/app.py]

    Of the dashboard the filter of the date range is modelled; the rest
    draws the page. *)

(** A [datetime.date]; dates compare by year, then month, then day. *)
Record date : Type := mkdate { date_year : Z; date_month : Z; date_day : Z }.

Definition date_leb (a b : date) : bool :=
  negb (lex_ltb [date_year b; date_month b; date_day b]
                [date_year a; date_month a; date_day a]).

(** A DataFrame: its rows in order, and its [date] column when it has
    one, as the date of each row.  [create_emissions_dataframe] adds the
    column to a frame that is not empty. *)
Record DataFrame (R : Type) : Type := mkDataFrame {
  df_rows : list R;
  df_date : option (R → date)
}.
Arguments mkDataFrame {R} _ _.
Arguments df_rows {R} _.
Arguments df_date {R} _.

(** [filter_data_by_date_range(df, date_range)]; [None] for the
    [KeyError] of a frame without [date] column. *)
Definition filter_data_by_date_range {R : Type} (df : DataFrame R)
    (date_range : list date) : option (DataFrame R) :=
  match date_range with
  | [start_date; end_date] =>
      date_ ← df_date df;
      Some (mkDataFrame
              (List.filter (fun r => date_leb start_date (date_ r)
                                     && date_leb (date_ r) end_date)
                           (df_rows df))
              (df_date df))
  | _ => Some df
  end.

(** [s.min()] and [s.max()] of a column of dates; [None] on the empty
    column. *)
Definition series_min (s : list date) : option date :=
  match s with
  | [] => None
  | x :: s' => Some (fold_left (fun m d => if date_leb m d then m else d) s' x)
  end.

Definition series_max (s : list date) : option date :=
  match s with
  | [] => None
  | x :: s' => Some (fold_left (fun m d => if date_leb d m then m else d) s' x)
  end.

(** The range [main] gives the date input at first: from the earliest to
    the latest date of the frame. *)
Definition default_date_range {R : Type} (df : DataFrame R)
    : option (list date) :=
  date_ ← df_date df;
  min_date ← series_min (map date_ (df_rows df));
  max_date ← series_max (map date_ (df_rows df));
  Some [min_date; max_date].

(** * Sample runs of the simulator and a sample frame *)

(** The draws of a run of 420 s on ubuntu-latest, 2 days, 3 hours and 15
    minutes before 2024-01-05T15:45:00.250000. *)
Definition sample_draws : draws :=
  mkDraws 420 "ubuntu-latest" 2 3 15 (mkdt 2024 1 5 15 45 0 250000 None).

(** Every iteration draws [sample_draws] for frontend-app. *)
Definition sample_random (i : Z) : string * draws :=
  ("frontend-app", sample_draws).

(** A server that counts the requests and answers each with 500. *)
Definition failing_post (data : pyval) (n : Z) : Z * option Z :=
  (n + 1, Some 500).

(** A frame of three rows, each a repository and its date. *)
Definition sample_frame : DataFrame (string * date) :=
  mkDataFrame [("frontend-app", mkdate 2024 1 3);
               ("backend-api", mkdate 2024 1 1);
               ("ml-service", mkdate 2024 1 5)] (Some snd).

(** The rows of [sample_table]. *)
Definition sample_rows : table :=
  [mkEmission (Some 1) (PStr "frontend-app") (PStr "carbon-cost-team")
     (PStr "1") (b64_of_decimal false 84 (-3)) 420 (PStr "ubuntu-latest")
     (PStr "Green") (mkdt 2024 1 3 12 30 0 250000 None);
   mkEmission (Some 2) (PStr "") (PStr "") (PStr "") (S754_zero false) 0
     (PStr "") (PStr "Red") (mkdt 2024 1 5 0 0 0 0 None);
   mkEmission (Some 3) (PStr "") (PStr "") (PStr "") (S754_zero false) 0
     (PStr "") (PStr "Yellow") (mkdt 2024 1 2 8 0 0 0 None)].

(** The rows [later_run] and [bare_run] leave in [sample_table]. *)
Definition later_row : Emission :=
  mkEmission (Some 4) (PStr "") (PStr "") (PStr "") (S754_zero false) 0
    (PStr "") (PStr "Green") (mkdt 2024 1 6 9 0 0 0 None).

Definition bare_row : Emission :=
  mkEmission (Some 4) (PStr "") (PStr "") (PStr "") (S754_zero false) 0
    (PStr "") (PStr "Yellow") (mkdt 2024 1 2 8 0 0 0 None).

(** * Properties *)

Section Properties.
Context `{PyFloat}.

Implicit Types (db : table) (m : gmap string pyval) (e row : Emission).

(** ** The outcomes of [record] *)

Lemma column_text_idem (v : pyval) : column_text (column_text v) = column_text v.
Proof.
  destruct v as [|b|z|f|s|l|m']; try done; simpl.
  by destruct (float_isnan f).
Qed.

Lemma float_real_idem (f : float) : float_real (float_real f) = float_real f.
Proof.
  unfold float_real. destruct (float_eqb f float_zero) eqn:E.
  - by destruct (float_eqb float_zero float_zero).
  - by rewrite E.
Qed.

Lemma float_real_zero : float_real float_zero = float_zero.
Proof. unfold float_real. by destruct (float_eqb _ _). Qed.

Lemma float_real_nonzero (f : float) :
  float_eqb f float_zero = false → float_real f = f.
Proof. unfold float_real. by intros ->. Qed.

Lemma not_nan_real (f : float) : not_nan f = true → not_nan (float_real f) = true.
Proof.
  unfold float_real, not_nan. destruct (float_eqb _ _); [|done].
  by rewrite float_zero_number.
Qed.

Lemma naive_idem (dt : datetime) : naive (naive dt) = naive dt.
Proof. reflexivity. Qed.

(** What the table gives back, it gives back again when it is stored. *)
Lemma stored_idem e : stored (stored e) = stored e.
Proof.
  unfold stored. cbn [id repo owner run_id co2 duration machine_type badge timestamp].
  by rewrite !column_text_idem, float_real_idem.
Qed.

Lemma is_text_column (v : pyval) :
  bindable v = true → not_null (column_text v) = true →
  is_text (column_text v) = true.
Proof.
  destruct v as [|b|z|f|s|l|m']; try done; simpl.
  by destruct (float_isnan f).
Qed.

Lemma is_text_spec (v : pyval) : is_text v = true ↔ ∃ s, v = PStr s.
Proof.
  destruct v; simpl; split; try done; try (by intros [? ?]); eauto.
Qed.

Lemma bind_bindable (v : pyval) : bindable v = true → bind v = Ok ().
Proof. unfold bindable. by destruct (bind v) as [[]|]. Qed.

Lemma insertable_spec e :
  insertable e = true
  ↔ (bindable (repo e) = true ∧ bindable (owner e) = true
     ∧ bindable (run_id e) = true ∧ bindable (machine_type e) = true
     ∧ bindable (badge e) = true)
    ∧ int64 (duration e) = true
    ∧ (not_null (column_text (repo e)) = true
       ∧ not_null (column_text (owner e)) = true
       ∧ not_null (column_text (run_id e)) = true
       ∧ not_null (column_text (machine_type e)) = true
       ∧ not_null (column_text (badge e)) = true)
    ∧ not_nan (co2 e) = true.
Proof.
  unfold insertable, string_columns. cbn [forallb map].
  rewrite !andb_true_r, !andb_true_iff. tauto.
Qed.

(** [add_commit] stores an object that passes its checks, while the table
    has a key left. *)
Lemma add_commit_ok db e :
  insertable e = true → int64 (next_id db) = true →
  add_commit db e
  = Ok (db ++ [stored (with_id (next_id db) e)],
        stored (with_id (next_id db) e)).
Proof.
  intros (Hb & Hd & Hn & Hf)%insertable_spec Hi.
  destruct Hb as (H1 & H2 & H3 & H4 & H5).
  destruct Hn as (N1 & N2 & N3 & N4 & N5).
  unfold add_commit.
  change (bind (PInt (duration e)))
    with (if int64 (duration e) then Ok () else Raise OverflowError).
  rewrite (bind_bindable _ H1), (bind_bindable _ H2), (bind_bindable _ H3),
    (bind_bindable _ H4), (bind_bindable _ H5), Hd.
  cbn [mbind result_bind].
  unfold string_columns.
  cbn [stored with_id repo owner run_id machine_type badge forallb].
  by rewrite N1, N2, N3, N4, N5, Hf, Hi.
Qed.

Lemma add_commit_insertable db e db' row :
  add_commit db e = Ok (db', row) →
  insertable e = true ∧ int64 (next_id db) = true
  ∧ row = stored (with_id (next_id db) e) ∧ db' = db ++ [row].
Proof.
  unfold add_commit, bindable.
  destruct (bind (repo e)) as [[]|] eqn:H1; [|done].
  destruct (bind (owner e)) as [[]|] eqn:H2; [|done].
  destruct (bind (run_id e)) as [[]|] eqn:H3; [|done].
  cbn [mbind result_bind].
  change (bind (PInt (duration e)))
    with (if int64 (duration e) then Ok () else Raise OverflowError).
  destruct (int64 (duration e)) eqn:Hd; [|done].
  destruct (bind (machine_type e)) as [[]|] eqn:H4; [|done].
  destruct (bind (badge e)) as [[]|] eqn:H5; [|done].
  cbn [mbind result_bind].
  destruct (forallb not_null _) eqn:Hn; [|done].
  destruct (not_nan _) eqn:Hf; [|done].
  destruct (int64 (next_id db)) eqn:Hi; [|done].
  cbn [negb]. intros [= <- <-]. split; [|done].
  apply insertable_spec. unfold bindable. rewrite H1, H2, H3, H4, H5.
  unfold string_columns in Hn.
  cbn [stored with_id repo owner run_id machine_type badge forallb] in Hn.
  rewrite !andb_true_iff in Hn. tauto.
Qed.

Lemma add_commit_inv db e db' row :
  add_commit db e = Ok (db', row) →
  row = stored (with_id (next_id db) e) ∧ db' = db ++ [row]
  ∧ row_ok row = true ∧ int64 (next_id db) = true.
Proof.
  intros (Hins & Hi & -> & ->)%add_commit_insertable.
  split; [done|]. split; [done|]. split; [|done].
  apply insertable_spec in Hins as (Hb & Hd & Hn & Hf).
  destruct Hb as (H1 & H2 & H3 & H4 & H5).
  destruct Hn as (N1 & N2 & N3 & N4 & N5).
  unfold row_ok, string_columns.
  cbn [stored with_id repo owner run_id co2 duration machine_type badge forallb].
  rewrite !is_text_column, Hd, not_nan_real by done. done.
Qed.

Lemma add_commit_error db e x :
  add_commit db e = Raise x →
  x = InterfaceError ∨ x = OverflowError ∨ x = IntegrityError
  ∨ x = OperationalError.
Proof.
  assert (Hbind : ∀ v y, bind v = Raise y → y = InterfaceError ∨ y = OverflowError).
  { intros v y. destruct v; simpl; try done; try (intros [= <-]; auto).
    destruct (int64 z); [done|]. intros [= <-]; auto. }
  unfold add_commit.
  repeat match goal with
         | |- context [bind ?v] =>
             let Hv := fresh in
             destruct (bind v) as [[]|y] eqn:Hv;
               [cbn [mbind result_bind]
               |cbn [mbind result_bind]; intros [= <-];
                destruct (Hbind _ _ Hv); auto]
         end.
  repeat (match goal with |- context [negb ?b] => destruct b end; simpl);
    intros [= <-]; auto.
Qed.

(** [record] either leaves the table as it is and answers 400 or 500, or
    appends one row and answers 201 with the key of the row. *)
Lemma record_inv rq db :
  (fst (record rq db) = db
   ∧ (status_of (snd (record rq db)) = 400 ∨ status_of (snd (record rq db)) = 500))
  ∨ (∃ data e row,
        rq = Ok data ∧ truthy data = true ∧ new_emission data = Ok e
        ∧ add_commit db e = Ok (db ++ [row], row)
        ∧ record rq db
          = (db ++ [row],
             Json (py_dict [("status", PStr "success"); ("id", py_id row)]) 201)).
Proof.
  unfold record. destruct rq as [data|x]; [|left; auto].
  destruct (truthy data) eqn:Ht; simpl; [|left; auto].
  destruct (new_emission data) as [e|x] eqn:He; simpl; [|left; auto].
  destruct (add_commit db e) as [[db' row]|x] eqn:Hc; simpl; [|left; auto].
  right. destruct (add_commit_inv _ _ _ _ Hc) as (_ & -> & _).
  exists data, e, row. rewrite He. simpl. rewrite Hc. auto.
Qed.

Lemma record_created rq db db' body :
  record rq db = (db', Json body 201) →
  ∃ data e row,
    rq = Ok data ∧ truthy data = true ∧ new_emission data = Ok e
    ∧ add_commit db e = Ok (db ++ [row], row) ∧ db' = db ++ [row]
    ∧ body = py_dict [("status", PStr "success"); ("id", py_id row)].
Proof.
  intros Hr. destruct (record_inv rq db) as [[_ Hs]|(data & e & row & ? & ? & ? & ? & Hr')].
  - rewrite Hr in Hs. simpl in Hs. lia.
  - rewrite Hr in Hr'. injection Hr' as -> ->. eauto 10.
Qed.

(** ** The [Emission(...)] call *)

Lemma fromisoformat_empty : fromisoformat "" = None.
Proof. reflexivity. Qed.

Lemma new_emission_not_dict data :
  (∀ m, data ≠ PDict m) → new_emission data = Raise AttributeError.
Proof. intros Hd. destruct data; try done. by destruct (Hd m). Qed.

Lemma new_emission_dict m e :
  new_emission (PDict m) = Ok e →
  ∃ c d dt,
    py_float (default (PInt 0) (m !! "co2")) = Ok c
    ∧ py_int (default (PInt 0) (m !! "duration")) = Ok d
    ∧ timestamp_parses m dt
    ∧ e = mkEmission None (default (PStr "") (m !! "repo"))
            (default (PStr "") (m !! "owner"))
            (default (PStr "") (m !! "run_id")) c d
            (default (PStr "") (m !! "machine_type"))
            (default (PStr "") (m !! "badge")) dt.
Proof.
  unfold new_emission, py_get. simpl.
  destruct (py_float _) as [c|] eqn:Hc; [|done]. simpl.
  destruct (py_int _) as [d|] eqn:Hd; [|done]. simpl.
  destruct (m !! "timestamp") as [v|] eqn:Hts; simpl.
  - destruct v; try done. simpl.
    destruct (fromisoformat _) as [dt|] eqn:Hdt; [|done]. simpl.
    intros [= <-]. exists c, d, dt. repeat split; auto. exists s. auto.
  - done.
Qed.

Lemma new_emission_dict_ok m c d dt :
  py_float (default (PInt 0) (m !! "co2")) = Ok c →
  py_int (default (PInt 0) (m !! "duration")) = Ok d →
  timestamp_parses m dt →
  new_emission (PDict m)
  = Ok (mkEmission None (default (PStr "") (m !! "repo"))
          (default (PStr "") (m !! "owner"))
          (default (PStr "") (m !! "run_id")) c d
          (default (PStr "") (m !! "machine_type"))
          (default (PStr "") (m !! "badge")) dt).
Proof.
  intros Hc Hd (s & Hs & Hdt). unfold new_emission, py_get. simpl.
  rewrite Hc, Hd, Hs. simpl. by rewrite Hdt.
Qed.

(** ** Invariants of the reachable tables *)

Lemma fold_max_snoc (l : list Z) (x : Z) :
  fold_right Z.max 0 (l ++ [x]) = Z.max (fold_right Z.max 0 l) (Z.max x 0).
Proof. induction l as [|y l IH]; simpl; [|rewrite IH]; lia. Qed.

Lemma fold_max_seq (n : nat) :
  fold_right Z.max 0
    (map (default 0) (map (fun k => Some (Z.of_nat k)) (seq 1 n))) = Z.of_nat n.
Proof.
  induction n as [|n IH]; [done|].
  rewrite seq_S, !map_app. simpl. rewrite fold_max_snoc, IH. lia.
Qed.

Lemma next_id_ids_ok db : ids_ok db → next_id db = Z.of_nat (length db) + 1.
Proof.
  unfold ids_ok, next_id. intros Hids.
  rewrite <- (map_map id (default 0)), Hids, fold_max_seq. lia.
Qed.

Lemma ids_ok_snoc db row :
  ids_ok db → id row = Some (next_id db) → ids_ok (db ++ [row]).
Proof.
  intros Hids Hrow. unfold ids_ok in *.
  rewrite length_app, Nat.add_comm. simpl length. simpl Nat.add.
  rewrite seq_S, !map_app, Hids. simpl.
  rewrite Hrow, (next_id_ids_ok db Hids). do 3 f_equal. lia.
Qed.

(** A reachable table has the keys 1, 2, ...; its rows passed the checks of
    [add_commit]; it has fewer than [2^63] rows. *)
Lemma reachable_inv db :
  reachable db →
  ids_ok db ∧ Forall (fun e => row_ok e = true) db
  ∧ Z.of_nat (length db) < 2 ^ 63.
Proof.
  induction 1 as [|rq db Hr (Hids & Hrows & Hlen)].
  - split; [reflexivity|]. split; [constructor | reflexivity].
  - destruct (record_inv rq db) as [[-> _]|(data & e & row & _ & _ & _ & Hc & ->)];
      [done|]. simpl.
    destruct (add_commit_inv _ _ _ _ Hc) as (Hrow & _ & Hok & Hi).
    assert (Hid : id row = Some (next_id db)) by (by rewrite Hrow).
    split; [|split].
    + by apply ids_ok_snoc.
    + apply Forall_app. split; [done|]. by constructor.
    + rewrite length_app, Nat.add_comm. simpl length. simpl Nat.add.
      rewrite (next_id_ids_ok db Hids) in Hi. unfold int64 in Hi.
      apply andb_prop in Hi as [_ Hi]. apply Z.ltb_lt in Hi. lia.
Qed.

(** A row of a reachable table is what the table gives back of it. *)
Lemma reachable_stored db :
  reachable db → Forall (fun e => stored e = e) db.
Proof.
  induction 1 as [|rq db Hr IH]; [constructor|].
  destruct (record_inv rq db) as [[-> _]|(data & e & row & _ & _ & _ & Hc & ->)];
    [done|]. simpl. apply Forall_app. split; [done|]. constructor; [|constructor].
  apply add_commit_inv in Hc as (-> & _). apply stored_idem.
Qed.

Lemma row_ok_text e :
  row_ok e = true →
  ∃ s1 s2 s3 s4 s5,
    repo e = PStr s1 ∧ owner e = PStr s2 ∧ run_id e = PStr s3
    ∧ machine_type e = PStr s4 ∧ badge e = PStr s5.
Proof.
  unfold row_ok, string_columns. cbn [forallb].
  rewrite !andb_true_iff, !is_text_spec.
  intros [[((? & ->) & (? & ->) & (? & ->) & (? & ->) & (? & ->) & _) _] _].
  eauto 10.
Qed.

Lemma reachable_run rqs db : reachable db → reachable (run rqs db).
Proof.
  revert db. induction rqs as [|rq rqs IH]; intros db Hr; [done|].
  simpl. apply IH. by constructor.
Qed.

(** ** The body of [stats] *)

Lemma py_lookup_stats (a b c d : pyval) :
  py_lookup (py_dict [("total_co2", a); ("average_co2", b);
                      ("badge_counts", c); ("emissions", d)]) "total_co2" = Some a
  ∧ py_lookup (py_dict [("total_co2", a); ("average_co2", b);
                        ("badge_counts", c); ("emissions", d)]) "average_co2" = Some b
  ∧ py_lookup (py_dict [("total_co2", a); ("average_co2", b);
                        ("badge_counts", c); ("emissions", d)]) "badge_counts" = Some c
  ∧ py_lookup (py_dict [("total_co2", a); ("average_co2", b);
                        ("badge_counts", c); ("emissions", d)]) "emissions" = Some d.
Proof. repeat split; reflexivity. Qed.

Lemma stats_reachable db :
  reachable db →
  ∃ avg,
    stats db
    = Json (py_dict
              [("total_co2", py_sum (map co2 db)); ("average_co2", avg);
               ("badge_counts",
                py_dict (map (fun b => (b, PInt (count_by_badge db b)))
                             ["Green"; "Yellow"; "Red"]));
               ("emissions", PList (map emission_data db))]) 200
    ∧ match db with
      | [] => avg = PInt 0
      | _ :: _ =>
          ∃ t q, py_sum (map co2 db) = PFloat t
                 ∧ float_truediv_int t (Z.of_nat (length db)) = Ok q
                 ∧ avg = PFloat q
      end.
Proof.
  intros Hr. destruct (reachable_inv db Hr) as (_ & _ & Hlen).
  destruct db as [|e db]; [by exists (PInt 0)|].
  destruct (float_truediv_int_ok
              (fold_left float_add (map co2 db) (float_add float_zero (co2 e)))
              (Z.of_nat (length (e :: db)))) as [q Hq].
  { split; [simpl length; lia | done]. }
  exists (PFloat q). split; [|eauto].
  unfold stats. cbn [map py_sum py_truediv_int]. rewrite Hq. reflexivity.
Qed.

Lemma py_sum_total db : co2_total db (py_sum (map co2 db)).
Proof.
  induction db as [|row db IH] using rev_ind; [constructor|].
  destruct db as [|e db]; [constructor|].
  rewrite map_app. cbn [app map py_sum] in *. rewrite fold_left_app. simpl.
  by apply (co2_total_snoc (e :: db)).
Qed.

Lemma badge_is_spec b e : badge_is b e = true ↔ badge e = PStr b.
Proof.
  unfold badge_is. destruct (badge e); try (split; [discriminate|congruence]).
  rewrite String.eqb_eq. split; congruence.
Qed.

Lemma count_by_badge_spec b db : badge_count b db (count_by_badge db b).
Proof.
  unfold count_by_badge. induction db as [|e db IH]; [constructor|].
  simpl. destruct (badge_is b e) eqn:Hb.
  - simpl length. rewrite Nat2Z.inj_succ, <- Z.add_1_r.
    apply badge_count_eq; [|done]. by apply badge_is_spec.
  - apply badge_count_ne; [|done]. rewrite <- badge_is_spec. congruence.
Qed.

Lemma badge_count_fun b db n n' :
  badge_count b db n → badge_count b db n' → n = n'.
Proof.
  intros Hn. revert n'. induction Hn; inversion 1; subst; try done.
  - f_equal. auto.
  - auto.
Qed.

Lemma count_by_badge_other b db1 e db2 :
  badge e ≠ PStr b →
  count_by_badge (db1 ++ e :: db2) b = count_by_badge (db1 ++ db2) b.
Proof.
  intros Hb. unfold count_by_badge. rewrite !List.filter_app. simpl.
  destruct (badge_is b e) eqn:Ht; [|done].
  by apply badge_is_spec in Ht.
Qed.

(** ** The order of the rows *)

Lemma lex_ltb_irrefl (a : list Z) : lex_ltb a a = false.
Proof.
  induction a as [|x a IH]; [done|]. simpl.
  rewrite Z.ltb_irrefl, Z.eqb_refl, IH. done.
Qed.

(** On lists of one length, "not less" is transitive. *)
Lemma lex_ltb_negtrans (a b c : list Z) :
  length a = length b → length b = length c →
  lex_ltb a b = false → lex_ltb b c = false → lex_ltb a c = false.
Proof.
  revert b c. induction a as [|x a IH]; intros [|y b] [|z c]; try done.
  simpl. intros [= Hab] [= Hbc].
  destruct (Z.ltb_spec x y), (Z.eqb_spec x y), (Z.ltb_spec y z),
    (Z.eqb_spec y z), (Z.ltb_spec x z), (Z.eqb_spec x z);
    simpl; try done; try lia.
  by apply IH.
Qed.

Lemma dt_ltb_negtrans (d1 d2 d3 : datetime) :
  dt_ltb d1 d2 = false → dt_ltb d2 d3 = false → dt_ltb d1 d3 = false.
Proof. by apply lex_ltb_negtrans. Qed.

Lemma lex_ltb_asym (a b : list Z) : lex_ltb a b = true → lex_ltb b a = false.
Proof.
  revert b. induction a as [|x a IH]; intros [|y b]; try done. simpl.
  destruct (Z.ltb_spec x y), (Z.eqb_spec x y), (Z.ltb_spec y x),
    (Z.eqb_spec y x); simpl; try done; try lia.
  apply IH.
Qed.

Lemma dt_ltb_asym (d1 d2 : datetime) :
  dt_ltb d1 d2 = true → dt_ltb d2 d1 = false.
Proof. apply lex_ltb_asym. Qed.

Lemma dt_ltb_irrefl (d : datetime) : dt_ltb d d = false.
Proof. apply lex_ltb_irrefl. Qed.

Lemma order_by_nil db : order_by_timestamp_desc db = [] → db = [].
Proof.
  destruct db as [|x db]; [done|]. simpl.
  destruct (order_by_timestamp_desc db) as [|h t]; [done|]. simpl.
  by destruct (dt_ltb _ _).
Qed.

(** The first row of the ordered table is a row of the table, and no row
    is later than it. *)
Lemma order_by_head db e :
  head (order_by_timestamp_desc db) = Some e →
  e ∈ db ∧ ∀ e', e' ∈ db → dt_ltb (timestamp e) (timestamp e') = false.
Proof.
  revert e. induction db as [|x db IH]; intros e; [done|]. simpl.
  destruct (order_by_timestamp_desc db) as [|h t] eqn:Hs.
  - apply order_by_nil in Hs as ->. intros [= <-]. split; [by left|].
    intros e' ->%list_elem_of_singleton.
    apply dt_ltb_irrefl.
  - destruct (IH h eq_refl) as [Hin Hmax]. simpl.
    destruct (dt_ltb (timestamp x) (timestamp h)) eqn:Hxh; intros [= <-].
    + split; [by right|]. intros e' [->|He']%elem_of_cons; [|by apply Hmax].
      by apply dt_ltb_asym.
    + split; [by left|]. intros e' [->|He']%elem_of_cons; [apply dt_ltb_irrefl|].
      eapply dt_ltb_negtrans; [exact Hxh | by apply Hmax].
Qed.

Lemma order_by_nonempty db :
  db ≠ [] → ∃ e, head (order_by_timestamp_desc db) = Some e.
Proof.
  destruct db as [|x db]; [done|]. intros _. simpl.
  destruct (order_by_timestamp_desc db) as [|h t]; simpl; [eauto|].
  destruct (dt_ltb _ _); simpl; eauto.
Qed.

(** ** The colour of a badge *)

Lemma color_map_get_str (s : string) :
  color_map_get (PStr s)
  = Ok (if String.eqb s "Green" then "brightgreen"
        else if String.eqb s "Yellow" then "yellow"
        else if String.eqb s "Red" then "red" else "lightgrey").
Proof.
  unfold color_map_get. f_equal.
  destruct (String.eqb_spec s "Green") as [->|Hg]; [done|].
  destruct (String.eqb_spec s "Yellow") as [->|Hy]; [done|].
  destruct (String.eqb_spec s "Red") as [->|Hr]; [done|].
  simpl. by rewrite !lookup_insert_ne, lookup_empty.
Qed.

Lemma color_map_get_cases (s : string) :
  ∃ color, color_map_get (PStr s) = Ok color
    ∧ (s = "Green" → color = "brightgreen")
    ∧ (s = "Yellow" → color = "yellow")
    ∧ (s = "Red" → color = "red")
    ∧ (s ≠ "Green" → s ≠ "Yellow" → s ≠ "Red" → color = "lightgrey").
Proof.
  eexists. split; [apply color_map_get_str|].
  repeat split; try (by intros ->).
  intros Hg Hy Hr.
  destruct (String.eqb_spec s "Green") as [->|_]; [done|].
  destruct (String.eqb_spec s "Yellow") as [->|_]; [done|].
  destruct (String.eqb_spec s "Red") as [->|_]; done.
Qed.

Lemma row_ok_badge e : row_ok e = true → ∃ s, badge e = PStr s.
Proof. intros (? & ? & ? & ? & s & _ & _ & _ & _ & ->)%row_ok_text. eauto. Qed.

Lemma latest_co2_badge_reachable db e :
  reachable db → head (order_by_timestamp_desc db) = Some e →
  ∃ color,
    color_map_get (badge e) = Ok color
    ∧ latest_co2_badge db
      = Json (py_dict [("schemaVersion", PInt 1); ("label", PStr "CO2");
                       ("message", badge e); ("color", PStr color)]) 200.
Proof.
  intros Hr He. destruct (reachable_inv db Hr) as (_ & Hrows & _).
  destruct (order_by_head db e He) as [Hin _].
  rewrite Forall_forall in Hrows.
  destruct (row_ok_badge e (Hrows e Hin)) as [s Hs].
  destruct (color_map_get_cases s) as (color & Hc & _). rewrite <- Hs in Hc.
  exists color. split; [done|]. unfold latest_co2_badge. rewrite He.
  simpl. by rewrite Hc.
Qed.

(** ** [isoformat] and [fromisoformat] *)

Lemma digit_cases (d : Z) :
  0 <= d <= 9 →
  d = 0 ∨ d = 1 ∨ d = 2 ∨ d = 3 ∨ d = 4 ∨ d = 5 ∨ d = 6 ∨ d = 7 ∨ d = 8 ∨ d = 9.
Proof. lia. Qed.

Lemma digit_of_char (d : Z) : 0 <= d <= 9 → digit_of (digit_char d) = Some d.
Proof.
  intros Hd. destruct (digit_cases d Hd) as [->|Hd']; [done|].
  repeat (destruct Hd' as [->|Hd']; [done|]). by subst.
Qed.

(** A digit is none of the characters the parser gives a meaning to. *)
Lemma digit_char_plain (d : Z) :
  0 <= d <= 9 →
  Ascii.eqb (digit_char d) "Z" = false ∧ Ascii.eqb (digit_char d) "+" = false
  ∧ Ascii.eqb (digit_char d) "-" = false.
Proof.
  intros Hd. destruct (digit_cases d Hd) as [->|Hd']; [done|].
  repeat (destruct Hd' as [->|Hd']; [done|]). by subst.
Qed.

Lemma leading_digit (n : nat) (z : Z) :
  0 <= z < 10 ^ Z.of_nat (S n) →
  0 <= z / 10 ^ Z.of_nat n <= 9 ∧ 0 <= z mod 10 ^ Z.of_nat n < 10 ^ Z.of_nat n.
Proof.
  intros [Hlo Hhi]. rewrite Nat2Z.inj_succ, Z.pow_succ_r in Hhi by lia.
  assert (Hp : 0 < 10 ^ Z.of_nat n) by (apply Z.pow_pos_nonneg; lia).
  split; [|by apply Z.mod_pos_bound].
  split; [by apply Z.div_pos|].
  assert (z / 10 ^ Z.of_nat n < 10); [|lia].
  apply Z.div_lt_upper_bound; lia.
Qed.

Lemma append_cons (c : ascii) (a b : string) :
  String c a +:+ b = String c (a +:+ b).
Proof. reflexivity. Qed.

Lemma parse_fmt_digits (n : nat) (acc z : Z) (r : string) :
  0 <= z < 10 ^ Z.of_nat n →
  parse_digits n acc (fmt_digits n z +:+ r) = Some (acc * 10 ^ Z.of_nat n + z, r).
Proof.
  revert acc z. induction n as [|n IH]; intros acc z Hz.
  - simpl in *. do 2 f_equal. lia.
  - destruct (leading_digit n z Hz) as [Hq Hm].
    cbn [fmt_digits]. rewrite append_cons. cbn [parse_digits].
    rewrite (digit_of_char _ Hq). cbn [mbind option_bind]. rewrite (IH _ _ Hm). do 2 f_equal.
    rewrite Nat2Z.inj_succ, Z.pow_succ_r by lia.
    pose proof (Z.div_mod z (10 ^ Z.of_nat n)). lia.
Qed.

Lemma occurs_app (c : ascii) (a b : string) :
  occurs c (a +:+ b) = occurs c a || occurs c b.
Proof.
  induction a as [|x a IH]; [done|].
  rewrite append_cons. cbn [occurs]. by rewrite IH, orb_assoc.
Qed.

Lemma occurs_fmt_digits (c : ascii) (n : nat) (z : Z) :
  c = "Z"%char ∨ c = "+"%char ∨ c = "-"%char →
  0 <= z < 10 ^ Z.of_nat n → occurs c (fmt_digits n z) = false.
Proof.
  intros Hc. revert z. induction n as [|n IH]; intros z Hz; [done|].
  destruct (leading_digit n z Hz) as [Hq Hm].
  destruct (digit_char_plain _ Hq) as (HZ & Hp & Hm').
  cbn [fmt_digits occurs]. rewrite (IH _ Hm).
  destruct Hc as [-> | [-> | ->]]; by rewrite ?HZ, ?Hp, ?Hm'.
Qed.

Lemma split_tz_app (a z : string) :
  occurs "+" a = false → occurs "-" a = false →
  split_tz (a +:+ z) = (a +:+ (split_tz z).1, (split_tz z).2).
Proof.
  induction a as [|x a IH]; intros Hp Hm.
  - change (split_tz z = ((split_tz z).1, (split_tz z).2)).
    by destruct (split_tz z).
  - cbn [occurs] in Hp, Hm. apply orb_false_elim in Hp as [Hp1 Hp2].
    apply orb_false_elim in Hm as [Hm1 Hm2].
    rewrite append_cons. cbn [split_tz]. rewrite Hp1, Hm1, (IH Hp2 Hm2). done.
Qed.

Lemma str_replace_app (c : ascii) (by_ a z : string) :
  occurs c a = false →
  str_replace c by_ (a +:+ z) = a +:+ str_replace c by_ z.
Proof.
  induction a as [|x a IH]; intros Hc; [done|].
  cbn [occurs] in Hc. apply orb_false_elim in Hc as [Hc1 Hc2].
  rewrite !append_cons. cbn [str_replace]. by rewrite Hc1, (IH Hc2).
Qed.

Lemma length_fmt_digits (n : nat) (z : Z) : String.length (fmt_digits n z) = n.
Proof. revert z. induction n as [|n IH]; intros z; simpl; [done|]. by rewrite IH. Qed.

Lemma append_assoc (a b c : string) : (a +:+ b) +:+ c = a +:+ (b +:+ c).
Proof. induction a as [|x a IH]; [done|]. by rewrite !append_cons, IH. Qed.

Lemma append_nil_r (a : string) : a +:+ "" = a.
Proof. induction a as [|x a IH]; [done|]. by rewrite append_cons, IH. Qed.

Lemma append_char (c : ascii) (a : string) : String c "" +:+ a = String c a.
Proof. reflexivity. Qed.

Lemma parse_fmt_digits0 (n : nat) (z : Z) (r : string) :
  0 <= z < 10 ^ Z.of_nat n →
  parse_digits n 0 (fmt_digits n z +:+ r) = Some (z, r).
Proof. intros Hz. by rewrite parse_fmt_digits. Qed.

Lemma parse_fmt_digits_end (n : nat) (z : Z) :
  0 <= z < 10 ^ Z.of_nat n → parse_digits n 0 (fmt_digits n z) = Some (z, "").
Proof.
  intros Hz. rewrite <- (append_nil_r (fmt_digits n z)).
  by apply parse_fmt_digits0.
Qed.

Lemma parse_date_fmt (y mo d : Z) (r : string) :
  0 <= y < 10000 → 0 <= mo < 100 → 0 <= d < 100 →
  parse_isoformat_date
    (fmt_digits 4 y
     +:+ String "-" (fmt_digits 2 mo +:+ String "-" (fmt_digits 2 d +:+ r)))
  = Some (y, mo, d, r).
Proof.
  intros Hy Hmo Hd. unfold parse_isoformat_date.
  rewrite (parse_fmt_digits0 4) by done. cbn [mbind option_bind].
  change (negb (Ascii.eqb "-" "-")) with false. cbn iota.
  rewrite (parse_fmt_digits0 2) by done. cbn [mbind option_bind].
  change (negb (Ascii.eqb "-" "-")) with false. cbn iota.
  by rewrite (parse_fmt_digits0 2) by done.
Qed.

(** The time part of [isoformat]: [HH:MM:SS], and [.ffffff] when the
    microsecond is not 0. *)
Lemma parse_time_fmt (h mi s us : Z) :
  0 <= h < 100 → 0 <= mi < 100 → 0 <= s < 100 → 0 <= us < 1000000 →
  parse_hh_mm_ss_ff
    (fmt_hms h mi s +:+ (if us =? 0 then "" else "." +:+ fmt_digits 6 us))
  = Some (h, mi, s, us).
Proof.
  intros Hh Hmi Hs Hus. unfold parse_hh_mm_ss_ff, fmt_hms.
  rewrite !append_assoc.
  rewrite (parse_fmt_digits0 2) by done. cbn [mbind option_bind].
  rewrite !append_char.
  change (negb (Ascii.eqb ":" ":")) with false. cbn iota.
  rewrite (parse_fmt_digits0 2) by done. cbn [mbind option_bind].
  change (negb (Ascii.eqb ":" ":")) with false. cbn iota.
  rewrite (parse_fmt_digits0 2) by done. cbn [mbind option_bind].
  destruct (Z.eqb_spec us 0) as [->|Hne]; [done|].
  change (negb (Ascii.eqb "." ".")) with false. cbn iota.
  unfold parse_fraction. rewrite length_fmt_digits.
  by rewrite (parse_fmt_digits_end 6) by done.
Qed.

Lemma occurs_time_fmt (c : ascii) (h mi s us : Z) :
  c = "Z"%char ∨ c = "+"%char ∨ c = "-"%char →
  0 <= h < 100 → 0 <= mi < 100 → 0 <= s < 100 → 0 <= us < 1000000 →
  occurs c (fmt_hms h mi s +:+ (if us =? 0 then "" else "." +:+ fmt_digits 6 us))
  = false.
Proof.
  intros Hc Hh Hmi Hs Hus. unfold fmt_hms. rewrite !occurs_app.
  rewrite !(occurs_fmt_digits c 2) by done.
  assert (Hf : occurs c (if us =? 0 then "" else "." +:+ fmt_digits 6 us) = false).
  { destruct (us =? 0); [done|]. rewrite occurs_app, (occurs_fmt_digits c 6) by done.
    by destruct Hc as [-> | [-> | ->]]. }
  rewrite Hf. by destruct Hc as [-> | [-> | ->]].
Qed.

Lemma days_in_month_le (y mo : Z) : days_in_month y mo <= 31.
Proof.
  unfold days_in_month. destruct (mo =? 2); [by destruct (is_leap y)|].
  by destruct (_ || _).
Qed.

Lemma valid_fields_ranges (y mo d h mi s us : Z) :
  valid_fields y mo d h mi s us = true →
  0 <= y < 10000 ∧ 0 <= mo < 100 ∧ 0 <= d < 100 ∧ 0 <= h < 100
  ∧ 0 <= mi < 100 ∧ 0 <= s < 100 ∧ 0 <= us < 1000000.
Proof.
  unfold valid_fields. rewrite !andb_true_iff, !Z.leb_le.
  pose proof (days_in_month_le y mo). lia.
Qed.

(** [fromisoformat] reads what [isoformat] writes of a naive datetime, and
    the offset that follows it. *)
Lemma fromisoformat_isoformat_offset (dt : datetime) (z : string)
    (off : option Z) :
  valid_datetime dt = true → utcoffset dt = None →
  (z = "" ∧ off = None) ∨ (z = "+00:00" ∧ off = Some 0) →
  fromisoformat (isoformat dt +:+ z)
  = Some (mkdt (year dt) (month dt) (day dt) (hour dt) (minute dt)
               (second dt) (microsecond dt) off).
Proof.
  destruct dt as [y mo d h mi s us o].
  cbn [utcoffset year month day hour minute second microsecond].
  unfold valid_datetime. cbn [utcoffset year month day hour minute second microsecond].
  intros Hv ->. rewrite andb_true_r in Hv.
  destruct (valid_fields_ranges _ _ _ _ _ _ _ Hv) as (Hy & Hmo & Hd & Hh & Hmi & Hs & Hus).
  intros Hz. unfold fromisoformat, isoformat.
  cbn [utcoffset year month day hour minute second microsecond].
  rewrite !append_assoc.
  rewrite !append_char.
  rewrite parse_date_fmt by done. cbn [mbind option_bind].
  change ("" +:+ z) with z. rewrite <- append_assoc.
  unfold parse_isoformat_time.
  rewrite split_tz_app by (apply occurs_time_fmt; auto).
  change (String "." (fmt_digits 6 us)) with ("." +:+ fmt_digits 6 us).
  destruct Hz as [[-> ->]|[-> ->]].
  - change (split_tz "") with (@pair string (option (bool * string)) "" None).
    cbn [fst snd]. rewrite append_nil_r, parse_time_fmt by done.
    cbn [mbind option_bind]. unfold valid_datetime.
    cbn [utcoffset year month day hour minute second microsecond].
    by rewrite Hv.
  - change (split_tz "+00:00") with ("", Some (false, "00:00")).
    cbn [fst snd]. rewrite append_nil_r, parse_time_fmt by done.
    change (parse_offset false "00:00") with (Some 0).
    cbn [mbind option_bind]. unfold valid_datetime.
    cbn [utcoffset year month day hour minute second microsecond].
    by rewrite Hv.
Qed.

Lemma fromisoformat_isoformat (dt : datetime) :
  valid_datetime dt = true → utcoffset dt = None →
  fromisoformat (isoformat dt) = Some dt.
Proof.
  intros Hv Ho. rewrite <- (append_nil_r (isoformat dt)).
  rewrite (fromisoformat_isoformat_offset dt "" None) by auto.
  destruct dt; simpl in *. by subst.
Qed.

Lemma occurs_Z_isoformat (dt : datetime) :
  valid_datetime dt = true → utcoffset dt = None →
  occurs "Z" (isoformat dt) = false.
Proof.
  destruct dt as [y mo d h mi s us o]. unfold valid_datetime, isoformat.
  cbn [utcoffset year month day hour minute second microsecond].
  intros Hv ->. rewrite andb_true_r in Hv.
  destruct (valid_fields_ranges _ _ _ _ _ _ _ Hv) as (Hy & Hmo & Hd & Hh & Hmi & Hs & Hus).
  rewrite append_nil_r, !occurs_app.
  rewrite (occurs_fmt_digits "Z" 4), !(occurs_fmt_digits "Z" 2) by auto.
  rewrite <- occurs_app, occurs_time_fmt by auto. done.
Qed.


Lemma fromisoformat_valid (s : string) (dt : datetime) :
  fromisoformat s = Some dt → valid_datetime dt = true.
Proof.
  unfold fromisoformat. destruct (parse_isoformat_date s) as [[[[y mo] d] r]|]; [|done].
  cbn [mbind option_bind].
  destruct (match r with "" => _ | String _ _ => _ end) as [dt'|]; [|done].
  cbn [mbind option_bind]. destruct (valid_datetime dt') eqn:Hv; [|done].
  by intros [= <-].
Qed.

Lemma valid_naive (dt : datetime) :
  valid_datetime dt = true → valid_datetime (naive dt) = true.
Proof.
  unfold valid_datetime, naive. simpl. rewrite andb_true_r.
  by intros [? _]%andb_prop.
Qed.

Lemma str_replace_absent (c : ascii) (by_ s : string) :
  occurs c s = false → str_replace c by_ s = s.
Proof.
  intros Hc. rewrite <- (append_nil_r s) at 1.
  by rewrite str_replace_app, append_nil_r.
Qed.

Lemma naive_naive (dt : datetime) : utcoffset dt = None → naive dt = dt.
Proof. destruct dt. simpl. by intros ->. Qed.

(** * The claims *)

Lemma truthy_dict m : truthy (PDict m) = true ↔ m ≠ ∅.
Proof.
  simpl. rewrite negb_true_iff, Nat.eqb_neq. by rewrite map_size_empty_iff.
Qed.

Lemma timestamp_parses_nonempty m dt : timestamp_parses m dt → m ≠ ∅.
Proof. intros (s & Hs & _) ->. by rewrite lookup_empty in Hs. Qed.

(** A payload whose conversions succeed and whose object passes the checks
    of the table is stored, as the table gives it back. *)
Lemma record_accepts db m c d dt :
  py_float (default (PInt 0) (m !! "co2")) = Ok c →
  py_int (default (PInt 0) (m !! "duration")) = Ok d →
  timestamp_parses m dt →
  insertable (mkEmission None (default (PStr "") (m !! "repo"))
                (default (PStr "") (m !! "owner"))
                (default (PStr "") (m !! "run_id")) c d
                (default (PStr "") (m !! "machine_type"))
                (default (PStr "") (m !! "badge")) dt) = true →
  int64 (next_id db) = true →
  record (Ok (PDict m)) db
  = (db ++ [mkEmission (Some (next_id db))
              (column_text (default (PStr "") (m !! "repo")))
              (column_text (default (PStr "") (m !! "owner")))
              (column_text (default (PStr "") (m !! "run_id")))
              (float_real c) d
              (column_text (default (PStr "") (m !! "machine_type")))
              (column_text (default (PStr "") (m !! "badge"))) (naive dt)],
     Json (py_dict [("status", PStr "success"); ("id", PInt (next_id db))]) 201).
Proof.
  intros Hc Hd Hts Hok Hi. unfold record.
  rewrite (proj2 (truthy_dict m)) by (by eapply timestamp_parses_nonempty).
  rewrite (new_emission_dict_ok m c d dt) by done.
  cbn [negb mbind result_bind]. by rewrite (add_commit_ok db _ Hok Hi).
Qed.

(** C10.  POST /record with the empty object [{}] as body is answered 400
    and appends nothing: an empty dict is falsy, so the handler returns
    before any default is applied. *)
Theorem record_empty_object db :
  record (Ok (PDict ∅)) db
  = (db, Json (py_dict [("error", PStr "No data provided")]) 400).
Proof. reflexivity. Qed.

(** C7.  A POST /record whose payload has no timestamp, or a timestamp that
    is not a string that parses, fails: the response is an error (400 for
    the empty payload, else 500) and the table is as it was. *)
Theorem record_bad_timestamp db m :
  (∀ dt, ¬ timestamp_parses m dt) →
  fst (record (Ok (PDict m)) db) = db
  ∧ (snd (record (Ok (PDict m)) db)
       = Json (py_dict [("error", PStr "No data provided")]) 400
     ∨ ∃ x, snd (record (Ok (PDict m)) db) = JsonError x 500).
Proof.
  intros Hts. unfold record.
  destruct (truthy (PDict m)); cbn [negb]; [|by split; [|left]].
  destruct (new_emission (PDict m)) as [e|x] eqn:He.
  - apply new_emission_dict in He as (c & d & dt & _ & _ & Hdt & _).
    by destruct (Hts dt).
  - cbn [mbind result_bind fst snd]. split; [done|right; eauto].
Qed.

(** C2.  For every reachable table, GET /stats answers 200 with
    [total_co2] the sum of the co2 of all rows: the running total of the
    ingests, which is what [sum] computes; it is 0 for the empty table. *)
Theorem stats_total_co2 db :
  reachable db →
  status_of (stats db) = 200
  ∧ (∃ t, co2_total db t ∧ body_get (stats db) "total_co2" = Some t)
  ∧ body_get (stats db) "total_co2" = Some (py_sum (map co2 db))
  ∧ (db = [] → body_get (stats db) "total_co2" = Some (PInt 0)).
Proof.
  intros Hr. destruct (stats_reachable db Hr) as (avg & -> & _).
  split; [done|]. split; [|split].
  - exists (py_sum (map co2 db)). split; [apply py_sum_total|].
    apply py_lookup_stats.
  - apply py_lookup_stats.
  - by intros ->.
Qed.

(** C3.  For every reachable table, GET /stats answers 200 with
    [average_co2] equal to 0 for the empty table and otherwise to
    [total_co2] divided by the number of rows, a division that succeeds. *)
Theorem stats_average_co2 db :
  reachable db →
  status_of (stats db) = 200
  ∧ (db = [] → body_get (stats db) "average_co2" = Some (PInt 0))
  ∧ (db ≠ [] →
     ∃ t q, body_get (stats db) "total_co2" = Some (PFloat t)
            ∧ float_truediv_int t (Z.of_nat (length db)) = Ok q
            ∧ body_get (stats db) "average_co2" = Some (PFloat q)).
Proof.
  intros Hr. destruct (stats_reachable db Hr) as (avg & Hs & Havg).
  rewrite Hs. split; [done|]. split.
  - intros ->. by rewrite Havg.
  - intros Hne. destruct db as [|e db]; [done|].
    destruct Havg as (t & q & Ht & Hq & ->). exists t, q.
    split; [|split; [done|]].
    + rewrite <- Ht. apply py_lookup_stats.
    + apply py_lookup_stats.
Qed.

(** C4.  For every reachable table, [badge_counts] in the answer of
    GET /stats has the three entries Green, Yellow and Red and no other;
    the entry of [b] is the number of rows whose badge is [b], which is 0
    when no row has it; a row with another badge changes none of the three
    entries. *)
Theorem stats_badge_counts db :
  reachable db →
  ∃ counts,
    body_get (stats db) "badge_counts" = Some (PDict counts)
    ∧ (∀ k, is_Some (counts !! k) ↔ k ∈ ["Green"; "Yellow"; "Red"])
    ∧ ∀ b, b ∈ ["Green"; "Yellow"; "Red"] →
        ∃ n, counts !! b = Some (PInt n)
             ∧ badge_count b db n
             ∧ ((∀ e, e ∈ db → badge e ≠ PStr b) → n = 0)
             ∧ (∀ db1 e db2,
                  db = db1 ++ e :: db2 →
                  (∀ b', b' ∈ ["Green"; "Yellow"; "Red"] → badge e ≠ PStr b') →
                  badge_count b (db1 ++ db2) n).
Proof.
  intros Hr. destruct (stats_reachable db Hr) as (avg & -> & _).
  eexists. split; [apply py_lookup_stats|]. split.
  - intros k. rewrite <- elem_of_dom, dom_list_to_map_L, elem_of_list_to_set.
    done.
  - intros b Hb. exists (count_by_badge db b). split; [|split; [|split]].
    + repeat (apply elem_of_cons in Hb as [->|Hb]; [done|]).
      by apply elem_of_nil in Hb.
    + apply count_by_badge_spec.
    + intros Hnone. unfold count_by_badge.
      replace (List.filter (badge_is b) db) with (@nil Emission); [done|].
      symmetry. clear Hr. induction db as [|e db IH]; [done|]. simpl.
      destruct (badge_is b e) eqn:He.
      * apply badge_is_spec in He. destruct (Hnone e); [by left|done].
      * apply IH. intros e' He'. apply Hnone. by right.
    + intros db1 e db2 -> Hother.
      rewrite (count_by_badge_other b db1 e db2) by (by apply Hother).
      apply count_by_badge_spec.
Qed.

(** [insertable] of an object whose co2 is [float_zero]. *)
Ltac row_ok_zero :=
  unfold insertable, not_nan; cbn [co2]; rewrite float_zero_number; reflexivity.

Lemma scenario_A_then_B :
  run [Ok record_A; Ok record_B] []
  = [mkEmission (Some 1) (PStr "") (PStr "") (PStr "") float_zero 0 (PStr "")
       (PStr "Green") (mkdt 2024 1 1 0 0 0 0 None);
     mkEmission (Some 2) (PStr "") (PStr "") (PStr "") float_zero 0 (PStr "")
       (PStr "Red") (mkdt 2024 1 5 0 0 0 0 None)].
Proof.
  unfold run, record_A, record_B, py_dict. cbn [fold_left].
  rewrite (record_accepts [] _ float_zero 0 (mkdt 2024 1 1 0 0 0 0 (Some 0)));
    [|exact float_of_int_0|reflexivity|by eexists|row_ok_zero|reflexivity].
  cbn [fst].
  rewrite (record_accepts _ _ float_zero 0 (mkdt 2024 1 5 0 0 0 0 (Some 0)));
    [|exact float_of_int_0|reflexivity|by eexists|row_ok_zero|reflexivity].
  rewrite !float_real_zero. reflexivity.
Qed.

Lemma scenario_B_then_A :
  run [Ok record_B; Ok record_A] []
  = [mkEmission (Some 1) (PStr "") (PStr "") (PStr "") float_zero 0 (PStr "")
       (PStr "Red") (mkdt 2024 1 5 0 0 0 0 None);
     mkEmission (Some 2) (PStr "") (PStr "") (PStr "") float_zero 0 (PStr "")
       (PStr "Green") (mkdt 2024 1 1 0 0 0 0 None)].
Proof.
  unfold run, record_A, record_B, py_dict. cbn [fold_left].
  rewrite (record_accepts [] _ float_zero 0 (mkdt 2024 1 5 0 0 0 0 (Some 0)));
    [|exact float_of_int_0|reflexivity|by eexists|row_ok_zero|reflexivity].
  cbn [fst].
  rewrite (record_accepts _ _ float_zero 0 (mkdt 2024 1 1 0 0 0 0 (Some 0)));
    [|exact float_of_int_0|reflexivity|by eexists|row_ok_zero|reflexivity].
  rewrite !float_real_zero. reflexivity.
Qed.

(** C5.  On a reachable, non-empty table GET /latest_co2_badge answers 200
    with the badge of a row whose timestamp no row exceeds, wherever the
    row is in the table.  After record A (2024-01-01T00:00:00Z, Green) and
    then record B (2024-01-05T00:00:00Z, Red) on the empty table, the
    message is "Red" and the color "red"; so it is after B and then A. *)
Theorem latest_badge_by_timestamp :
  (∀ db, reachable db → db ≠ [] →
     ∃ e, e ∈ db
          ∧ (∀ e', e' ∈ db → dt_leb (timestamp e') (timestamp e) = true)
          ∧ status_of (latest_co2_badge db) = 200
          ∧ body_get (latest_co2_badge db) "message" = Some (badge e))
  ∧ (body_get (latest_co2_badge (run [Ok record_A; Ok record_B] [])) "message"
       = Some (PStr "Red")
     ∧ body_get (latest_co2_badge (run [Ok record_A; Ok record_B] [])) "color"
       = Some (PStr "red"))
  ∧ (body_get (latest_co2_badge (run [Ok record_B; Ok record_A] [])) "message"
       = Some (PStr "Red")
     ∧ body_get (latest_co2_badge (run [Ok record_B; Ok record_A] [])) "color"
       = Some (PStr "red")).
Proof.
  split; [|split].
  - intros db Hr Hne. destruct (order_by_nonempty db Hne) as [e He].
    destruct (order_by_head db e He) as [Hin Hmax].
    destruct (latest_co2_badge_reachable db e Hr He) as (color & _ & ->).
    exists e. split; [done|]. split; [|split; [done|reflexivity]].
    intros e' He'. unfold dt_leb. by rewrite (Hmax e' He').
  - rewrite scenario_A_then_B. split; reflexivity.
  - rewrite scenario_B_then_A. split; reflexivity.
Qed.

(** C6.  GET /latest_co2_badge on the empty table answers 200 with message
    "No Data" and color "lightgrey".  On a reachable, non-empty table the
    message is the badge of the most recent record: a row of the table
    whose timestamp no row of the table exceeds (the first one in
    descending order of timestamp).  That badge is a string, and the color
    is brightgreen, yellow or red for the badge Green, Yellow or Red, and
    lightgrey for any other badge. *)
Theorem latest_badge_message_color :
  latest_co2_badge []
  = Json (py_dict [("schemaVersion", PInt 1); ("label", PStr "CO2");
                   ("message", PStr "No Data"); ("color", PStr "lightgrey")]) 200
  ∧ ∀ db, reachable db → db ≠ [] →
      ∃ e s color,
        e ∈ db
        ∧ (∀ e', e' ∈ db → dt_leb (timestamp e') (timestamp e) = true)
        ∧ head (order_by_timestamp_desc db) = Some e
        ∧ badge e = PStr s
        ∧ latest_co2_badge db
          = Json (py_dict [("schemaVersion", PInt 1); ("label", PStr "CO2");
                           ("message", PStr s); ("color", PStr color)]) 200
        ∧ (s = "Green" → color = "brightgreen")
        ∧ (s = "Yellow" → color = "yellow")
        ∧ (s = "Red" → color = "red")
        ∧ (s ≠ "Green" → s ≠ "Yellow" → s ≠ "Red" → color = "lightgrey").
Proof.
  split; [reflexivity|]. intros db Hr Hne.
  destruct (order_by_nonempty db Hne) as [e He].
  destruct (order_by_head db e He) as [Hin Hmax].
  destruct (reachable_inv db Hr) as (_ & Hrows & _).
  rewrite Forall_forall in Hrows.
  destruct (row_ok_badge e (Hrows e Hin)) as [s Hs].
  destruct (color_map_get_cases s) as (color & Hc & Hcases).
  exists e, s, color. split; [done|].
  split; [intros e' He'; unfold dt_leb; by rewrite (Hmax e' He')|].
  split; [done|]. split; [done|]. split; [|done].
  unfold latest_co2_badge. rewrite He. cbn [mbind result_bind].
  by rewrite Hs, Hc.
Qed.

Lemma ids_ok_fresh db e : ids_ok db → e ∈ db → id e ≠ Some (next_id db).
Proof.
  intros Hids He Heq. rewrite (next_id_ids_ok db Hids) in Heq.
  assert (Hin : id e ∈ map id db) by (by apply list_elem_of_fmap_2).
  rewrite Hids in Hin. apply list_elem_of_fmap in Hin as (k & Hk & Hin).
  apply list_elem_of_In, in_seq in Hin. rewrite Heq in Hk.
  injection Hk as Hk. lia.
Qed.

Lemma emission_data_lookup e :
  py_lookup (emission_data e) "repo" = Some (repo e)
  ∧ py_lookup (emission_data e) "owner" = Some (owner e)
  ∧ py_lookup (emission_data e) "run_id" = Some (run_id e)
  ∧ py_lookup (emission_data e) "co2" = Some (PFloat (co2 e))
  ∧ py_lookup (emission_data e) "duration" = Some (PInt (duration e))
  ∧ py_lookup (emission_data e) "machine_type" = Some (machine_type e)
  ∧ py_lookup (emission_data e) "badge" = Some (badge e)
  ∧ py_lookup (emission_data e) "timestamp"
    = Some (PStr (isoformat (timestamp e))).
Proof. repeat split; reflexivity. Qed.

(** What an accepted payload leaves in the table. *)
Lemma record_created_row db m db' body :
  record (Ok (PDict m)) db = (db', Json body 201) →
  ∃ c d dt,
    py_float (default (PInt 0) (m !! "co2")) = Ok c
    ∧ py_int (default (PInt 0) (m !! "duration")) = Ok d
    ∧ timestamp_parses m dt
    ∧ db' = db ++ [mkEmission (Some (next_id db))
                     (column_text (default (PStr "") (m !! "repo")))
                     (column_text (default (PStr "") (m !! "owner")))
                     (column_text (default (PStr "") (m !! "run_id")))
                     (float_real c) d
                     (column_text (default (PStr "") (m !! "machine_type")))
                     (column_text (default (PStr "") (m !! "badge")))
                     (naive dt)]
    ∧ body = py_dict [("status", PStr "success"); ("id", PInt (next_id db))].
Proof.
  intros Hr.
  apply record_created in Hr as (data & e & row & [= <-] & _ & He & Hc & -> & ->).
  apply new_emission_dict in He as (c & d & dt & Hco2 & Hd & Hts & ->).
  apply add_commit_inv in Hc as (-> & _).
  exists c, d, dt. done.
Qed.

(** C1, as the code has it.  When POST /record accepts a payload on a
    reachable table, the table is the former one with one new row at the
    end, whose key no other row has.  GET /stats then answers 200 with
    [emissions] the entries of all rows in insertion order, which are the
    former entries followed by the entry of the new row.  In that entry a
    supplied repo, owner, run_id, machine_type or badge is what a [String]
    column gives back of it: a string as supplied, a number as its text.
    A supplied duration that is an int is as supplied.  A supplied co2
    that is a float is as supplied, but [-0.0] is [0.0].  The timestamp is
    the [isoformat] of the wall-clock fields of the supplied timestamp,
    without its offset from UTC, which [fromisoformat] reads back as a
    naive datetime: it is the text supplied when that text is the
    [isoformat] of a naive datetime, and the datetime supplied when that
    has no offset. *)
Theorem record_stats_roundtrip db m db' body :
  reachable db →
  record (Ok (PDict m)) db = (db', Json body 201) →
  ∃ row dt,
    db' = db ++ [row]
    ∧ (∀ e, e ∈ db → id e ≠ id row)
    ∧ status_of (stats db') = 200
    ∧ body_get (stats db') "emissions" = Some (PList (map emission_data db'))
    ∧ map emission_data db' = map emission_data db ++ [emission_data row]
    ∧ (∀ k v, k ∈ ["repo"; "owner"; "run_id"; "machine_type"; "badge"] →
              m !! k = Some v →
              py_lookup (emission_data row) k = Some (column_text v))
    ∧ (∀ k s, k ∈ ["repo"; "owner"; "run_id"; "machine_type"; "badge"] →
              m !! k = Some (PStr s) →
              py_lookup (emission_data row) k = Some (PStr s))
    ∧ (∀ z, m !! "duration" = Some (PInt z) →
            py_lookup (emission_data row) "duration" = Some (PInt z))
    ∧ (∀ f, m !! "co2" = Some (PFloat f) →
            py_lookup (emission_data row) "co2" = Some (PFloat (float_real f))
            ∧ (float_eqb f float_zero = false → float_real f = f)
            ∧ (float_eqb f float_zero = true → float_real f = float_zero))
    ∧ timestamp_parses m dt
    ∧ py_lookup (emission_data row) "timestamp"
      = Some (PStr (isoformat (naive dt)))
    ∧ fromisoformat (isoformat (naive dt)) = Some (naive dt)
    ∧ (utcoffset dt = None → naive dt = dt)
    ∧ (∀ dt0, valid_datetime dt0 = true → utcoffset dt0 = None →
              m !! "timestamp" = Some (PStr (isoformat dt0)) →
              py_lookup (emission_data row) "timestamp"
              = Some (PStr (isoformat dt0))).
Proof.
  intros Hr Hrec.
  assert (Hr' : reachable db').
  { change db' with (fst (db', Json body 201)). rewrite <- Hrec.
    by constructor. }
  destruct (record_created_row _ _ _ _ Hrec) as (c & d & dt & Hc & Hd & Hts & -> & _).
  eexists _, dt. split; [reflexivity|].
  destruct (reachable_inv db Hr) as (Hids & _).
  destruct (stats_reachable _ Hr') as (avg & Hs & _).
  split; [intros e He; by apply ids_ok_fresh|].
  split; [by rewrite Hs|]. split; [rewrite Hs; apply py_lookup_stats|].
  split; [by rewrite map_app|].
  match goal with
  | |- context [emission_data ?row] =>
      destruct (emission_data_lookup row)
        as (Hrepo & Howner & Hrun & Hco2 & Hdur & Hmachine & Hbadge & Htime)
  end.
  cbn [repo owner run_id co2 duration machine_type badge timestamp] in *.
  assert (Hcols : ∀ k v,
            k ∈ ["repo"; "owner"; "run_id"; "machine_type"; "badge"] →
            m !! k = Some v →
            py_lookup
              (emission_data
                 (mkEmission (Some (next_id db))
                    (column_text (default (PStr "") (m !! "repo")))
                    (column_text (default (PStr "") (m !! "owner")))
                    (column_text (default (PStr "") (m !! "run_id")))
                    (float_real c) d
                    (column_text (default (PStr "") (m !! "machine_type")))
                    (column_text (default (PStr "") (m !! "badge")))
                    (naive dt))) k
            = Some (column_text v)).
  { intros k v Hk Hv.
    repeat (apply elem_of_cons in Hk as [->|Hk];
            [by rewrite ?Hrepo, ?Howner, ?Hrun, ?Hmachine, ?Hbadge, Hv|]).
    by apply elem_of_nil in Hk. }
  split; [exact Hcols|]. split; [intros k s Hk Hv; exact (Hcols k _ Hk Hv)|].
  split.
  { intros z Hz. rewrite Hz in Hd. simpl in Hd. injection Hd as <-. exact Hdur. }
  split.
  { intros f Hf. rewrite Hf in Hc. simpl in Hc. injection Hc as <-.
    split; [exact Hco2|]. split; [apply float_real_nonzero|].
    unfold float_real. by intros ->. }
  split; [done|]. split; [exact Htime|].
  assert (Hv : valid_datetime (naive dt) = true).
  { destruct Hts as (s & _ & Hdt).
    by apply valid_naive, (fromisoformat_valid _ _ Hdt). }
  split; [by apply fromisoformat_isoformat|].
  split; [apply naive_naive|].
  intros dt0 Hv0 Ho0 Hm. destruct Hts as (s & Hs' & Hdt).
  rewrite Hm in Hs'. injection Hs' as <-.
  rewrite str_replace_absent in Hdt by (by apply occurs_Z_isoformat).
  rewrite (fromisoformat_isoformat dt0 Hv0 Ho0) in Hdt. injection Hdt as <-.
  by rewrite Htime, (naive_naive dt0 Ho0).
Qed.

Lemma well_typed_str_column (k : string) m :
  k ∈ ["repo"; "owner"; "run_id"; "machine_type"; "badge"] →
  (∀ v, m !! k = Some v → well_typed k v = true) →
  ∃ s, default (PStr "") (m !! k) = PStr s.
Proof.
  intros Hk Hwt. destruct (m !! k) as [v|]; [|by exists ""].
  specialize (Hwt v eq_refl). destruct v; simpl in *; try done; [| |by eexists].
  - apply String.eqb_eq in Hwt as ->.
    repeat (apply elem_of_cons in Hk as [Hk|Hk]; [discriminate|]).
    by apply elem_of_nil in Hk.
  - apply String.eqb_eq in Hwt as ->.
    repeat (apply elem_of_cons in Hk as [Hk|Hk]; [discriminate|]).
    by apply elem_of_nil in Hk.
Qed.

(** Membership in a list given by its elements. *)
Ltac in_list := apply list_elem_of_In; simpl; tauto.

(** A payload with a timestamp that parses and fields of the types of
    their columns is stored, while the table has a key left. *)
Lemma record_accepts_typed db m dt :
  timestamp_parses m dt →
  (∀ k v, k ∈ ["repo"; "owner"; "run_id"; "machine_type"; "badge"; "co2";
               "duration"] →
          m !! k = Some v → well_typed k v = true) →
  (∀ z, m !! "duration" = Some (PInt z) → int64 z = true) →
  (∀ f, m !! "co2" = Some (PFloat f) → float_isnan f = false) →
  int64 (next_id db) = true →
  ∃ c d,
    py_float (default (PInt 0) (m !! "co2")) = Ok c
    ∧ py_int (default (PInt 0) (m !! "duration")) = Ok d
    ∧ record (Ok (PDict m)) db
      = (db ++ [mkEmission (Some (next_id db))
                  (column_text (default (PStr "") (m !! "repo")))
                  (column_text (default (PStr "") (m !! "owner")))
                  (column_text (default (PStr "") (m !! "run_id")))
                  (float_real c) d
                  (column_text (default (PStr "") (m !! "machine_type")))
                  (column_text (default (PStr "") (m !! "badge")))
                  (naive dt)],
         Json (py_dict [("status", PStr "success");
                        ("id", PInt (next_id db))]) 201).
Proof.
  intros Hts Hwt Hdur Hnan Hi.
  assert (Hc : ∃ c, py_float (default (PInt 0) (m !! "co2")) = Ok c
                    ∧ float_isnan c = false).
  { destruct (m !! "co2") as [v|] eqn:Hv.
    - assert (Hv' : well_typed "co2" v = true) by (apply Hwt; [in_list|done]).
      destruct v; try done. eexists. split; [done|]. by apply Hnan.
    - exists float_zero. split; [exact float_of_int_0|exact float_zero_number]. }
  assert (Hd : ∃ d, py_int (default (PInt 0) (m !! "duration")) = Ok d
                    ∧ int64 d = true).
  { destruct (m !! "duration") as [v|] eqn:Hv; [|by exists 0].
    assert (Hv' : well_typed "duration" v = true) by (apply Hwt; [in_list|done]).
    destruct v; try done. eexists. split; [done|]. by apply Hdur. }
  destruct Hc as (c & Hc & Hcn). destruct Hd as (d & Hd & Hd64). exists c, d.
  split; [done|]. split; [done|]. apply record_accepts; try done.
  apply insertable_spec.
  cbn [repo owner run_id co2 duration machine_type badge].
  destruct (well_typed_str_column "repo" m) as [? ->];
    [in_list|intros; apply Hwt; [in_list|done]|].
  destruct (well_typed_str_column "owner" m) as [? ->];
    [in_list|intros; apply Hwt; [in_list|done]|].
  destruct (well_typed_str_column "run_id" m) as [? ->];
    [in_list|intros; apply Hwt; [in_list|done]|].
  destruct (well_typed_str_column "machine_type" m) as [? ->];
    [in_list|intros; apply Hwt; [in_list|done]|].
  destruct (well_typed_str_column "badge" m) as [? ->];
    [in_list|intros; apply Hwt; [in_list|done]|].
  unfold not_nan. rewrite Hd64, Hcn. done.
Qed.


(** C9, as the code has it.  No sign is checked.  The row an accepted
    payload leaves holds [float] of the supplied co2, with [0.0] for
    [-0.0], and [int] of the supplied duration (of 0 when they are
    absent): a supplied float co2 other than a zero and a supplied int
    duration are stored as supplied.  And a payload whose timestamp parses
    and whose supplied fields have the types of their columns is accepted,
    while the table has a key left, whatever the sign of a co2 that is a
    number and of a duration within 64 bits. *)
Theorem record_stores_converted :
  (∀ db m db' body,
     record (Ok (PDict m)) db = (db', Json body 201) →
     ∃ row c,
       db' = db ++ [row]
       ∧ py_float (default (PInt 0) (m !! "co2")) = Ok c
       ∧ co2 row = float_real c
       ∧ py_int (default (PInt 0) (m !! "duration")) = Ok (duration row)
       ∧ (∀ f, m !! "co2" = Some (PFloat f) →
               co2 row = float_real f
               ∧ (float_eqb f float_zero = false → co2 row = f))
       ∧ (∀ z, m !! "duration" = Some (PInt z) → duration row = z))
  ∧ (∀ db m dt,
       timestamp_parses m dt →
       (∀ k v, k ∈ ["repo"; "owner"; "run_id"; "machine_type"; "badge";
                    "co2"; "duration"] →
               m !! k = Some v → well_typed k v = true) →
       (∀ z, m !! "duration" = Some (PInt z) → int64 z = true) →
       (∀ f, m !! "co2" = Some (PFloat f) → float_isnan f = false) →
       int64 (next_id db) = true →
       ∃ row,
         record (Ok (PDict m)) db
         = (db ++ [row],
            Json (py_dict [("status", PStr "success");
                           ("id", PInt (next_id db))]) 201)
         ∧ (∀ f, m !! "co2" = Some (PFloat f) →
                 co2 row = float_real f
                 ∧ (float_eqb f float_zero = false → co2 row = f))
         ∧ (∀ z, m !! "duration" = Some (PInt z) → duration row = z)).
Proof.
  split.
  - intros db m db' body Hrec.
    destruct (record_created_row _ _ _ _ Hrec)
      as (c & d & dt & Hc & Hd & _ & -> & _).
    eexists _, c. split; [reflexivity|]. cbn [co2 duration].
    split; [done|]. split; [done|]. split; [done|]. split.
    + intros f Hf. rewrite Hf in Hc. simpl in Hc. injection Hc as <-.
      split; [done|]. apply float_real_nonzero.
    + intros z Hz. rewrite Hz in Hd. by injection Hd.
  - intros db m dt Hts Hwt Hdur Hnan Hi.
    destruct (record_accepts_typed db m dt Hts Hwt Hdur Hnan Hi)
      as (c & d & Hc & Hd & ->).
    eexists. split; [reflexivity|]. cbn [co2 duration]. split.
    + intros f Hf. rewrite Hf in Hc. simpl in Hc. injection Hc as <-.
      split; [done|]. apply float_real_nonzero.
    + intros z Hz. rewrite Hz in Hd. by injection Hd.
Qed.

End Properties.

(** * The claims on sample payloads *)

Lemma reachable_sample_table : reachable sample_table.
Proof. unfold sample_table. apply reachable_run. constructor. Qed.

Lemma sample_table_nonempty : sample_table ≠ [].
Proof.
  intros Heq. apply (f_equal length) in Heq.
  change (3%nat = 0%nat) in Heq. discriminate.
Qed.

Lemma record_sample_run :
  record (Ok (PDict sample_run)) []
  = (fst (record (Ok (PDict sample_run)) []),
     Json (py_dict [("status", PStr "success"); ("id", PInt 1)]) 201).
Proof. reflexivity. Qed.

Lemma record_negative_run :
  record (Ok (PDict negative_run)) []
  = ([negative_row],
     Json (py_dict [("status", PStr "success"); ("id", PInt 1)]) 201).
Proof. reflexivity. Qed.

Lemma untimed_run_no_timestamp dt : ¬ timestamp_parses untimed_run dt.
Proof.
  intros (s & Hs & _). change (@None pyval = Some (PStr s)) in Hs.
  discriminate.
Qed.



Lemma sample_table_rows : sample_table = sample_rows.
Proof. reflexivity. Qed.

Lemma record_sample_run_again :
  record (Ok (PDict sample_run)) sample_table
  = (fst (record (Ok (PDict sample_run)) sample_table),
     Json (py_dict [("status", PStr "success"); ("id", PInt 4)]) 201).
Proof. reflexivity. Qed.

Lemma record_offset_run :
  record (Ok (PDict offset_run)) []
  = ([offset_row],
     Json (py_dict [("status", PStr "success"); ("id", PInt 1)]) 201).
Proof. reflexivity. Qed.

Lemma record_untyped_run :
  record (Ok (PDict untyped_run)) []
  = ([untyped_row],
     Json (py_dict [("status", PStr "success"); ("id", PInt 1)]) 201).
Proof. reflexivity. Qed.

(** C1, as the code has it, on [sample_run], posted to [sample_table]. *)
Lemma record_stats_roundtrip_sample :
  reachable sample_table
  ∧ record (Ok (PDict sample_run)) sample_table
    = (fst (record (Ok (PDict sample_run)) sample_table),
       Json (py_dict [("status", PStr "success"); ("id", PInt 4)]) 201)
  ∧ ∃ row dt,
      fst (record (Ok (PDict sample_run)) sample_table) = sample_table ++ [row]
      ∧ (∀ e, e ∈ sample_table → id e ≠ id row)
      ∧ status_of (stats (fst (record (Ok (PDict sample_run)) sample_table)))
        = 200
      ∧ body_get (stats (fst (record (Ok (PDict sample_run)) sample_table)))
                 "emissions"
        = Some (PList (map emission_data
                         (fst (record (Ok (PDict sample_run)) sample_table))))
      ∧ map emission_data (fst (record (Ok (PDict sample_run)) sample_table))
        = map emission_data sample_table ++ [emission_data row]
      ∧ (∀ k v, k ∈ ["repo"; "owner"; "run_id"; "machine_type"; "badge"] →
                sample_run !! k = Some v →
                py_lookup (emission_data row) k = Some (column_text v))
      ∧ (∀ k s, k ∈ ["repo"; "owner"; "run_id"; "machine_type"; "badge"] →
                sample_run !! k = Some (PStr s) →
                py_lookup (emission_data row) k = Some (PStr s))
      ∧ (∀ z, sample_run !! "duration" = Some (PInt z) →
              py_lookup (emission_data row) "duration" = Some (PInt z))
      ∧ (∀ f, sample_run !! "co2" = Some (PFloat f) →
              py_lookup (emission_data row) "co2"
              = Some (PFloat (float_real f))
              ∧ (float_eqb f float_zero = false → float_real f = f)
              ∧ (float_eqb f float_zero = true → float_real f = float_zero))
      ∧ timestamp_parses sample_run dt
      ∧ py_lookup (emission_data row) "timestamp"
        = Some (PStr (isoformat (naive dt)))
      ∧ fromisoformat (isoformat (naive dt)) = Some (naive dt)
      ∧ (utcoffset dt = None → naive dt = dt)
      ∧ (∀ dt0, valid_datetime dt0 = true → utcoffset dt0 = None →
                sample_run !! "timestamp" = Some (PStr (isoformat dt0)) →
                py_lookup (emission_data row) "timestamp"
                = Some (PStr (isoformat dt0))).
Proof.
  split; [exact reachable_sample_table|].
  split; [exact record_sample_run_again|].
  exact (record_stats_roundtrip sample_table sample_run _ _
           reachable_sample_table record_sample_run_again).
Defined.

(** C1 fails on [offset_run] and on [untyped_run].  Posted to the empty
    table, [offset_run] is accepted; its timestamp is 12:30 at five hours
    east of UTC, and the timestamp of its entry in GET /stats is 12:30
    without offset, which does not read back as the datetime supplied.
    And [untyped_run] is accepted with its co2 [-0.0], which its entry has
    as [0.0]. *)
Lemma offset_run_not_preserved :
  record (Ok (PDict offset_run)) []
  = ([offset_row],
     Json (py_dict [("status", PStr "success"); ("id", PInt 1)]) 201)
  ∧ timestamp_parses offset_run (mkdt 2024 1 3 12 30 0 0 (Some 18000000000))
  ∧ body_get (stats [offset_row]) "emissions"
    = Some (PList [emission_data offset_row])
  ∧ py_lookup (emission_data offset_row) "timestamp"
    = Some (PStr "2024-01-03T12:30:00")
  ∧ fromisoformat "2024-01-03T12:30:00" = Some (mkdt 2024 1 3 12 30 0 0 None)
  ∧ record (Ok (PDict untyped_run)) []
    = ([untyped_row],
       Json (py_dict [("status", PStr "success"); ("id", PInt 1)]) 201)
  ∧ untyped_run !! "co2" = Some (PFloat (S754_zero true))
  ∧ py_lookup (emission_data untyped_row) "co2"
    = Some (PFloat (S754_zero false))
  ∧ ¬ (∀ (db : table) m db' body,
         reachable db →
         record (Ok (PDict m)) db = (db', Json body 201) →
         ∃ row, db' = db ++ [row] ∧ preserved m (emission_data row)).
Proof.
  split; [exact record_offset_run|].
  split; [eexists; split; reflexivity|].
  split; [reflexivity|]. split; [reflexivity|]. split; [reflexivity|].
  split; [exact record_untyped_run|].
  split; [reflexivity|]. split; [reflexivity|].
  intros Hall.
  destruct (Hall [] offset_run _ _ reachable_nil record_offset_run)
    as (row & Hrow & _ & s & dt & Hs & Hparse & s' & Hs' & Hdt).
  change ([offset_row] = [row]) in Hrow. injection Hrow as <-.
  change (Some (PStr "2024-01-03T12:30:00") = Some (PStr s)) in Hs.
  injection Hs as <-.
  change (Some (mkdt 2024 1 3 12 30 0 0 None) = Some dt) in Hparse.
  injection Hparse as <-.
  change (Some (PStr "2024-01-03T12:30:00+05:00") = Some (PStr s')) in Hs'.
  injection Hs' as <-.
  change (Some (mkdt 2024 1 3 12 30 0 0 (Some 18000000000))
          = Some (mkdt 2024 1 3 12 30 0 0 None)) in Hdt.
  discriminate Hdt.
Qed.

(** C2 on [sample_table]. *)
Lemma stats_total_co2_sample :
  reachable sample_table
  ∧ status_of (stats sample_table) = 200
  ∧ (∃ t, co2_total sample_table t
          ∧ body_get (stats sample_table) "total_co2" = Some t)
  ∧ body_get (stats sample_table) "total_co2"
    = Some (py_sum (map co2 sample_table))
  ∧ (sample_table = [] →
     body_get (stats sample_table) "total_co2" = Some (PInt 0)).
Proof.
  split; [exact reachable_sample_table|].
  exact (stats_total_co2 sample_table reachable_sample_table).
Defined.

(** C3 on [sample_table]. *)
Lemma stats_average_co2_sample :
  reachable sample_table
  ∧ status_of (stats sample_table) = 200
  ∧ (sample_table = [] →
     body_get (stats sample_table) "average_co2" = Some (PInt 0))
  ∧ (sample_table ≠ [] →
     ∃ t q, body_get (stats sample_table) "total_co2" = Some (PFloat t)
            ∧ float_truediv_int t (Z.of_nat (length sample_table)) = Ok q
            ∧ body_get (stats sample_table) "average_co2" = Some (PFloat q)).
Proof.
  split; [exact reachable_sample_table|].
  exact (stats_average_co2 sample_table reachable_sample_table).
Defined.

(** C4 on [sample_table]. *)
Lemma stats_badge_counts_sample :
  reachable sample_table
  ∧ ∃ counts,
      body_get (stats sample_table) "badge_counts" = Some (PDict counts)
      ∧ (∀ k, is_Some (counts !! k) ↔ k ∈ ["Green"; "Yellow"; "Red"])
      ∧ ∀ b, b ∈ ["Green"; "Yellow"; "Red"] →
          ∃ n, counts !! b = Some (PInt n)
               ∧ badge_count b sample_table n
               ∧ ((∀ e, e ∈ sample_table → badge e ≠ PStr b) → n = 0)
               ∧ (∀ db1 e db2,
                    sample_table = db1 ++ e :: db2 →
                    (∀ b', b' ∈ ["Green"; "Yellow"; "Red"] →
                           badge e ≠ PStr b') →
                    badge_count b (db1 ++ db2) n).
Proof.
  split; [exact reachable_sample_table|].
  exact (stats_badge_counts sample_table reachable_sample_table).
Defined.

(** C5 on [sample_table]. *)
Lemma latest_badge_by_timestamp_sample :
  reachable sample_table ∧ sample_table ≠ []
  ∧ ∃ e, e ∈ sample_table
         ∧ (∀ e', e' ∈ sample_table →
                  dt_leb (timestamp e') (timestamp e) = true)
         ∧ status_of (latest_co2_badge sample_table) = 200
         ∧ body_get (latest_co2_badge sample_table) "message" = Some (badge e).
Proof.
  split; [exact reachable_sample_table|].
  split; [exact sample_table_nonempty|].
  exact (proj1 latest_badge_by_timestamp sample_table reachable_sample_table
           sample_table_nonempty).
Defined.

(** C6 on [sample_table], whose second row is the most recent one. *)
Lemma latest_badge_message_color_sample :
  reachable sample_table ∧ sample_table ≠ []
  ∧ latest_co2_badge sample_table
    = Json (py_dict [("schemaVersion", PInt 1); ("label", PStr "CO2");
                     ("message", PStr "Red"); ("color", PStr "red")]) 200
  ∧ ∃ e s color,
      e ∈ sample_table
      ∧ (∀ e', e' ∈ sample_table → dt_leb (timestamp e') (timestamp e) = true)
      ∧ head (order_by_timestamp_desc sample_table) = Some e
      ∧ badge e = PStr s
      ∧ latest_co2_badge sample_table
        = Json (py_dict [("schemaVersion", PInt 1); ("label", PStr "CO2");
                         ("message", PStr s); ("color", PStr color)]) 200
      ∧ (s = "Green" → color = "brightgreen")
      ∧ (s = "Yellow" → color = "yellow")
      ∧ (s = "Red" → color = "red")
      ∧ (s ≠ "Green" → s ≠ "Yellow" → s ≠ "Red" → color = "lightgrey").
Proof.
  split; [exact reachable_sample_table|].
  split; [exact sample_table_nonempty|]. split; [reflexivity|].
  exact (proj2 latest_badge_message_color sample_table reachable_sample_table
           sample_table_nonempty).
Defined.

(** C7 on [untimed_run], posted to the empty table. *)
Lemma record_bad_timestamp_sample :
  (∀ dt, ¬ timestamp_parses untimed_run dt)
  ∧ fst (record (Ok (PDict untimed_run)) []) = []
  ∧ (snd (record (Ok (PDict untimed_run)) [])
       = Json (py_dict [("error", PStr "No data provided")]) 400
     ∨ ∃ x, snd (record (Ok (PDict untimed_run)) []) = JsonError x 500).
Proof.
  split; [exact untimed_run_no_timestamp|].
  exact (record_bad_timestamp [] untimed_run untimed_run_no_timestamp).
Defined.


(** C9 fails on [negative_run]: posted to the empty table it is accepted,
    and the row it leaves has a negative co2 and a negative duration. *)
Lemma negative_run_stored :
  record (Ok (PDict negative_run)) []
  = ([negative_row],
     Json (py_dict [("status", PStr "success"); ("id", PInt 1)]) 201)
  ∧ float_leb float_zero (co2 negative_row) = false
  ∧ duration negative_row < 0
  ∧ ¬ (∀ db : table, reachable db → ∀ e, e ∈ db → non_negative e).
Proof.
  split; [exact record_negative_run|]. split; [reflexivity|].
  split; [reflexivity|]. intros Hall.
  destruct (Hall [negative_row]) with (e := negative_row) as [_ Hd].
  - change [negative_row]
      with (fst ([negative_row],
                 Json (py_dict [("status", PStr "success"); ("id", PInt 1)]) 201)).
    rewrite <- record_negative_run. constructor. constructor.
  - by left.
  - simpl in Hd. lia.
Qed.

Lemma negative_run_typed k v :
  k ∈ ["repo"; "owner"; "run_id"; "machine_type"; "badge"; "co2"; "duration"] →
  negative_run !! k = Some v → well_typed k v = true.
Proof.
  intros Hk Hv.
  assert (Ht : match negative_run !! k with
               | Some v => well_typed k v = true
               | None => True
               end).
  { repeat (apply elem_of_cons in Hk as [->|Hk]; [reflexivity|]).
    by apply elem_of_nil in Hk. }
  by rewrite Hv in Ht.
Qed.

Lemma negative_run_parses :
  timestamp_parses negative_run (mkdt 2024 1 1 0 0 0 0 (Some 0)).
Proof. eexists. split; reflexivity. Qed.

Lemma negative_run_duration z :
  negative_run !! "duration" = Some (PInt z) → int64 z = true.
Proof.
  intros Hz. change (Some (PInt (-5)) = Some (PInt z)) in Hz.
  by injection Hz as <-.
Qed.

Lemma negative_run_co2 (f : spec_float) :
  negative_run !! "co2" = Some (PFloat f) → float_isnan f = false.
Proof.
  intros Hf.
  change (Some (PFloat (b64_of_decimal true 15 (-1))) = Some (PFloat f)) in Hf.
  by injection Hf as <-.
Qed.

(** C9, as the code has it, on [negative_run]. *)
Lemma record_stores_converted_sample :
  record (Ok (PDict negative_run)) []
  = ([negative_row],
     Json (py_dict [("status", PStr "success"); ("id", PInt 1)]) 201)
  ∧ (∃ row c,
       [negative_row] = [] ++ [row]
       ∧ py_float (default (PInt 0) (negative_run !! "co2")) = Ok c
       ∧ co2 row = float_real c
       ∧ py_int (default (PInt 0) (negative_run !! "duration"))
         = Ok (duration row)
       ∧ (∀ f, negative_run !! "co2" = Some (PFloat f) →
               co2 row = float_real f
               ∧ (float_eqb f float_zero = false → co2 row = f))
       ∧ (∀ z, negative_run !! "duration" = Some (PInt z) → duration row = z))
  ∧ timestamp_parses negative_run (mkdt 2024 1 1 0 0 0 0 (Some 0))
  ∧ int64 (next_id (@nil Emission)) = true
  ∧ ∃ row,
      record (Ok (PDict negative_run)) []
      = ([] ++ [row],
         Json (py_dict [("status", PStr "success");
                        ("id", PInt (next_id []))]) 201)
      ∧ (∀ f, negative_run !! "co2" = Some (PFloat f) →
              co2 row = float_real f
              ∧ (float_eqb f float_zero = false → co2 row = f))
      ∧ (∀ z, negative_run !! "duration" = Some (PInt z) → duration row = z).
Proof.
  split; [exact record_negative_run|].
  split; [exact (proj1 record_stores_converted [] negative_run _ _
                   record_negative_run)|].
  split; [exact negative_run_parses|]. split; [reflexivity|].
  exact (proj2 record_stores_converted [] negative_run _ negative_run_parses
           negative_run_typed negative_run_duration negative_run_co2 eq_refl).
Defined.

(** * Further properties of the backend *)

Section BackendExtras.
Context `{PyFloat}.

Implicit Types (db : table) (m : gmap string pyval) (e row : Emission).

Lemma run_app (rqs1 rqs2 : list (result pyval)) db :
  run (rqs1 ++ rqs2) db = run rqs2 (run rqs1 db).
Proof. unfold run. by rewrite fold_left_app. Qed.

Lemma record_unchanged rq db :
  status_of (snd (record rq db)) ≠ 201 → fst (record rq db) = db.
Proof.
  intros Hs. destruct (record_inv rq db) as [[-> _]|(data & e & row & _ & _ & _ & _ & Hr)];
    [done|].
  rewrite Hr in Hs. by destruct Hs.
Qed.

(** X1.  POST /record never changes or removes a row: the table after a
    request is the table before it, followed by one new row when the answer
    is 201 and by nothing otherwise. *)
Theorem record_append_only (rq : result pyval) db :
  ∃ new,
    fst (record rq db) = db ++ new
    ∧ (status_of (snd (record rq db)) = 201 → ∃ row, new = [row])
    ∧ (status_of (snd (record rq db)) ≠ 201 → new = []).
Proof.
  destruct (record_inv rq db) as [[Hdb Hs]|(data & e & row & _ & _ & _ & _ & Hr)].
  - exists []. rewrite app_nil_r. split; [done|].
    split; [|done]. intros H201. rewrite H201 in Hs. by destruct Hs.
  - exists [row]. rewrite Hr. split; [done|]. split; [eauto|]. by intros [].
Qed.

(** X2.  On a reachable table the keys are 1, 2, ... in insertion order,
    and the id in a 201 answer is the number of rows the table then has. *)
Theorem record_id_counts_rows (rq : result pyval) db db' body :
  reachable db →
  record rq db = (db', Json body 201) →
  py_lookup body "id" = Some (PInt (Z.of_nat (length db')))
  ∧ map id db' = map (fun k => Some (Z.of_nat k)) (seq 1 (length db')).
Proof.
  intros Hr Hrec.
  assert (Hr' : reachable db').
  { change db' with (fst (db', Json body 201)). rewrite <- Hrec. by constructor. }
  destruct (reachable_inv db Hr) as (Hids & _).
  destruct (reachable_inv db' Hr') as (Hids' & _). split; [|exact Hids'].
  apply record_created in Hrec as (data & e & row & _ & _ & _ & Hc & -> & ->).
  apply add_commit_inv in Hc as (Hrow & _).
  rewrite length_app, Nat.add_comm. simpl length.
  change (py_lookup (py_dict [("status", PStr "success"); ("id", py_id row)]) "id")
    with (Some (py_id row)).
  unfold py_id. rewrite Hrow. cbn [stored with_id id].
  rewrite (next_id_ids_ok db Hids). do 2 f_equal. lia.
Qed.

(** X3.  A body that is not a JSON object is never stored: a falsy one
    (null, false, 0, 0.0, the empty string, the empty list) is answered 400
    like the empty object, and any other (a number, a string, a list, true)
    is answered 500, as it has no [get]. *)
Theorem record_body_not_object (data : pyval) db :
  (∀ m, data ≠ PDict m) →
  record (Ok data) db
  = (db, if truthy data then JsonError AttributeError 500
         else Json (py_dict [("error", PStr "No data provided")]) 400).
Proof.
  intros Hd. unfold record. destruct (truthy data); [|done].
  cbn [negb]. by rewrite (new_emission_not_dict data Hd).
Qed.

(** X4.  A field that is present with the value null is not defaulted:
    whichever of the eight fields it is, the request is answered 500 and
    the table is as it was. *)
Theorem record_null_field m db (k : string) :
  k ∈ ["repo"; "owner"; "run_id"; "co2"; "duration"; "machine_type"; "badge";
       "timestamp"] →
  m !! k = Some PNone →
  fst (record (Ok (PDict m)) db) = db
  ∧ ∃ x, snd (record (Ok (PDict m)) db) = JsonError x 500.
Proof.
  intros Hk Hm. unfold record.
  rewrite (proj2 (truthy_dict m)) by (intros ->; by rewrite lookup_empty in Hm).
  cbn [negb]. destruct (new_emission (PDict m)) as [e|x] eqn:He;
    [|split; [done|by exists x]].
  cbn [mbind result_bind].
  destruct (add_commit db e) as [[db' row]|x] eqn:Hc; [|split; [done|by exists x]].
  exfalso.
  apply new_emission_dict in He as (c & d & dt & Hco2 & Hd & (s & Hs & _) & ->).
  apply add_commit_insertable in Hc as (Hins & _).
  apply insertable_spec in Hins as (_ & _ & (N1 & N2 & N3 & N4 & N5) & _).
  cbn [repo owner run_id machine_type badge] in *.
  repeat (apply elem_of_cons in Hk as [->|Hk];
          [first [ rewrite Hm in Hco2; discriminate Hco2
                 | rewrite Hm in Hd; discriminate Hd
                 | rewrite Hm in Hs; discriminate Hs
                 | rewrite Hm in N1; discriminate N1
                 | rewrite Hm in N2; discriminate N2
                 | rewrite Hm in N3; discriminate N3
                 | rewrite Hm in N4; discriminate N4
                 | rewrite Hm in N5; discriminate N5 ]|]).
  by apply elem_of_nil in Hk.
Qed.

(** X5.  A request that is not answered 201 leaves no trace, not even a
    used key: the table after a sequence of requests is the same with and
    without it. *)
Theorem run_skip_rejected (rqs1 rqs2 : list (result pyval)) (rq : result pyval) db :
  status_of (snd (record rq (run rqs1 db))) ≠ 201 →
  run (rqs1 ++ rq :: rqs2) db = run (rqs1 ++ rqs2) db.
Proof.
  intros Hs. rewrite !run_app. unfold run at 1. cbn [fold_left].
  by rewrite (record_unchanged rq _ Hs).
Qed.

(** ** Posting an entry of GET /stats again *)

(** The timestamp of a row of a reachable table is a valid naive datetime. *)
Lemma reachable_timestamps db :
  reachable db →
  Forall (fun e => valid_datetime (timestamp e) = true
                   ∧ utcoffset (timestamp e) = None) db.
Proof.
  induction 1 as [|rq db Hr IH]; [constructor|].
  destruct (record_inv rq db) as [[-> _]|(data & e & row & _ & _ & He & Hc & ->)];
    [done|]. simpl. apply Forall_app. split; [done|]. constructor; [|constructor].
  apply add_commit_inv in Hc as (-> & _).
  destruct data; try discriminate He.
  apply new_emission_dict in He as (c & d & dt & _ & _ & (s & _ & Hdt) & ->).
  cbn [stored with_id timestamp]. split; [|done].
  by apply valid_naive, (fromisoformat_valid _ _ Hdt).
Qed.

(** X6.  An entry of GET /stats is a payload POST /record accepts: posted
    to a table with a key left, it adds the row it came from, with a new
    key, and the entry of the new row is the entry posted. *)
Theorem record_stats_entry_again db db2 e :
  reachable db → e ∈ db → int64 (next_id db2) = true →
  record (Ok (emission_data e)) db2
  = (db2 ++ [with_id (next_id db2) e],
     Json (py_dict [("status", PStr "success"); ("id", PInt (next_id db2))]) 201)
  ∧ emission_data (with_id (next_id db2) e) = emission_data e.
Proof.
  intros Hr He Hi. split; [|reflexivity].
  destruct (reachable_inv db Hr) as (_ & Hrows & _).
  pose proof (reachable_timestamps db Hr) as Hts.
  pose proof (reachable_stored db Hr) as Hst.
  rewrite Forall_forall in Hrows, Hts, Hst.
  specialize (Hrows e He). destruct (Hts e He) as [Hv Ho].
  specialize (Hst e He).
  assert (Hins : insertable
                   (mkEmission None (repo e) (owner e) (run_id e) (co2 e)
                      (duration e) (machine_type e) (badge e) (timestamp e))
                 = true).
  { destruct (row_ok_text e Hrows)
      as (s1 & s2 & s3 & s4 & s5 & E1 & E2 & E3 & E4 & E5).
    unfold row_ok in Hrows. rewrite !andb_true_iff in Hrows.
    destruct Hrows as [[_ Hd] Hf].
    apply insertable_spec.
    cbn [repo owner run_id co2 duration machine_type badge].
    by rewrite E1, E2, E3, E4, E5, Hd, Hf. }
  unfold emission_data, py_dict.
  rewrite (record_accepts db2 _ (co2 e) (duration e) (timestamp e));
    [|reflexivity|reflexivity| |exact Hins|exact Hi].
  - change (mkEmission (Some (next_id db2)) _ _ _ _ _ _ _ _)
      with (with_id (next_id db2) (stored e)).
    by rewrite Hst.
  - exists (isoformat (timestamp e)). split; [reflexivity|].
    rewrite str_replace_absent by (by apply occurs_Z_isoformat).
    by apply fromisoformat_isoformat.
Qed.

(** ** The three counts *)

Lemma badge_is_excl e :
  (if badge_is "Green" e then 1 else 0) + (if badge_is "Yellow" e then 1 else 0)
  + (if badge_is "Red" e then 1 else 0) <= 1
  ∧ ((if badge_is "Green" e then 1 else 0) + (if badge_is "Yellow" e then 1 else 0)
     + (if badge_is "Red" e then 1 else 0) = 1
     ↔ badge e = PStr "Green" ∨ badge e = PStr "Yellow" ∨ badge e = PStr "Red").
Proof.
  unfold badge_is. destruct (badge e) as [| | | |s| |];
    try (split; [done|]; split; [done|]; by intros [|[|]]).
  destruct (String.eqb_spec s "Green") as [->|Hg];
    [split; [done|]; split; [auto|done]|].
  destruct (String.eqb_spec s "Yellow") as [->|Hy];
    [split; [done|]; split; [auto|done]|].
  destruct (String.eqb_spec s "Red") as [->|Hred];
    [split; [done|]; split; [auto|done]|].
  split; [done|]. split; [done|]. intros [[=]|[[=]|[=]]]; done.
Qed.

Lemma count_by_badge_cons (b : string) e db :
  count_by_badge (e :: db) b
  = (if badge_is b e then 1 else 0) + count_by_badge db b.
Proof.
  unfold count_by_badge. simpl. destruct (badge_is b e); simpl length; lia.
Qed.

Lemma count_by_badge_sum db :
  count_by_badge db "Green" + count_by_badge db "Yellow"
  + count_by_badge db "Red" <= Z.of_nat (length db)
  ∧ (count_by_badge db "Green" + count_by_badge db "Yellow"
     + count_by_badge db "Red" = Z.of_nat (length db)
     ↔ ∀ e, e ∈ db →
         badge e = PStr "Green" ∨ badge e = PStr "Yellow" ∨ badge e = PStr "Red").
Proof.
  induction db as [|e db [IHle IHeq]].
  - split; [done|]. split; [|done]. intros _ e He. by apply elem_of_nil in He.
  - rewrite !count_by_badge_cons. destruct (badge_is_excl e) as [Hle Heq].
    simpl length. rewrite Nat2Z.inj_succ. split; [lia|]. split.
    + intros Hsum e' [->|He']%elem_of_cons.
      * apply Heq. lia.
      * apply IHeq; [lia|done].
    + intros Hall.
      assert (H1 := proj2 Heq (Hall e ltac:(by left))).
      assert (H2 := proj2 IHeq (fun e' He' => Hall e' ltac:(by right))).
      lia.
Qed.

(** X7.  In the answer of GET /stats on a reachable table the three badge
    counts add up to at most the number of entries, and to exactly that
    number when, and only when, every row has one of the three badges. *)
Theorem stats_badge_counts_sum db :
  reachable db →
  ∃ g y r entries,
    stats_count (stats db) "Green" = Some (PInt g)
    ∧ stats_count (stats db) "Yellow" = Some (PInt y)
    ∧ stats_count (stats db) "Red" = Some (PInt r)
    ∧ body_get (stats db) "emissions" = Some (PList entries)
    ∧ g + y + r <= Z.of_nat (length entries)
    ∧ (g + y + r = Z.of_nat (length entries)
       ↔ ∀ e, e ∈ db →
           badge e = PStr "Green" ∨ badge e = PStr "Yellow"
           ∨ badge e = PStr "Red").
Proof.
  intros Hr. destruct (stats_reachable db Hr) as (avg & -> & _).
  exists (count_by_badge db "Green"), (count_by_badge db "Yellow"),
    (count_by_badge db "Red"), (map emission_data db).
  rewrite length_map. repeat (split; [reflexivity|]).
  apply count_by_badge_sum.
Qed.

(** ** GET /stats after POST /record *)

Lemma py_sum_snoc (xs : list float) (x : float) :
  py_sum (xs ++ [x])
  = PFloat (float_add (match py_sum xs with PFloat t => t | _ => float_zero end) x).
Proof.
  destruct xs as [|y xs]; [done|]. cbn [app py_sum].
  by rewrite fold_left_app.
Qed.

Lemma count_by_badge_snoc (b : string) db row :
  count_by_badge (db ++ [row]) b
  = count_by_badge db b + (if badge_is b row then 1 else 0).
Proof.
  unfold count_by_badge. rewrite List.filter_app, length_app. simpl.
  destruct (badge_is b row); simpl length; lia.
Qed.

Lemma stats_count_reachable db (b : string) :
  reachable db → b ∈ ["Green"; "Yellow"; "Red"] →
  stats_count (stats db) b = Some (PInt (count_by_badge db b)).
Proof.
  intros Hr Hb. destruct (stats_reachable db Hr) as (avg & -> & _).
  repeat (apply elem_of_cons in Hb as [->|Hb]; [reflexivity|]).
  by apply elem_of_nil in Hb.
Qed.

(** X8.  An accepted POST /record changes the answer of GET /stats by its
    own row only: there is one more entry, [total_co2] is the former total
    plus the co2 of the row (the co2 alone on the empty table), the count
    of the badge of the row is one more and the other counts are as they
    were. *)
Theorem stats_after_record db m db' body :
  reachable db →
  record (Ok (PDict m)) db = (db', Json body 201) →
  ∃ row,
    db' = db ++ [row]
    ∧ body_get (stats db') "emissions"
      = Some (PList (map emission_data db ++ [emission_data row]))
    ∧ (body_get (stats db) "total_co2" = Some (PInt 0) →
       body_get (stats db') "total_co2"
       = Some (PFloat (float_add float_zero (co2 row))))
    ∧ (∀ t, body_get (stats db) "total_co2" = Some (PFloat t) →
            body_get (stats db') "total_co2"
            = Some (PFloat (float_add t (co2 row))))
    ∧ ∀ b n, b ∈ ["Green"; "Yellow"; "Red"] →
        stats_count (stats db) b = Some (PInt n) →
        (badge row = PStr b → stats_count (stats db') b = Some (PInt (n + 1)))
        ∧ (badge row ≠ PStr b → stats_count (stats db') b = Some (PInt n)).
Proof.
  intros Hr Hrec.
  assert (Hr' : reachable db').
  { change db' with (fst (db', Json body 201)). rewrite <- Hrec. by constructor. }
  apply record_created in Hrec as (data & e & row & _ & _ & _ & _ & -> & _).
  exists row. split; [done|].
  assert (Hcounts : ∀ b n, b ∈ ["Green"; "Yellow"; "Red"] →
            stats_count (stats db) b = Some (PInt n) →
            (badge row = PStr b →
             stats_count (stats (db ++ [row])) b = Some (PInt (n + 1)))
            ∧ (badge row ≠ PStr b →
               stats_count (stats (db ++ [row])) b = Some (PInt n))).
  { intros b n Hb Hn.
    rewrite (stats_count_reachable _ b Hr Hb) in Hn.
    rewrite (stats_count_reachable _ b Hr' Hb), count_by_badge_snoc.
    injection Hn as <-. split.
    - intros Hbadge%badge_is_spec. by rewrite Hbadge.
    - intros Hbadge. assert (Hf : badge_is b row = false).
      { apply not_true_is_false. by rewrite badge_is_spec. }
      rewrite Hf. do 2 f_equal. lia. }
  destruct (stats_reachable db Hr) as (avg & Hs & _).
  destruct (stats_reachable _ Hr') as (avg' & Hs' & _).
  split; [|split; [|split; [|exact Hcounts]]]; rewrite Hs'; cbn [body_get].
  - rewrite (map_app emission_data). apply py_lookup_stats.
  - rewrite Hs. cbn [body_get]. rewrite !(proj1 (py_lookup_stats _ _ _ _)).
    rewrite (map_app co2). cbn [map]. rewrite py_sum_snoc. by intros [= ->].
  - intros t. rewrite Hs. cbn [body_get].
    rewrite !(proj1 (py_lookup_stats _ _ _ _)).
    rewrite (map_app co2). cbn [map]. rewrite py_sum_snoc. by intros [= ->].
Qed.

(** ** GET /latest_co2_badge after POST /record *)

Lemma head_insert_desc e (l : list Emission) :
  head (insert_desc e l)
  = match head l with
    | None => Some e
    | Some h => if dt_ltb (timestamp e) (timestamp h) then Some h else Some e
    end.
Proof. destruct l as [|h l]; [done|]. simpl. by destruct (dt_ltb _ _). Qed.

Lemma dt_ltb_trans (d1 d2 d3 : datetime) :
  dt_ltb d1 d2 = true → dt_ltb d2 d3 = true → dt_ltb d1 d3 = true.
Proof.
  intros H12 H23. destruct (dt_ltb d1 d3) eqn:H13; [done|].
  pose proof (dt_ltb_negtrans d1 d3 d2 H13 (dt_ltb_asym _ _ H23)). congruence.
Qed.

(** The first row by descending timestamp after a row is appended. *)
Lemma order_by_snoc_head db row :
  head (order_by_timestamp_desc (db ++ [row]))
  = match head (order_by_timestamp_desc db) with
    | None => Some row
    | Some h =>
        if dt_ltb (timestamp h) (timestamp row) then Some row else Some h
    end.
Proof.
  induction db as [|x db IH]; [done|].
  cbn [app order_by_timestamp_desc]. rewrite !head_insert_desc, IH.
  destruct (head (order_by_timestamp_desc db)) as [h|]; [|done].
  destruct (dt_ltb (timestamp h) (timestamp row)) eqn:Hhr,
    (dt_ltb (timestamp x) (timestamp h)) eqn:Hxh; try done.
  - by rewrite Hhr, (dt_ltb_trans _ _ _ Hxh Hhr).
  - by rewrite Hhr.
  - by rewrite (dt_ltb_negtrans _ _ _ Hxh Hhr).
Qed.

(** X9.  After an accepted POST /record on a reachable table,
    GET /latest_co2_badge reports the badge of the new row when its
    timestamp is later than that of every row before it, and answers as
    before when some row before it has a later timestamp. *)
Theorem latest_after_record db m db' body :
  reachable db →
  record (Ok (PDict m)) db = (db', Json body 201) →
  ∃ row,
    db' = db ++ [row]
    ∧ ((∀ e, e ∈ db → dt_ltb (timestamp e) (timestamp row) = true) →
       body_get (latest_co2_badge db') "message" = Some (badge row))
    ∧ ((∃ e, e ∈ db ∧ dt_ltb (timestamp row) (timestamp e) = true) →
       latest_co2_badge db' = latest_co2_badge db).
Proof.
  intros Hr Hrec.
  assert (Hr' : reachable db').
  { change db' with (fst (db', Json body 201)). rewrite <- Hrec. by constructor. }
  apply record_created in Hrec as (data & e & row & _ & _ & _ & _ & -> & _).
  exists row. split; [done|].
  pose proof (order_by_snoc_head db row) as Hhead. split.
  - intros Hlater.
    assert (Hrow : head (order_by_timestamp_desc (db ++ [row])) = Some row).
    { rewrite Hhead. destruct (head (order_by_timestamp_desc db)) as [h|] eqn:Hh;
        [|done].
      by rewrite (Hlater h (proj1 (order_by_head db h Hh))). }
    destruct (latest_co2_badge_reachable _ row Hr' Hrow) as (color & _ & ->).
    reflexivity.
  - intros (e0 & He0 & Hlt).
    destruct (head (order_by_timestamp_desc db)) as [h|] eqn:Hh.
    + destruct (order_by_head db h Hh) as [_ Hmax].
      assert (Hhr : dt_ltb (timestamp h) (timestamp row) = false).
      { eapply dt_ltb_negtrans; [by apply Hmax|by apply dt_ltb_asym]. }
      rewrite Hhr in Hhead. unfold latest_co2_badge. by rewrite Hhead, Hh.
    + destruct db as [|x db]; [by apply elem_of_nil in He0|].
      destruct (order_by_nonempty (x :: db)) as [h Hh']; [done|]. congruence.
Qed.

End BackendExtras.

(** * The further properties on sample payloads *)

Lemma reachable_negative_row : reachable [negative_row].
Proof.
  change [negative_row]
    with (fst ([negative_row],
               Json (py_dict [("status", PStr "success"); ("id", PInt 1)]) 201)).
  rewrite <- record_negative_run. constructor. constructor.
Qed.

Lemma untimed_run_rejected :
  status_of (snd (record (Ok (PDict untimed_run))
                    (run [Ok (PDict sample_run)] []))) ≠ 201.
Proof. intros Hs. change (500 = 201) in Hs. discriminate. Qed.

(** X2 on [sample_run], posted to the empty table. *)
Lemma record_id_counts_rows_sample :
  reachable (@nil Emission)
  ∧ record (Ok (PDict sample_run)) []
    = (fst (record (Ok (PDict sample_run)) []),
       Json (py_dict [("status", PStr "success"); ("id", PInt 1)]) 201)
  ∧ py_lookup (py_dict [("status", PStr "success"); ("id", PInt 1)]) "id"
    = Some (PInt (Z.of_nat (length (fst (record (Ok (PDict sample_run)) [])))))
  ∧ map id (fst (record (Ok (PDict sample_run)) []))
    = map (fun k => Some (Z.of_nat k))
          (seq 1 (length (fst (record (Ok (PDict sample_run)) [])))).
Proof.
  split; [constructor|]. split; [exact record_sample_run|].
  exact (record_id_counts_rows (Ok (PDict sample_run)) [] _ _ reachable_nil
           record_sample_run).
Defined.

(** X3 on a body that is a string. *)
Lemma record_body_not_object_sample :
  (∀ m, PStr "co2" ≠ PDict m)
  ∧ record (Ok (PStr "co2")) sample_table
    = (sample_table,
       if truthy (PStr "co2") then JsonError AttributeError 500
       else Json (py_dict [("error", PStr "No data provided")]) 400).
Proof.
  assert (Hd : ∀ m : gmap string pyval, PStr "co2" ≠ PDict m) by done.
  split; [exact Hd|].
  exact (record_body_not_object (PStr "co2") sample_table Hd).
Defined.

(** X4 on [null_badge_run]. *)
Lemma record_null_field_sample :
  "badge" ∈ ["repo"; "owner"; "run_id"; "co2"; "duration"; "machine_type";
             "badge"; "timestamp"]
  ∧ null_badge_run !! "badge" = Some PNone
  ∧ fst (record (Ok (PDict null_badge_run)) sample_table) = sample_table
  ∧ ∃ x, snd (record (Ok (PDict null_badge_run)) sample_table)
         = JsonError x 500.
Proof.
  assert (Hk : "badge" ∈ ["repo"; "owner"; "run_id"; "co2"; "duration";
                          "machine_type"; "badge"; "timestamp"])
    by (apply list_elem_of_In; simpl; tauto).
  split; [exact Hk|]. split; [reflexivity|].
  exact (record_null_field null_badge_run sample_table "badge" Hk eq_refl).
Defined.

(** X5 on [untimed_run], between two accepted requests. *)
Lemma run_skip_rejected_sample :
  status_of (snd (record (Ok (PDict untimed_run))
                    (run [Ok (PDict sample_run)] []))) ≠ 201
  ∧ run ([Ok (PDict sample_run)] ++ Ok (PDict untimed_run) :: [Ok record_B]) []
    = run ([Ok (PDict sample_run)] ++ [Ok record_B]) [].
Proof.
  split; [exact untimed_run_rejected|].
  exact (run_skip_rejected [Ok (PDict sample_run)] [Ok record_B]
           (Ok (PDict untimed_run)) [] untimed_run_rejected).
Defined.

(** X6 on the entry of [negative_row], posted to the empty table. *)
Lemma record_stats_entry_again_sample :
  reachable [negative_row] ∧ negative_row ∈ [negative_row]
  ∧ int64 (next_id (@nil Emission)) = true
  ∧ record (Ok (emission_data negative_row)) []
    = ([] ++ [with_id (next_id []) negative_row],
       Json (py_dict [("status", PStr "success"); ("id", PInt (next_id []))])
            201)
  ∧ emission_data (with_id (next_id []) negative_row)
    = emission_data negative_row.
Proof.
  assert (Hin : negative_row ∈ [negative_row]) by (by left).
  split; [exact reachable_negative_row|]. split; [exact Hin|].
  split; [reflexivity|].
  exact (record_stats_entry_again [negative_row] [] negative_row
           reachable_negative_row Hin eq_refl).
Defined.

(** X7 on [sample_table]. *)
Lemma stats_badge_counts_sum_sample :
  reachable sample_table
  ∧ ∃ g y r entries,
      stats_count (stats sample_table) "Green" = Some (PInt g)
      ∧ stats_count (stats sample_table) "Yellow" = Some (PInt y)
      ∧ stats_count (stats sample_table) "Red" = Some (PInt r)
      ∧ body_get (stats sample_table) "emissions" = Some (PList entries)
      ∧ g + y + r <= Z.of_nat (length entries)
      ∧ (g + y + r = Z.of_nat (length entries)
         ↔ ∀ e, e ∈ sample_table →
             badge e = PStr "Green" ∨ badge e = PStr "Yellow"
             ∨ badge e = PStr "Red").
Proof.
  split; [exact reachable_sample_table|].
  exact (stats_badge_counts_sum sample_table reachable_sample_table).
Defined.

(** X8 on [sample_run], posted to the empty table. *)
Lemma stats_after_record_sample :
  reachable (@nil Emission)
  ∧ record (Ok (PDict sample_run)) []
    = (fst (record (Ok (PDict sample_run)) []),
       Json (py_dict [("status", PStr "success"); ("id", PInt 1)]) 201)
  ∧ ∃ row,
      fst (record (Ok (PDict sample_run)) []) = [] ++ [row]
      ∧ body_get (stats (fst (record (Ok (PDict sample_run)) []))) "emissions"
        = Some (PList (map emission_data [] ++ [emission_data row]))
      ∧ (body_get (stats []) "total_co2" = Some (PInt 0) →
         body_get (stats (fst (record (Ok (PDict sample_run)) []))) "total_co2"
         = Some (PFloat (float_add float_zero (co2 row))))
      ∧ (∀ t, body_get (stats []) "total_co2" = Some (PFloat t) →
              body_get (stats (fst (record (Ok (PDict sample_run)) [])))
                       "total_co2"
              = Some (PFloat (float_add t (co2 row))))
      ∧ ∀ b n, b ∈ ["Green"; "Yellow"; "Red"] →
          stats_count (stats []) b = Some (PInt n) →
          (badge row = PStr b →
           stats_count (stats (fst (record (Ok (PDict sample_run)) []))) b
           = Some (PInt (n + 1)))
          ∧ (badge row ≠ PStr b →
             stats_count (stats (fst (record (Ok (PDict sample_run)) []))) b
             = Some (PInt n)).
Proof.
  split; [constructor|]. split; [exact record_sample_run|].
  exact (stats_after_record [] sample_run _ _ reachable_nil record_sample_run).
Defined.

Lemma record_later_run :
  record (Ok (PDict later_run)) sample_table
  = (sample_table ++ [later_row],
     Json (py_dict [("status", PStr "success"); ("id", PInt 4)]) 201).
Proof. reflexivity. Qed.

Lemma record_bare_run :
  record (Ok (PDict bare_run)) sample_table
  = (sample_table ++ [bare_row],
     Json (py_dict [("status", PStr "success"); ("id", PInt 4)]) 201).
Proof. reflexivity. Qed.

Lemma later_row_latest e :
  e ∈ sample_table → dt_ltb (timestamp e) (timestamp later_row) = true.
Proof.
  rewrite sample_table_rows. unfold sample_rows. intros He.
  repeat (apply elem_of_cons in He as [->|He]; [reflexivity|]).
  by apply elem_of_nil in He.
Qed.

Lemma bare_row_earlier :
  ∃ e, e ∈ sample_table ∧ dt_ltb (timestamp bare_row) (timestamp e) = true.
Proof.
  rewrite sample_table_rows. unfold sample_rows.
  eexists. split; [apply list_elem_of_here|reflexivity].
Qed.

(** X9 on [sample_table], whose most recent row has the badge Red: after
    [later_run], which is later than every row, the badge is the Green of
    [later_run]; after [bare_run], which is earlier than a row, the answer
    is as before. *)
Lemma latest_after_record_sample :
  reachable sample_table
  ∧ record (Ok (PDict later_run)) sample_table
    = (sample_table ++ [later_row],
       Json (py_dict [("status", PStr "success"); ("id", PInt 4)]) 201)
  ∧ record (Ok (PDict bare_run)) sample_table
    = (sample_table ++ [bare_row],
       Json (py_dict [("status", PStr "success"); ("id", PInt 4)]) 201)
  ∧ (∀ e, e ∈ sample_table →
          dt_ltb (timestamp e) (timestamp later_row) = true)
  ∧ (∃ e, e ∈ sample_table ∧ dt_ltb (timestamp bare_row) (timestamp e) = true)
  ∧ body_get (latest_co2_badge sample_table) "message" = Some (PStr "Red")
  ∧ body_get (latest_co2_badge (sample_table ++ [later_row])) "message"
    = Some (PStr "Green")
  ∧ latest_co2_badge (sample_table ++ [bare_row])
    = latest_co2_badge sample_table.
Proof.
  split; [exact reachable_sample_table|].
  split; [exact record_later_run|]. split; [exact record_bare_run|].
  split; [exact later_row_latest|]. split; [exact bare_row_earlier|].
  split; [reflexivity|]. split.
  - destruct (latest_after_record sample_table later_run _ _
                reachable_sample_table record_later_run)
      as (row & Hrow & Hlater & _).
    apply app_inj_tail in Hrow as [_ <-].
    exact (Hlater later_row_latest).
  - destruct (latest_after_record sample_table bare_run _ _
                reachable_sample_table record_bare_run)
      as (row & Hrow & _ & Hearlier).
    apply app_inj_tail in Hrow as [_ <-].
    exact (Hearlier bare_row_earlier).
Defined.

(** * The arithmetic of the simulator *)

(** ** Dates *)

Lemma is_leap_cycle (n400 n100 n4 n1 : Z) :
  0 <= n400 → 0 <= n100 <= 3 → 0 <= n4 <= 24 → 0 <= n1 <= 3 →
  is_leap (n400 * 400 + 1 + n100 * 100 + n4 * 4 + n1)
  = (n1 =? 3) && (negb (n4 =? 24) || (n100 =? 3)).
Proof.
  intros H400 H100 H4 H1. unfold is_leap.
  destruct (Z.eqb_spec n1 3), (Z.eqb_spec n4 24), (Z.eqb_spec n100 3);
    repeat match goal with
           | |- context [?a mod ?b =? 0] => destruct (Z.eqb_spec (a mod b) 0)
           end; simpl; try reflexivity; exfalso;
    Z.div_mod_to_equations; lia.
Qed.

Lemma days_in_month_leap (y m : Z) (leap : bool) :
  is_leap y = leap → 1 <= m <= 12 →
  days_in_month y m = DAYS_IN_MONTH m + (if (m =? 2) && leap then 1 else 0).
Proof.
  intros Hl Hm. unfold days_in_month. rewrite Hl.
  assert (Hc : m = 1 ∨ m = 2 ∨ m = 3 ∨ m = 4 ∨ m = 5 ∨ m = 6 ∨ m = 7 ∨ m = 8
               ∨ m = 9 ∨ m = 10 ∨ m = 11 ∨ m = 12) by lia.
  repeat (destruct Hc as [->|Hc]; [by destruct leap|]). rewrite Hc. by destruct leap.
Qed.

Lemma days_before_year_cycle (n400 n100 n4 n1 : Z) :
  0 <= n400 → 0 <= n100 <= 3 → 0 <= n4 <= 24 → 0 <= n1 <= 3 →
  days_before_year (n400 * 400 + 1 + n100 * 100 + n4 * 4 + n1)
  = 146097 * n400 + 36524 * n100 + 1461 * n4 + 365 * n1.
Proof.
  intros H400 H100 H4 H1. unfold days_before_year.
  Z.div_mod_to_equations. lia.
Qed.

(** [date.fromordinal] yields a date of the calendar, the one whose
    ordinal was given. *)
Lemma ord2ymd_spec (n y m d : Z) :
  1 <= n <= 3652059 → ord2ymd n = (y, m, d) →
  (1 <= y <= 9999 ∧ 1 <= m <= 12 ∧ 1 <= d <= days_in_month y m)
  ∧ ymd2ord y m d = n.
Proof.
  intros Hn. unfold ord2ymd.
  set (n0 := n - 1).
  set (n400 := n0 / 146097). set (r400 := n0 mod 146097).
  set (n100 := r400 / 36524). set (r100 := r400 mod 36524).
  set (n4 := r100 / 1461). set (r4 := r100 mod 1461).
  set (n1 := r4 / 365). set (r1 := r4 mod 365).
  assert (E400 : n0 = 146097 * n400 + r400 ∧ 0 <= r400 < 146097)
    by (unfold n400, r400; Z.div_mod_to_equations; lia).
  assert (E100 : r400 = 36524 * n100 + r100 ∧ 0 <= r100 < 36524)
    by (unfold n100, r100; Z.div_mod_to_equations; lia).
  assert (E4 : r100 = 1461 * n4 + r4 ∧ 0 <= r4 < 1461)
    by (unfold n4, r4; Z.div_mod_to_equations; lia).
  assert (E1 : r4 = 365 * n1 + r1 ∧ 0 <= r1 < 365)
    by (unfold n1, r1; Z.div_mod_to_equations; lia).
  assert (E0 : 0 <= n0 <= 3652058 ∧ n = n0 + 1) by (unfold n0; lia).
  clearbody n400 r400 n100 r100 n4 r4 n1 r1 n0. clear Hn.
  destruct (Z.eqb_spec n1 4) as [Hn1|Hn1]; cbn [orb].
  { intros [= <- <- <-]. split; [split; [lia|]; split; [lia|done]|].
    unfold ymd2ord, days_before_month.
    replace (n400 * 400 + 1 + n100 * 100 + n4 * 4 + n1 - 1)
      with (n400 * 400 + 1 + n100 * 100 + n4 * 4 + 3) by lia.
    rewrite is_leap_cycle, days_before_year_cycle by lia.
    change (3 =? 3) with true. cbn [andb].
    assert (n100 <= 3 ∧ n4 <= 24) as [H100 H4] by lia.
    destruct (Z.eqb_spec n4 24) as [Hn4|Hn4]; [exfalso; lia|].
    simpl. lia. }
  destruct (Z.eqb_spec n100 4) as [Hn100|Hn100].
  { intros [= <- <- <-]. split; [split; [lia|]; split; [lia|done]|].
    unfold ymd2ord, days_before_month.
    replace (n400 * 400 + 1 + n100 * 100 + n4 * 4 + n1 - 1)
      with (n400 * 400 + 1 + 3 * 100 + 24 * 4 + 3) by lia.
    rewrite is_leap_cycle, days_before_year_cycle by lia.
    simpl. lia. }
  assert (Hleap : is_leap (n400 * 400 + 1 + n100 * 100 + n4 * 4 + n1)
                  = (n1 =? 3) && (negb (n4 =? 24) || (n100 =? 3)))
    by (apply is_leap_cycle; lia).
  assert (Hdby : days_before_year (n400 * 400 + 1 + n100 * 100 + n4 * 4 + n1)
                 = n - 1 - r1)
    by (rewrite days_before_year_cycle; lia).
  set (year := n400 * 400 + 1 + n100 * 100 + n4 * 4 + n1) in *.
  assert (Hyear : 1 <= year <= 9999) by (unfold year; lia).
  clearbody year.
  set (leap := (n1 =? 3) && (negb (n4 =? 24) || (n100 =? 3))) in *.
  clearbody leap.
  rewrite Z.shiftr_div_pow2 by lia. change (2 ^ 5) with 32.
  set (k := (r1 + 50) / 32).
  assert (Ek : 32 * k <= r1 + 50 < 32 * k + 32)
    by (unfold k; Z.div_mod_to_equations; lia).
  clearbody k.
  assert (Hr1 : 0 <= r1 <= 364) by lia.
  clear E400 E100 E4 E1 E0 Hn1 Hn100.
  assert (Hc : k = 1 ∨ k = 2 ∨ k = 3 ∨ k = 4 ∨ k = 5 ∨ k = 6 ∨ k = 7 ∨ k = 8
               ∨ k = 9 ∨ k = 10 ∨ k = 11 ∨ k = 12) by lia.
  assert (Hcase : ∀ b : bool, leap = b →
            (if r1 <? DAYS_BEFORE_MONTH k + (if (2 <? k) && b then 1 else 0)
             then (year, k - 1,
                   r1 - (DAYS_BEFORE_MONTH k + (if (2 <? k) && b then 1 else 0)
                         - (DAYS_IN_MONTH (k - 1)
                            + (if (k - 1 =? 2) && b then 1 else 0))) + 1)
             else (year, k,
                   r1 - (DAYS_BEFORE_MONTH k
                         + (if (2 <? k) && b then 1 else 0)) + 1))
            = (y, m, d) →
            (1 <= y <= 9999 ∧ 1 <= m <= 12 ∧ 1 <= d <= days_in_month y m)
            ∧ ymd2ord y m d = n).
  { intros b Hb. rewrite Hb in Hleap. unfold ymd2ord, days_before_month.
    repeat (destruct Hc as [Hk|Hc];
      [rewrite Hk in *; destruct b; simpl;
       match goal with |- context [?u <? ?v] => destruct (Z.ltb_spec u v) end;
       intros [= <- <- <-];
       first [ exfalso; lia
             | rewrite Hleap, Hdby;
               rewrite (days_in_month_leap _ _ _ Hleap) by lia; simpl; lia ]|]).
    rewrite Hc in *. destruct b; simpl;
      match goal with |- context [?u <? ?v] => destruct (Z.ltb_spec u v) end;
      intros [= <- <- <-];
      first [ exfalso; lia
            | rewrite Hleap, Hdby;
              rewrite (days_in_month_leap _ _ _ Hleap) by lia; simpl; lia ]. }
  exact (Hcase leap eq_refl).
Qed.

Lemma days_before_year_succ (y : Z) :
  days_before_year (y + 1)
  = days_before_year y + 365 + (if is_leap y then 1 else 0).
Proof.
  unfold days_before_year, is_leap.
  replace (y + 1 - 1) with y by lia.
  destruct (Z.eqb_spec (y mod 4) 0), (Z.eqb_spec (y mod 100) 0),
    (Z.eqb_spec (y mod 400) 0); simpl; Z.div_mod_to_equations; lia.
Qed.

Lemma days_before_year_mono (y y' : Z) :
  y <= y' → days_before_year y <= days_before_year y'.
Proof. intros Hy. unfold days_before_year. Z.div_mod_to_equations. lia. Qed.

Lemma ymd2ord_bounds (y m d : Z) :
  1 <= y <= 9999 → 1 <= m <= 12 → 1 <= d <= days_in_month y m →
  1 <= ymd2ord y m d <= 3652059.
Proof.
  intros Hy Hm Hd.
  assert (Hlo : 0 <= days_before_year y)
    by (change 0 with (days_before_year 1); apply days_before_year_mono; lia).
  assert (Hhi : days_before_year (y + 1) <= 3652059)
    by (change 3652059 with (days_before_year 10000);
        apply days_before_year_mono; lia).
  rewrite days_before_year_succ in Hhi.
  rewrite (days_in_month_leap y m (is_leap y)) in Hd by done.
  unfold ymd2ord, days_before_month.
  assert (Hc : m = 1 ∨ m = 2 ∨ m = 3 ∨ m = 4 ∨ m = 5 ∨ m = 6 ∨ m = 7 ∨ m = 8
               ∨ m = 9 ∨ m = 10 ∨ m = 11 ∨ m = 12) by lia.
  repeat (destruct Hc as [Hk|Hc];
          [rewrite Hk in *; destruct (is_leap y); simpl in *; lia|]).
  rewrite Hc in *; destruct (is_leap y); simpl in *; lia.
Qed.

Lemma valid_fields_spec (y mo d h mi s us : Z) :
  valid_fields y mo d h mi s us = true
  ↔ (1 <= y <= 9999 ∧ 1 <= mo <= 12 ∧ 1 <= d <= days_in_month y mo)
    ∧ 0 <= h <= 23 ∧ 0 <= mi <= 59 ∧ 0 <= s <= 59 ∧ 0 <= us <= 999999.
Proof.
  unfold valid_fields. rewrite !andb_true_iff, !Z.leb_le. tauto.
Qed.

(** [dt - td] for a delta that is not negative: the valid datetime [td]
    microseconds before [dt], as long as that is not before year 1. *)
Lemma datetime_sub_spec (dt : datetime) (td : Z) :
  valid_datetime dt = true → 0 <= td → 86400000000 <= dt_us dt - td →
  ∃ ts, datetime_sub dt td = Some ts
        ∧ valid_datetime ts = true ∧ utcoffset ts = utcoffset dt
        ∧ dt_us ts = dt_us dt - td.
Proof.
  intros Hv Htd Hlo. unfold datetime_sub.
  assert (Hf : valid_fields (year dt) (month dt) (day dt) (hour dt) (minute dt)
                 (second dt) (microsecond dt) = true
               ∧ match utcoffset dt with
                 | None => true | Some off => valid_offset off end = true)
    by (by apply andb_prop).
  destruct Hf as [Hf Hoff].
  apply valid_fields_spec in Hf as ((Hy & Hmo & Hd) & Hh & Hmi & Hs & Hus).
  pose proof (ymd2ord_bounds _ _ _ Hy Hmo Hd) as Hord.
  set (t := dt_us dt - td) in *.
  assert (Ht : t < 3652060 * 86400000000) by (unfold t, dt_us; lia).
  set (days := t / 86400000000). set (rem := t mod 86400000000).
  assert (E : t = 86400000000 * days + rem ∧ 0 <= rem < 86400000000)
    by (unfold days, rem; Z.div_mod_to_equations; lia).
  clearbody days rem.
  assert (Hdays : 1 <= days <= 3652059) by lia.
  destruct (Z.ltb_spec 0 days); [|lia].
  destruct (Z.leb_spec days 3652059); [|lia]. cbn [andb].
  destruct (ord2ymd days) as [[y m] d] eqn:Ho.
  apply ord2ymd_spec in Ho as ((Hy' & Hm' & Hd') & Hord'); [|done].
  eexists. split; [reflexivity|]. split; [|split; [reflexivity|]].
  - unfold valid_datetime.
    cbn [year month day hour minute second microsecond utcoffset].
    rewrite Hoff, andb_true_r. apply valid_fields_spec.
    split; [done|]. Z.div_mod_to_equations. lia.
  - unfold dt_us at 1.
    cbn [year month day hour minute second microsecond].
    rewrite Hord'. Z.div_mod_to_equations. lia.
Qed.

(** ** One simulated run *)

Section GenerateProperties.

Implicit Types (d : draws) (db : table).

Lemma py_range_spec (a b x : Z) : x ∈ py_range a b ↔ a <= x < b.
Proof.
  unfold py_range. rewrite list_elem_of_fmap. split.
  - intros (k & -> & Hk). apply list_elem_of_In, in_seq in Hk. lia.
  - intros Hx. exists (Z.to_nat (x - a)). split; [lia|].
    apply list_elem_of_In, in_seq. lia.
Qed.

(** Every duration the simulator draws, on every machine type: the co2 is
    below 0.5 and, once rounded, from 0.006 to 0.27. *)
Lemma co2_checked :
  forallb
    (fun machine_type =>
       match co2_factors !! machine_type with
       | Some factor =>
           forallb
             (fun duration =>
                match int_mul_float duration factor with
                | Some c =>
                    SFltb c (b64_of_decimal false 5 (-1))
                    && SFleb (S754_zero false) (py_round3 c)
                    && SFleb (b64_of_decimal false 6 (-3)) (py_round3 c)
                    && SFleb (py_round3 c) (b64_of_decimal false 27 (-2))
                | None => false
                end)
             (py_range 30 901)
       | None => false
       end)
    MACHINE_TYPES = true.
Proof. vm_compute. reflexivity. Qed.

Lemma SFleb_not_nan (a x : spec_float) : SFleb a x = true → b64_isnan x = false.
Proof. by destruct a, x. Qed.

(** A [Float] column gives back a co2 of 0.006 or more as it is. *)
Lemma float_real_co2 (x : spec_float) :
  SFleb (b64_of_decimal false 6 (-3)) x = true → @float_real binary64 x = x.
Proof.
  intros Hx.
  change (@float_real binary64 x)
    with (if SFeqb x (S754_zero false) then S754_zero false else x).
  by destruct x as [[]|[]| |[] m e].
Qed.

Lemma timedelta_bounds d :
  draws_ok d →
  0 <= timedelta (d_days_ago d) (d_hours_ago d) (d_minutes_ago d)
    <= 694800000000.
Proof. intros (_ & _ & ? & ? & ? & _). unfold timedelta. lia. Qed.

(** The payload of a run: its co2 and its timestamp. *)
Lemma generate_emission_data_ok (repo : string) (run_id : Z) d :
  draws_ok d → 2 <= year (d_now d) →
  ∃ (co2 : spec_float) (ts : datetime),
    generate_emission_data repo run_id d
    = Some (py_dict [("repo", PStr repo); ("owner", PStr "carbon-cost-team");
                     ("run_id", PStr (str_of_int run_id));
                     ("co2", PFloat (py_round3 co2));
                     ("duration", PInt (d_duration d));
                     ("machine_type", PStr (d_machine_type d));
                     ("badge", PStr "Green");
                     ("timestamp", PStr (isoformat ts))])
    ∧ (SFleb (S754_zero false) (py_round3 co2) = true
       ∧ SFleb (b64_of_decimal false 6 (-3)) (py_round3 co2) = true
       ∧ SFleb (py_round3 co2) (b64_of_decimal false 27 (-2)) = true)
    ∧ valid_datetime ts = true ∧ utcoffset ts = None
    ∧ dt_us ts
      = dt_us (d_now d)
        - timedelta (d_days_ago d) (d_hours_ago d) (d_minutes_ago d).
Proof.
  intros Hd Hy. pose proof (timedelta_bounds d Hd) as Htd.
  destruct Hd as (Hdur & Hmt & _ & _ & _ & Hv & Hnaive).
  pose proof co2_checked as Hc. rewrite forallb_forall in Hc.
  specialize (Hc _ (proj1 (list_elem_of_In _ _) Hmt)).
  destruct (co2_factors !! d_machine_type d) as [factor|] eqn:Hf; [|done].
  rewrite forallb_forall in Hc.
  assert (Hr : d_duration d ∈ py_range 30 901) by (apply py_range_spec; lia).
  specialize (Hc (d_duration d) (proj1 (list_elem_of_In _ _) Hr)).
  destruct (int_mul_float (d_duration d) factor) as [co2|] eqn:Hco2; [|done].
  apply andb_prop in Hc as [Hc Hhi]. apply andb_prop in Hc as [Hc Hlo].
  apply andb_prop in Hc as [Hlt H0].
  assert (Hnow : 366 * 86400000000 <= dt_us (d_now d)).
  { assert (Hf' : valid_fields (year (d_now d)) (month (d_now d))
                    (day (d_now d)) (hour (d_now d)) (minute (d_now d))
                    (second (d_now d)) (microsecond (d_now d)) = true)
      by (by apply andb_prop in Hv as [? _]).
    apply valid_fields_spec in Hf' as ((Hy' & Hmo & Hday) & Hh & Hmi & Hs & Hus).
    pose proof (days_before_year_mono 2 (year (d_now d)) Hy) as Hdby.
    change (days_before_year 2) with 365 in Hdby.
    rewrite (days_in_month_leap _ _ (is_leap (year (d_now d)))) in Hday by done.
    unfold dt_us, ymd2ord, days_before_month.
    assert (0 <= DAYS_BEFORE_MONTH (month (d_now d))
                 + (if (2 <? month (d_now d)) && is_leap (year (d_now d))
                    then 1 else 0)); [|lia].
    assert (Hc : month (d_now d) = 1 ∨ month (d_now d) = 2 ∨ month (d_now d) = 3
                 ∨ month (d_now d) = 4 ∨ month (d_now d) = 5
                 ∨ month (d_now d) = 6 ∨ month (d_now d) = 7
                 ∨ month (d_now d) = 8 ∨ month (d_now d) = 9
                 ∨ month (d_now d) = 10 ∨ month (d_now d) = 11
                 ∨ month (d_now d) = 12) by lia.
    repeat (destruct Hc as [Hk|Hc];
            [rewrite Hk; destruct (is_leap _); simpl; lia|]).
    rewrite Hc; destruct (is_leap _); simpl; lia. }
  destruct (datetime_sub_spec (d_now d)
              (timedelta (d_days_ago d) (d_hours_ago d) (d_minutes_ago d)))
    as (ts & Hts & Hvts & Hots & Hus); [done|lia|lia|].
  exists co2, ts. split.
  - unfold generate_emission_data. rewrite Hf. cbn [mbind option_bind].
    rewrite Hco2. cbn [mbind option_bind]. rewrite Hts. cbn [mbind option_bind].
    unfold badge_of_co2. by rewrite Hlt.
  - split; [done|]. split; [done|]. split; [congruence|done].
Qed.

(** The backend stores the payload of a run as it was generated. *)
Lemma generate_recorded (repo : string) (run_id : Z) d db :
  draws_ok d → 2 <= year (d_now d) → int64 (next_id db) = true →
  ∃ data (co2 : spec_float) (ts : datetime),
    generate_emission_data repo run_id d = Some data
    ∧ record (Ok data) db
      = (db ++ [mkEmission (Some (next_id db)) (PStr repo)
                  (PStr "carbon-cost-team") (PStr (str_of_int run_id))
                  (py_round3 co2) (d_duration d) (PStr (d_machine_type d))
                  (PStr "Green") ts],
         Json (py_dict [("status", PStr "success");
                        ("id", PInt (next_id db))]) 201)
    ∧ (SFleb (S754_zero false) (py_round3 co2) = true
       ∧ SFleb (b64_of_decimal false 6 (-3)) (py_round3 co2) = true
       ∧ SFleb (py_round3 co2) (b64_of_decimal false 27 (-2)) = true)
    ∧ valid_datetime ts = true ∧ utcoffset ts = None
    ∧ dt_us ts
      = dt_us (d_now d)
        - timedelta (d_days_ago d) (d_hours_ago d) (d_minutes_ago d)
    ∧ emission_data
        (mkEmission (Some (next_id db)) (PStr repo) (PStr "carbon-cost-team")
           (PStr (str_of_int run_id)) (py_round3 co2) (d_duration d)
           (PStr (d_machine_type d)) (PStr "Green") ts) = data.
Proof.
  intros Hd Hy Hid.
  destruct (generate_emission_data_ok repo run_id d Hd Hy)
    as (co2 & ts & Hg & (H0 & Hlo & Hhi) & Hv & Ho & Hus).
  eexists _, co2, ts. split; [exact Hg|].
  split; [|repeat (split; [done|]); reflexivity].
  unfold py_dict.
  rewrite (record_accepts db _ (py_round3 co2) (d_duration d) ts).
  - by rewrite (naive_naive ts Ho), (float_real_co2 _ Hlo).
  - reflexivity.
  - reflexivity.
  - exists (isoformat ts). split; [reflexivity|].
    rewrite str_replace_absent by by apply occurs_Z_isoformat.
    by apply fromisoformat_isoformat.
  - assert (Hdur : int64 (d_duration d) = true).
    { unfold int64. destruct Hd as (Hdur & _).
      apply andb_true_intro. split; [apply Z.leb_le|apply Z.ltb_lt]; lia. }
    assert (Hnan : negb (b64_isnan (py_round3 co2)) = true)
      by (apply negb_true_iff; exact (SFleb_not_nan _ _ Hlo)).
    apply insertable_spec. split; [by repeat split|].
    split; [exact Hdur|]. split; [by repeat split|exact Hnan].
  - done.
Qed.

End GenerateProperties.

(** ** The loop of the simulator *)

Lemma py_range_snoc (a b : Z) : a <= b → py_range a (b + 1) = py_range a b ++ [b].
Proof.
  intros Hab. unfold py_range.
  replace (Z.to_nat (b + 1 - a)) with (S (Z.to_nat (b - a))) by lia.
  rewrite seq_S, map_app. simpl. do 2 f_equal. lia.
Qed.

Lemma py_range_nil (a b : Z) : b <= a → py_range a b = [].
Proof.
  intros Hab. unfold py_range. by replace (Z.to_nat (b - a)) with 0%nat by lia.
Qed.

Lemma py_range_length (a b : Z) : length (py_range a b) = Z.to_nat (b - a).
Proof. unfold py_range. by rewrite length_map, length_seq. Qed.

Lemma filter_all {A} (f : A → bool) (l : list A) :
  (∀ x, x ∈ l → f x = true) → List.filter f l = l.
Proof.
  induction l as [|x l IH]; [done|]. intros Hl. simpl.
  rewrite (Hl x) by apply list_elem_of_here.
  rewrite IH; [done|]. intros y Hy. apply Hl. by apply list_elem_of_further.
Qed.

(** The iterations that sleep: all but the last. *)
Lemma sleeping_iterations (num_runs : Z) :
  List.filter (fun i => i <? num_runs) (py_range 1 (num_runs + 1))
  = py_range 1 num_runs.
Proof.
  destruct (Z.le_gt_cases 1 num_runs) as [Hn|Hn].
  - rewrite py_range_snoc, List.filter_app by done. simpl.
    rewrite Z.ltb_irrefl, app_nil_r. apply filter_all.
    intros i Hi%py_range_spec. apply Z.ltb_lt. lia.
  - by rewrite !py_range_nil by lia.
Qed.

Lemma posts_app (tr1 tr2 : list event) : posts (tr1 ++ tr2) = posts tr1 ++ posts tr2.
Proof. apply omap_app. Qed.

Lemma sleeps_app (tr1 tr2 : list event) :
  sleeps (tr1 ++ tr2) = sleeps tr1 ++ sleeps tr2.
Proof. apply omap_app. Qed.

Section SimulatorProperties.

Context {server : Type}.
Variable post : pyval → server → server * option Z.
Variable get : server → server * option Z.
Variable sleep : spec_float → bool.
Variable random : Z → string * draws.

Implicit Types (w : world (server := server)) (tr : list event).

(** A generated payload has the keys the messages print: sending it does
    not raise. *)
Lemma send_generated (repo : string) (run_id : Z) (d : draws) data w :
  draws_ok d → 2 <= year (d_now d) →
  generate_emission_data repo run_id d = Some data →
  send_emission_data post data w
  = (((post data w.1).1, w.2 ++ [Post data (post data w.1).2]),
     Some (recorded (data, (post data w.1).2))).
Proof.
  intros Hd Hy Hg.
  destruct (generate_emission_data_ok repo run_id d Hd Hy)
    as (co2 & ts & Hg' & _).
  rewrite Hg' in Hg. injection Hg as <-.
  unfold send_emission_data. destruct (post _ w.1) as [s [st|]]; [|done].
  unfold recorded. cbn [fst snd]. by destruct (st =? 201).
Qed.

Lemma simulate_loop_spec (range : list Z) (num_runs : Z) (delay : spec_float)
    (k0 : Z) w :
  (∀ i, i ∈ range → random_ok random i) →
  (∀ i, i ∈ range → i < num_runs → sleep delay = true) →
  ∃ s tr,
    simulate_loop post sleep random range num_runs delay k0 w
    = ((s, w.2 ++ tr),
       Complete (k0 + Z.of_nat (length (List.filter recorded (posts tr)))))
    ∧ map (fun p => Some p.1) (posts tr)
      = map (fun i => generate_emission_data (random i).1 i (random i).2) range
    ∧ sleeps tr
      = map (fun _ => delay) (List.filter (fun i => i <? num_runs) range).
Proof.
  revert k0 w. induction range as [|i range IH]; intros k0 w Hr Hs.
  { exists w.1, []. rewrite app_nil_r. simpl. rewrite Z.add_0_r.
    by destruct w. }
  destruct (Hr i (list_elem_of_here _ _)) as (_ & Hd & Hy).
  cbn [simulate_loop]. destruct (random i) as [repo d] eqn:Hi.
  cbn [fst snd] in Hd, Hy.
  destruct (generate_emission_data_ok repo i d Hd Hy) as (co2 & ts & Hg & _).
  rewrite Hg, (send_generated repo i d _ w Hd Hy Hg).
  set (data := py_dict _) in *. clearbody data.
  set (s1 := (post data w.1).1). set (st := (post data w.1).2).
  assert (Hr' : ∀ j, j ∈ range → random_ok random j)
    by (intros j Hj; apply Hr; by apply list_elem_of_further).
  assert (Hs' : ∀ j, j ∈ range → j < num_runs → sleep delay = true)
    by (intros j Hj; apply (Hs j); by apply list_elem_of_further).
  cbn [List.filter map]. rewrite Hi. cbn [fst snd].
  destruct (Z.ltb_spec i num_runs) as [Hlt|Hge].
  - rewrite (Hs i (list_elem_of_here _ _) Hlt). cbn [fst snd].
    destruct (IH (if recorded (data, st) then k0 + 1 else k0)
                 (s1, (w.2 ++ [Post data st]) ++ [Sleep delay]) Hr' Hs')
      as (s & tr & -> & Hp & Hsl).
    exists s, (Post data st :: Sleep delay :: tr). cbn [snd].
    split; [|split].
    + rewrite <- !app_assoc. cbn [app]. do 2 f_equal.
      change (Post data st :: Sleep delay :: tr)
        with ([Post data st; Sleep delay] ++ tr).
      rewrite posts_app, List.filter_app, length_app.
      change (posts [Post data st; Sleep delay]) with [(data, st)].
      cbn [List.filter]. destruct (recorded (data, st)); simpl length; lia.
    + change (posts (Post data st :: Sleep delay :: tr))
        with ((data, st) :: posts tr).
      cbn [map fst]. by rewrite Hp, Hg.
    + change (sleeps (Post data st :: Sleep delay :: tr))
        with (delay :: sleeps tr).
      cbn [map]. by rewrite Hsl.
  - destruct (IH (if recorded (data, st) then k0 + 1 else k0)
                 (s1, w.2 ++ [Post data st]) Hr' Hs')
      as (s & tr & -> & Hp & Hsl).
    exists s, (Post data st :: tr). cbn [snd].
    split; [|split].
    + rewrite <- !app_assoc. cbn [app]. do 2 f_equal.
      change (Post data st :: tr) with ([Post data st] ++ tr).
      rewrite posts_app, List.filter_app, length_app.
      change (posts [Post data st]) with [(data, st)].
      cbn [List.filter]. destruct (recorded (data, st)); simpl length; lia.
    + change (posts (Post data st :: tr)) with ((data, st) :: posts tr).
      cbn [map fst]. by rewrite Hp, Hg.
    + change (sleeps (Post data st :: tr)) with (sleeps tr). done.
Qed.

End SimulatorProperties.

(** ** The simulator against the backend *)

Section SimulatorBackend.

Variable sleep : spec_float → bool.
Variable random : Z → string * draws.

Implicit Types (db rows : table) (tr : list event).

Lemma count_by_badge_app (b : string) db rows :
  count_by_badge (db ++ rows) b = count_by_badge db b + count_by_badge rows b.
Proof.
  unfold count_by_badge. rewrite List.filter_app, length_app. lia.
Qed.

Lemma count_by_badge_all (b : string) rows :
  Forall (fun row => badge row = PStr b) rows →
  count_by_badge rows b = Z.of_nat (length rows).
Proof.
  induction 1 as [|row rows Hrow _ IH]; [done|].
  rewrite count_by_badge_cons, IH.
  rewrite (proj2 (badge_is_spec b row) Hrow). simpl length. lia.
Qed.

Lemma count_by_badge_none (b b' : string) rows :
  b ≠ b' → Forall (fun row => badge row = PStr b') rows →
  count_by_badge rows b = 0.
Proof.
  intros Hb. induction 1 as [|row rows Hrow _ IH]; [done|].
  rewrite count_by_badge_cons, IH.
  destruct (badge_is b row) eqn:Hbr; [|done].
  apply badge_is_spec in Hbr. congruence.
Qed.

(** The loop against the backend: every run is recorded. *)
Lemma simulate_loop_backend (range : list Z) (num_runs : Z)
    (delay : spec_float) (k0 : Z) db tr0 :
  reachable db →
  Z.of_nat (length db) + Z.of_nat (length range) < 2 ^ 63 →
  (∀ i, i ∈ range → random_ok random i) →
  (∀ i, i ∈ range → i < num_runs → sleep delay = true) →
  ∃ rows tr,
    simulate_loop backend_post sleep random range num_runs delay k0 (db, tr0)
    = ((db ++ rows, tr0 ++ tr), Complete (k0 + Z.of_nat (length range)))
    ∧ reachable (db ++ rows)
    ∧ map run_id rows = map (fun i => PStr (str_of_int i)) range
    ∧ Forall (fun row => badge row = PStr "Green" ∧ non_negative row) rows.
Proof.
  revert k0 db tr0. induction range as [|i range IH]; intros k0 db tr0 Hdb Hlen Hr Hs.
  { exists [], []. rewrite !app_nil_r. simpl. rewrite Z.add_0_r. by repeat split. }
  destruct (Hr i (list_elem_of_here _ _)) as (_ & Hd & Hy).
  cbn [simulate_loop]. destruct (random i) as [repo_ d] eqn:Hi.
  cbn [fst snd] in Hd, Hy.
  destruct (reachable_inv db Hdb) as (Hids & _ & _).
  assert (Hid : int64 (next_id db) = true).
  { rewrite (next_id_ids_ok db Hids). unfold int64. simpl length in Hlen.
    apply andb_true_intro. split; [apply Z.leb_le|apply Z.ltb_lt]; lia. }
  destruct (generate_recorded repo_ i d db Hd Hy Hid)
    as (data & c & ts & Hg & Hrec & (H0 & _) & _).
  set (row := mkEmission _ _ _ _ _ _ _ _ _) in *.
  assert (Hpost : backend_post data db = (db ++ [row], Some 201))
    by (unfold backend_post; by rewrite Hrec).
  rewrite Hg, (send_generated backend_post repo_ i d data (db, tr0) Hd Hy Hg).
  cbn [fst snd]. rewrite Hpost. cbn [fst snd].
  change (recorded (data, Some 201)) with true. cbv iota.
  assert (Hdb' : reachable (db ++ [row])).
  { pose proof (reachable_record (Ok data) db Hdb) as Hrr.
    by rewrite Hrec in Hrr. }
  assert (Hlen' : Z.of_nat (length (db ++ [row])) + Z.of_nat (length range)
                  < 2 ^ 63)
    by (rewrite length_app; simpl length in *; lia).
  assert (Hr' : ∀ j, j ∈ range → random_ok random j)
    by (intros j Hj; apply Hr; by apply list_elem_of_further).
  assert (Hs' : ∀ j, j ∈ range → j < num_runs → sleep delay = true)
    by (intros j Hj; apply (Hs j); by apply list_elem_of_further).
  assert (Hrow : badge row = PStr "Green" ∧ non_negative row).
  { split; [done|]. split; [exact H0|]. destruct Hd as (Hdur & _).
    change (0 <= d_duration d). lia. }
  destruct (Z.ltb_spec i num_runs) as [Hlt|Hge].
  - rewrite (Hs i (list_elem_of_here _ _) Hlt).
    destruct (IH (k0 + 1) (db ++ [row])
                 ((tr0 ++ [Post data (Some 201)]) ++ [Sleep delay])
                 Hdb' Hlen' Hr' Hs')
      as (rows & tr & -> & Hreach & Hids' & Hrows).
    exists (row :: rows), (Post data (Some 201) :: Sleep delay :: tr).
    rewrite <- !app_assoc in *. cbn [app] in *.
    split; [do 2 f_equal; simpl length; lia|].
    split; [done|]. split; [by cbn [map]; rewrite Hids'|by constructor].
  - destruct (IH (k0 + 1) (db ++ [row]) (tr0 ++ [Post data (Some 201)])
                 Hdb' Hlen' Hr' Hs')
      as (rows & tr & -> & Hreach & Hids' & Hrows).
    exists (row :: rows), (Post data (Some 201) :: tr).
    rewrite <- !app_assoc in *. cbn [app] in *.
    split; [do 2 f_equal; simpl length; lia|].
    split; [done|]. split; [by cbn [map]; rewrite Hids'|by constructor].
Qed.

End SimulatorBackend.

(** * Further properties: the simulator *)

Section SimulatorExtras.

Implicit Types (d : draws) (db rows : table) (tr : list event).

(** X10.  Every run the simulator generates has the badge Green: with a
    duration from 30 to 900 seconds and the three factors, the co2 of the
    payload is a float from 0.006 to 0.27, below the 0.5 at which a badge
    turns Yellow.  The call returns whenever the clock is after year 1. *)
Theorem generate_always_green (repo : string) (run_id : Z) d :
  draws_ok d → 2 <= year (d_now d) →
  ∃ data (co2 : spec_float),
    generate_emission_data repo run_id d = Some data
    ∧ py_lookup data "badge" = Some (PStr "Green")
    ∧ py_lookup data "co2" = Some (PFloat co2)
    ∧ SFleb (b64_of_decimal false 6 (-3)) co2 = true
    ∧ SFleb co2 (b64_of_decimal false 27 (-2)) = true.
Proof.
  intros Hd Hy.
  destruct (generate_emission_data_ok repo run_id d Hd Hy)
    as (co2 & ts & -> & (_ & Hlo & Hhi) & _).
  eexists _, (py_round3 co2). split; [reflexivity|]. by repeat split.
Qed.

(** X11.  The timestamp of a generated run is the ISO-8601 text of a
    naive datetime that is the clock minus the drawn days, hours and
    minutes exactly: never after the clock and at most 8 days and 1 hour
    before it.  POST /record reads that text back as the same datetime. *)
Theorem generate_timestamp_backdated (repo : string) (run_id : Z) d :
  draws_ok d → 2 <= year (d_now d) →
  ∃ data ts,
    generate_emission_data repo run_id d = Some data
    ∧ py_lookup data "timestamp" = Some (PStr (isoformat ts))
    ∧ fromisoformat (str_replace "Z" "+00:00" (isoformat ts)) = Some ts
    ∧ dt_us ts
      = dt_us (d_now d)
        - timedelta (d_days_ago d) (d_hours_ago d) (d_minutes_ago d)
    ∧ dt_us (d_now d) - 694800000000 <= dt_us ts <= dt_us (d_now d)
    ∧ valid_datetime ts = true ∧ utcoffset ts = None.
Proof.
  intros Hd Hy. pose proof (timedelta_bounds d Hd) as Htd.
  destruct (generate_emission_data_ok repo run_id d Hd Hy)
    as (co2 & ts & -> & _ & Hv & Ho & Hus).
  eexists _, ts. split; [reflexivity|]. split; [reflexivity|].
  split; [|split; [done|split; [lia|done]]].
  rewrite str_replace_absent by by apply occurs_Z_isoformat.
  by apply fromisoformat_isoformat.
Qed.

(** X12.  POST /record accepts every generated run, while the table has
    a key left: the answer is 201 with the next key, the one row appended
    is not negative, and its entry in GET /stats is the payload as it was
    sent, field for field. *)
Theorem generate_payload_recorded (repo : string) (run_id : Z) d db :
  draws_ok d → 2 <= year (d_now d) →
  reachable db → Z.of_nat (length db) + 1 < 2 ^ 63 →
  ∃ data row,
    generate_emission_data repo run_id d = Some data
    ∧ record (Ok data) db
      = (db ++ [row],
         Json (py_dict [("status", PStr "success");
                        ("id", PInt (Z.of_nat (length db) + 1))]) 201)
    ∧ emission_data row = data
    ∧ non_negative row.
Proof.
  intros Hd Hy Hdb Hlen. destruct (reachable_inv db Hdb) as (Hids & _ & _).
  pose proof (next_id_ids_ok db Hids) as Hnext.
  assert (Hid : int64 (next_id db) = true).
  { rewrite Hnext. unfold int64.
    apply andb_true_intro. split; [apply Z.leb_le|apply Z.ltb_lt]; lia. }
  destruct (generate_recorded repo run_id d db Hd Hy Hid)
    as (data & c & ts & Hg & Hrec & (H0 & _) & _ & _ & _ & Hdata).
  eexists data, _. split; [exact Hg|]. rewrite <- Hnext.
  split; [exact Hrec|]. split; [exact Hdata|].
  split; [exact H0|]. destruct Hd as (Hdur & _).
  change (0 <= d_duration d). lia.
Qed.

Lemma py_range_cons (a b : Z) : a < b → py_range a b = a :: py_range (a + 1) b.
Proof.
  intros Hab. unfold py_range.
  replace (Z.to_nat (b - a)) with (S (Z.to_nat (b - (a + 1)))) by lia.
  cbn [seq map]. f_equal; [lia|].
  rewrite <- seq_shift, map_map. apply map_ext. intros k. lia.
Qed.

Section AnyServer.

Context {server : Type}.
Variable post : pyval → server → server * option Z.
Variable get : server → server * option Z.
Variable sleep : spec_float → bool.
Variable random : Z → string * draws.

Implicit Types (w : world (server := server)).

(** X13.  [simulate_runs(num_runs, delay)] on any server, with a delay
    [time.sleep] takes: it posts the payloads of the runs 1 to [num_runs]
    in that order, whatever the answers, sleeps between two posts only
    ([num_runs - 1] times), and the count of its summary line is the
    number of posts answered 201.  With [num_runs <= 0] it does nothing. *)
Theorem simulate_runs_posts (num_runs : Z) (delay : spec_float) w :
  (∀ i, 1 <= i <= num_runs → random_ok random i) →
  (2 <= num_runs → sleep delay = true) →
  ∃ s tr,
    simulate_runs post sleep random num_runs delay w
    = ((s, w.2 ++ tr),
       Complete (Z.of_nat (length (List.filter recorded (posts tr)))))
    ∧ map (fun p => Some p.1) (posts tr)
      = map (fun i => generate_emission_data (random i).1 i (random i).2)
            (py_range 1 (num_runs + 1))
    ∧ sleeps tr = replicate (Z.to_nat (num_runs - 1)) delay.
Proof.
  intros Hr Hs. unfold simulate_runs.
  destruct (simulate_loop_spec post sleep random (py_range 1 (num_runs + 1))
              num_runs delay 0 w) as (s & tr & Hl & Hp & Hsl).
  - intros i Hi%py_range_spec. apply Hr. lia.
  - intros i Hi%py_range_spec Hlt. apply Hs. lia.
  - exists s, tr. rewrite Hl, Z.add_0_l. split; [done|]. split; [done|].
    rewrite Hsl, sleeping_iterations.
    rewrite <- (py_range_length 1 num_runs).
    generalize (py_range 1 num_runs). intros l.
    induction l as [|x l IH]; [done|]. simpl. by rewrite IH.
Qed.

(** X14.  When [time.sleep(delay)] raises, as it does for a negative
    delay, a simulation of two runs or more posts the first run and stops
    there with the exception: no other run is posted and there is no
    summary. *)
Theorem simulate_runs_sleep_raises (num_runs : Z) (delay : spec_float) w :
  2 <= num_runs → random_ok random 1 → sleep delay = false →
  ∃ data,
    generate_emission_data (random 1).1 1 (random 1).2 = Some data
    ∧ simulate_runs post sleep random num_runs delay w
      = (((post data w.1).1, w.2 ++ [Post data (post data w.1).2]), Raises).
Proof.
  intros Hn (_ & Hd & Hy) Hs. unfold simulate_runs.
  rewrite py_range_cons by lia. cbn [simulate_loop].
  destruct (random 1) as [repo_ d] eqn:Hi. cbn [fst snd] in *.
  destruct (generate_emission_data_ok repo_ 1 d Hd Hy) as (co2 & ts & Hg & _).
  rewrite Hg, (send_generated post repo_ 1 d _ w Hd Hy Hg).
  eexists. split; [reflexivity|].
  destruct (Z.ltb_spec 1 num_runs); [|lia]. by rewrite Hs.
Qed.

(** X15.  [main] uses both defaults when either answer is not a number:
    a run count that was valid is replaced by 20 when the delay is not a
    float, and the delay is then 0.5. *)
Theorem main_invalid_input (line1 line2 : string) (inputs : list string) w s :
  get w.1 = (s, Some 200) →
  (∃ e, int_of_ascii_str (str_or line1 "20") = Raise e)
  ∨ (∃ e, float_of_ascii_str (str_or line2 "0.5") = Raise e) →
  main post get sleep random (line1 :: line2 :: inputs) w
  = simulate_runs post sleep random 20 (b64_of_decimal false 5 (-1))
                  (s, w.2 ++ [Get (Some 200)]).
Proof.
  intros Hget Hbad. unfold main. rewrite Hget.
  change (200 =? 200) with true. cbv iota.
  destruct (int_of_ascii_str (str_or line1 "20")) as [n|e1]; [|done].
  destruct Hbad as [[e He]|[e He]]; [done|]. by rewrite He.
Qed.

End AnyServer.

Section OnBackend.

Variable sleep : spec_float → bool.
Variable random : Z → string * draws.

(** X16.  Against the backend every simulated run is recorded: the
    simulation of [num_runs] runs ends with the count [num_runs], and the
    table has [num_runs] more rows, in the order of the runs, with the run
    ids "1" to "num_runs", each of badge Green and not negative. *)
Theorem simulate_runs_backend (num_runs : Z) (delay : spec_float) db tr0 :
  reachable db → 0 <= num_runs → Z.of_nat (length db) + num_runs < 2 ^ 63 →
  (∀ i, 1 <= i <= num_runs → random_ok random i) →
  (2 <= num_runs → sleep delay = true) →
  ∃ rows tr,
    simulate_runs backend_post sleep random num_runs delay (db, tr0)
    = ((db ++ rows, tr0 ++ tr), Complete num_runs)
    ∧ Z.of_nat (length rows) = num_runs
    ∧ map run_id rows
      = map (fun i => PStr (str_of_int i)) (py_range 1 (num_runs + 1))
    ∧ Forall (fun row => badge row = PStr "Green" ∧ non_negative row) rows.
Proof.
  intros Hdb Hn Hlen Hr Hs. unfold simulate_runs.
  destruct (simulate_loop_backend sleep random (py_range 1 (num_runs + 1))
              num_runs delay 0 db tr0) as (rows & tr & Hl & _ & Hids & Hrows).
  - done.
  - rewrite py_range_length. lia.
  - intros i Hi%py_range_spec. apply Hr. lia.
  - intros i Hi%py_range_spec Hlt. apply Hs. lia.
  - exists rows, tr. rewrite Hl, py_range_length.
    split; [do 2 f_equal; lia|]. split; [|done].
    rewrite <- (length_map run_id), Hids, length_map, py_range_length. lia.
Qed.

(** X17.  After a simulation against the backend GET /stats counts
    [num_runs] more Green rows and as many Yellow and Red rows as before;
    and if the table held Green rows only, the latest badge is Green in
    brightgreen. *)
Theorem simulate_runs_stats (num_runs : Z) (delay : spec_float) db tr0 :
  reachable db → 1 <= num_runs → Z.of_nat (length db) + num_runs < 2 ^ 63 →
  (∀ i, 1 <= i <= num_runs → random_ok random i) →
  (2 <= num_runs → sleep delay = true) →
  ∃ db' tr k,
    simulate_runs backend_post sleep random num_runs delay (db, tr0)
    = ((db', tr), k)
    ∧ stats_count (stats db') "Green"
      = Some (PInt (count_by_badge db "Green" + num_runs))
    ∧ stats_count (stats db') "Yellow"
      = Some (PInt (count_by_badge db "Yellow"))
    ∧ stats_count (stats db') "Red" = Some (PInt (count_by_badge db "Red"))
    ∧ (Forall (fun e => badge e = PStr "Green") db →
       latest_co2_badge db'
       = Json (py_dict [("schemaVersion", PInt 1); ("label", PStr "CO2");
                        ("message", PStr "Green");
                        ("color", PStr "brightgreen")]) 200).
Proof.
  intros Hdb Hn Hlen Hr Hs. unfold simulate_runs.
  destruct (simulate_loop_backend sleep random (py_range 1 (num_runs + 1))
              num_runs delay 0 db tr0)
    as (rows & tr & Hl & Hdb' & Hids & Hrows).
  - done.
  - rewrite py_range_length. lia.
  - intros i Hi%py_range_spec. apply Hr. lia.
  - intros i Hi%py_range_spec Hlt. apply Hs. lia.
  - assert (Hrn : Z.of_nat (length rows) = num_runs).
    { rewrite <- (length_map run_id), Hids, length_map, py_range_length. lia. }
    assert (Hgreen : Forall (fun row => badge row = PStr "Green") rows)
      by (eapply Forall_impl; [exact Hrows|]; by intros row [? _]).
    eexists _, _, _. split; [exact Hl|].
    rewrite !stats_count_reachable, !count_by_badge_app
      by first [done | apply list_elem_of_In; simpl; tauto].
    rewrite (count_by_badge_all "Green" rows) by done.
    rewrite (count_by_badge_none "Yellow" "Green" rows),
      (count_by_badge_none "Red" "Green" rows) by done.
    rewrite Hrn, !Z.add_0_r. repeat (split; [done|]).
    intros Hold.
    destruct (order_by_nonempty (db ++ rows)) as [e He].
    { destruct rows; [simpl in Hrn; lia|]. by destruct db. }
    destruct (latest_co2_badge_reachable (db ++ rows) e Hdb' He)
      as (color & Hc & ->).
    destruct (order_by_head _ _ He) as [Hin _].
    assert (Hb : badge e = PStr "Green").
    { apply elem_of_app in Hin as [Hin|Hin].
      - by apply (proj1 (Forall_forall _ _) Hold).
      - by apply (proj1 (Forall_forall _ _) Hgreen). }
    rewrite Hb in *. rewrite color_map_get_str in Hc.
    change (String.eqb "Green" "Green") with true in Hc. cbv iota in Hc.
    by injection Hc as <-.
Qed.

(** X18.  [main] with both questions answered by an empty line, against
    the backend: the health check is answered 200 on every table, the
    defaults 20 and 0.5 are used and 0.5 is a delay [time.sleep] takes, so
    20 runs are recorded and the table has 20 more rows. *)
Theorem main_backend_defaults (inputs : list string) db :
  reachable db → Z.of_nat (length db) + 20 < 2 ^ 63 →
  (∀ i, 1 <= i <= 20 → random_ok random i) →
  ∃ rows tr,
    main backend_post backend_get sleep_returns random
         ("" :: "" :: inputs) (db, [])
    = ((db ++ rows, Get (Some 200) :: tr), Complete 20)
    ∧ length rows = 20%nat
    ∧ Forall (fun row => badge row = PStr "Green") rows.
Proof.
  intros Hdb Hlen Hr. unfold main, backend_get. cbn [fst snd].
  destruct (stats_reachable db Hdb) as (avg & -> & _). cbn [status_of].
  change (200 =? 200) with true. cbv iota.
  change (int_of_ascii_str (str_or "" "20")) with (Ok 20 : result Z).
  change (float_of_ascii_str (str_or "" "0.5"))
    with (Ok (b64_of_decimal false 5 (-1)) : result spec_float).
  cbv iota. unfold simulate_runs.
  destruct (simulate_loop_backend sleep_returns random (py_range 1 (20 + 1))
              20 (b64_of_decimal false 5 (-1)) 0 db [Get (Some 200)])
    as (rows & tr & Hl & _ & Hids & Hrows).
  - done.
  - rewrite py_range_length. lia.
  - intros i Hi%py_range_spec. apply Hr. lia.
  - intros _ _ _. vm_compute. reflexivity.
  - exists rows, tr. cbn [app]. rewrite Hl. split; [reflexivity|]. split.
    + by rewrite <- (length_map run_id), Hids, length_map, py_range_length.
    + eapply Forall_impl; [exact Hrows|]. by intros row [? _].
Qed.

End OnBackend.

End SimulatorExtras.

(** * Further properties: the dashboard *)

Section DashboardExtras.

Context {R : Type}.
Implicit Types (df : DataFrame R) (a b c : date) (s : list date).

Lemma date_leb_refl a : date_leb a a = true.
Proof. unfold date_leb. by rewrite lex_ltb_irrefl. Qed.

Lemma date_leb_trans a b c :
  date_leb a b = true → date_leb b c = true → date_leb a c = true.
Proof.
  unfold date_leb. rewrite !negb_true_iff. intros Hab Hbc.
  by apply (lex_ltb_negtrans _ [date_year b; date_month b; date_day b]).
Qed.

Lemma date_leb_total a b : date_leb a b = false → date_leb b a = true.
Proof.
  unfold date_leb. rewrite negb_false_iff, negb_true_iff. apply lex_ltb_asym.
Qed.

Lemma fold_min_le s m :
  date_leb (fold_left (fun m d => if date_leb m d then m else d) s m) m = true
  ∧ ∀ d, d ∈ s →
      date_leb (fold_left (fun m d => if date_leb m d then m else d) s m) d
      = true.
Proof.
  revert m. induction s as [|x s IH]; intros m.
  { split; [apply date_leb_refl|]. intros d Hd. by apply elem_of_nil in Hd. }
  cbn [fold_left]. destruct (date_leb m x) eqn:Hmx.
  - destruct (IH m) as [Hm Hs]. split; [done|].
    intros d [->|Hd]%elem_of_cons; [|by apply Hs].
    by apply (date_leb_trans _ m).
  - destruct (IH x) as [Hx Hs]. apply date_leb_total in Hmx. split.
    + by apply (date_leb_trans _ x).
    + intros d [->|Hd]%elem_of_cons; [done|by apply Hs].
Qed.

Lemma fold_max_ge s m :
  date_leb m (fold_left (fun m d => if date_leb d m then m else d) s m) = true
  ∧ ∀ d, d ∈ s →
      date_leb d (fold_left (fun m d => if date_leb d m then m else d) s m)
      = true.
Proof.
  revert m. induction s as [|x s IH]; intros m.
  { split; [apply date_leb_refl|]. intros d Hd. by apply elem_of_nil in Hd. }
  cbn [fold_left]. destruct (date_leb x m) eqn:Hxm.
  - destruct (IH m) as [Hm Hs]. split; [done|].
    intros d [->|Hd]%elem_of_cons; [|by apply Hs].
    by apply (date_leb_trans _ m).
  - destruct (IH x) as [Hx Hs]. apply date_leb_total in Hxm. split.
    + by apply (date_leb_trans _ x).
    + intros d [->|Hd]%elem_of_cons; [done|by apply Hs].
Qed.

Lemma filter_sublist (f : R → bool) (l : list R) : sublist (List.filter f l) l.
Proof.
  induction l as [|x l IH]; [constructor|]. simpl.
  destruct (f x); by constructor.
Qed.

Lemma filter_id (f : R → bool) (l : list R) :
  (∀ x, x ∈ l → f x = true) → List.filter f l = l.
Proof.
  induction l as [|x l IH]; [done|]. intros Hl. simpl.
  rewrite (Hl x) by apply list_elem_of_here.
  rewrite IH; [done|]. intros y Hy. apply Hl. by apply list_elem_of_further.
Qed.

(** X19.  The date filter of the dashboard, on a frame with a [date]
    column and a range of two dates: it keeps the column, and keeps
    exactly the rows dated from the start to the end of the range, both
    included, in the order they had.  A range whose end is before its
    start keeps no row. *)
Theorem filter_keeps_range df (date_ : R → date) (start_date end_date : date) :
  df_date df = Some date_ →
  ∃ df',
    filter_data_by_date_range df [start_date; end_date] = Some df'
    ∧ df_date df' = df_date df
    ∧ sublist (df_rows df') (df_rows df)
    ∧ (∀ r, r ∈ df_rows df'
            ↔ r ∈ df_rows df ∧ date_leb start_date (date_ r) = true
              ∧ date_leb (date_ r) end_date = true)
    ∧ (date_leb start_date end_date = false → df_rows df' = []).
Proof.
  intros Hd. unfold filter_data_by_date_range. rewrite Hd.
  eexists. split; [reflexivity|]. cbn [df_rows df_date].
  split; [done|]. split; [apply filter_sublist|].
  assert (Hmem : ∀ r,
            r ∈ List.filter (fun r => date_leb start_date (date_ r)
                                      && date_leb (date_ r) end_date)
                            (df_rows df)
            ↔ r ∈ df_rows df ∧ date_leb start_date (date_ r) = true
              ∧ date_leb (date_ r) end_date = true).
  { intros r. rewrite !list_elem_of_In, filter_In, andb_true_iff. tauto. }
  split; [exact Hmem|]. intros Hse.
  destruct (List.filter _ _) as [|r l] eqn:Hf; [done|].
  destruct (proj1 (Hmem r) (list_elem_of_here _ _)) as (_ & H1 & H2).
  rewrite (date_leb_trans _ _ _ H1 H2) in Hse. discriminate Hse.
Qed.

(** X20.  The range the dashboard starts with, from the earliest to the
    latest date of a frame that is not empty, filters nothing out: the
    filtered frame is the frame. *)
Theorem filter_default_range df (date_ : R → date) :
  df_date df = Some date_ → df_rows df ≠ [] →
  ∃ date_range,
    default_date_range df = Some date_range
    ∧ filter_data_by_date_range df date_range = Some df.
Proof.
  intros Hd Hne. unfold default_date_range. rewrite Hd.
  cbn [mbind option_bind].
  destruct (df_rows df) as [|r0 rows] eqn:Hrows; [done|].
  cbn [map series_min series_max mbind option_bind].
  eexists. split; [reflexivity|].
  unfold filter_data_by_date_range. rewrite Hd, Hrows.
  cbn [mbind option_bind]. rewrite filter_id.
  - destruct df as [rs dc]. cbn [df_rows df_date] in *. by subst.
  - intros r Hr.
    destruct (fold_min_le (map date_ rows) (date_ r0)) as [Hlo0 Hlo].
    destruct (fold_max_ge (map date_ rows) (date_ r0)) as [Hhi0 Hhi].
    apply elem_of_cons in Hr as [->|Hr].
    + by rewrite Hlo0, Hhi0.
    + rewrite Hlo, Hhi by (by apply list_elem_of_fmap_2). done.
Qed.

End DashboardExtras.

(** * The properties of the simulator and the dashboard on samples *)

Lemma sample_draws_ok : draws_ok sample_draws.
Proof.
  unfold draws_ok, sample_draws. simpl.
  repeat split; try lia; try reflexivity.
  apply list_elem_of_In. simpl. tauto.
Qed.

Lemma sample_random_ok (i : Z) : random_ok sample_random i.
Proof.
  split; [apply list_elem_of_In; simpl; tauto|].
  split; [exact sample_draws_ok|]. simpl. lia.
Qed.

Lemma sample_clock : 2 <= year (d_now sample_draws).
Proof. simpl. lia. Qed.

Lemma half_second_sleeps : sleep_returns (b64_of_decimal false 5 (-1)) = true.
Proof. vm_compute. reflexivity. Qed.

(** X10 on [sample_draws]. *)
Lemma generate_always_green_sample :
  draws_ok sample_draws ∧ 2 <= year (d_now sample_draws)
  ∧ ∃ data (co2 : spec_float),
      generate_emission_data "frontend-app" 1 sample_draws = Some data
      ∧ py_lookup data "badge" = Some (PStr "Green")
      ∧ py_lookup data "co2" = Some (PFloat co2)
      ∧ SFleb (b64_of_decimal false 6 (-3)) co2 = true
      ∧ SFleb co2 (b64_of_decimal false 27 (-2)) = true.
Proof.
  split; [exact sample_draws_ok|]. split; [exact sample_clock|].
  exact (generate_always_green "frontend-app" 1 sample_draws
           sample_draws_ok sample_clock).
Defined.

(** X11 on [sample_draws]. *)
Lemma generate_timestamp_backdated_sample :
  draws_ok sample_draws ∧ 2 <= year (d_now sample_draws)
  ∧ ∃ data ts,
      generate_emission_data "frontend-app" 1 sample_draws = Some data
      ∧ py_lookup data "timestamp" = Some (PStr (isoformat ts))
      ∧ fromisoformat (str_replace "Z" "+00:00" (isoformat ts)) = Some ts
      ∧ dt_us ts
        = dt_us (d_now sample_draws)
          - timedelta (d_days_ago sample_draws) (d_hours_ago sample_draws)
                      (d_minutes_ago sample_draws)
      ∧ dt_us (d_now sample_draws) - 694800000000 <= dt_us ts
        <= dt_us (d_now sample_draws)
      ∧ valid_datetime ts = true ∧ utcoffset ts = None.
Proof.
  split; [exact sample_draws_ok|]. split; [exact sample_clock|].
  exact (generate_timestamp_backdated "frontend-app" 1 sample_draws
           sample_draws_ok sample_clock).
Defined.

(** X12 on [sample_draws], posted to the empty table. *)
Lemma generate_payload_recorded_sample :
  draws_ok sample_draws ∧ 2 <= year (d_now sample_draws)
  ∧ reachable (@nil Emission)
  ∧ Z.of_nat (length (@nil Emission)) + 1 < 2 ^ 63
  ∧ ∃ data row,
      generate_emission_data "frontend-app" 1 sample_draws = Some data
      ∧ record (Ok data) []
        = ([] ++ [row],
           Json (py_dict [("status", PStr "success");
                          ("id", PInt (Z.of_nat (length (@nil Emission)) + 1))])
                201)
      ∧ emission_data row = data
      ∧ non_negative row.
Proof.
  split; [exact sample_draws_ok|]. split; [exact sample_clock|].
  split; [constructor|]. split; [reflexivity|].
  exact (generate_payload_recorded "frontend-app" 1 sample_draws []
           sample_draws_ok sample_clock reachable_nil eq_refl).
Defined.

(** X13 on three runs against a server that answers 500. *)
Lemma simulate_runs_posts_sample :
  (∀ i, 1 <= i <= 3 → random_ok sample_random i)
  ∧ (2 <= 3 → sleep_returns (b64_of_decimal false 5 (-1)) = true)
  ∧ ∃ s tr,
      simulate_runs failing_post sleep_returns sample_random 3
                    (b64_of_decimal false 5 (-1)) (0, [])
      = ((s, (0, @nil event).2 ++ tr),
         Complete (Z.of_nat (length (List.filter recorded (posts tr)))))
      ∧ map (fun p => Some p.1) (posts tr)
        = map (fun i => generate_emission_data (sample_random i).1 i
                                               (sample_random i).2)
              (py_range 1 (3 + 1))
      ∧ sleeps tr = replicate (Z.to_nat (3 - 1)) (b64_of_decimal false 5 (-1)).
Proof.
  split; [intros i _; exact (sample_random_ok i)|].
  split; [intros _; exact half_second_sleeps|].
  exact (simulate_runs_posts failing_post sleep_returns sample_random 3
           (b64_of_decimal false 5 (-1)) (0, [])
           (fun i _ => sample_random_ok i) (fun _ => half_second_sleeps)).
Defined.

(** X14 on two runs with a delay of -1 second, against the backend. *)
Lemma simulate_runs_sleep_raises_sample :
  2 <= 2 ∧ random_ok sample_random 1
  ∧ sleep_returns (b64_of_decimal true 1 0) = false
  ∧ ∃ data,
      generate_emission_data (sample_random 1).1 1 (sample_random 1).2
      = Some data
      ∧ simulate_runs backend_post sleep_returns sample_random 2
                      (b64_of_decimal true 1 0) ([], [])
        = (((backend_post data (@nil Emission, @nil event).1).1,
            (@nil Emission, @nil event).2
            ++ [Post data (backend_post data (@nil Emission, @nil event).1).2]),
           Raises).
Proof.
  split; [lia|]. split; [exact (sample_random_ok 1)|].
  split; [vm_compute; reflexivity|].
  exact (simulate_runs_sleep_raises backend_post sleep_returns sample_random 2
           (b64_of_decimal true 1 0) ([], [])
           ltac:(lia) (sample_random_ok 1) ltac:(vm_compute; reflexivity)).
Defined.

(** X15 on the answers [5] and [soon], against the backend. *)
Lemma main_invalid_input_sample :
  backend_get [] = ([], Some 200)
  ∧ ((∃ e, int_of_ascii_str (str_or "5" "20") = Raise e)
     ∨ (∃ e, float_of_ascii_str (str_or "soon" "0.5") = Raise e))
  ∧ main backend_post backend_get sleep_returns sample_random
         ["5"; "soon"] ([], [])
    = simulate_runs backend_post sleep_returns sample_random 20
                    (b64_of_decimal false 5 (-1))
                    ([], (@nil Emission, @nil event).2 ++ [Get (Some 200)]).
Proof.
  split; [reflexivity|].
  split; [right; exists ValueError; reflexivity|].
  exact (main_invalid_input backend_post backend_get sleep_returns
           sample_random "5" "soon" [] ([], []) [] eq_refl
           (or_intror (ex_intro _ ValueError eq_refl))).
Defined.

(** X16 on three runs into the empty table. *)
Lemma simulate_runs_backend_sample :
  reachable (@nil Emission) ∧ 0 <= 3
  ∧ Z.of_nat (length (@nil Emission)) + 3 < 2 ^ 63
  ∧ (∀ i, 1 <= i <= 3 → random_ok sample_random i)
  ∧ (2 <= 3 → sleep_returns (b64_of_decimal false 5 (-1)) = true)
  ∧ ∃ rows tr,
      simulate_runs backend_post sleep_returns sample_random 3
                    (b64_of_decimal false 5 (-1)) ([], [])
      = (([] ++ rows, [] ++ tr), Complete 3)
      ∧ Z.of_nat (length rows) = 3
      ∧ map run_id rows
        = map (fun i => PStr (str_of_int i)) (py_range 1 (3 + 1))
      ∧ Forall (fun row => badge row = PStr "Green" ∧ non_negative row) rows.
Proof.
  split; [constructor|]. split; [lia|]. split; [reflexivity|].
  split; [intros i _; exact (sample_random_ok i)|].
  split; [intros _; exact half_second_sleeps|].
  exact (simulate_runs_backend sleep_returns sample_random 3
           (b64_of_decimal false 5 (-1)) [] [] reachable_nil ltac:(lia) eq_refl
           (fun i _ => sample_random_ok i) (fun _ => half_second_sleeps)).
Defined.

(** X17 on three runs into the empty table. *)
Lemma simulate_runs_stats_sample :
  reachable (@nil Emission) ∧ 1 <= 3
  ∧ Z.of_nat (length (@nil Emission)) + 3 < 2 ^ 63
  ∧ (∀ i, 1 <= i <= 3 → random_ok sample_random i)
  ∧ (2 <= 3 → sleep_returns (b64_of_decimal false 5 (-1)) = true)
  ∧ ∃ db' tr k,
      simulate_runs backend_post sleep_returns sample_random 3
                    (b64_of_decimal false 5 (-1)) ([], [])
      = ((db', tr), k)
      ∧ stats_count (stats db') "Green"
        = Some (PInt (count_by_badge [] "Green" + 3))
      ∧ stats_count (stats db') "Yellow"
        = Some (PInt (count_by_badge [] "Yellow"))
      ∧ stats_count (stats db') "Red" = Some (PInt (count_by_badge [] "Red"))
      ∧ (Forall (fun e => badge e = PStr "Green") (@nil Emission) →
         latest_co2_badge db'
         = Json (py_dict [("schemaVersion", PInt 1); ("label", PStr "CO2");
                          ("message", PStr "Green");
                          ("color", PStr "brightgreen")]) 200).
Proof.
  split; [constructor|]. split; [lia|]. split; [reflexivity|].
  split; [intros i _; exact (sample_random_ok i)|].
  split; [intros _; exact half_second_sleeps|].
  exact (simulate_runs_stats sleep_returns sample_random 3
           (b64_of_decimal false 5 (-1)) [] [] reachable_nil ltac:(lia) eq_refl
           (fun i _ => sample_random_ok i) (fun _ => half_second_sleeps)).
Defined.

(** X18 on the empty table. *)
Lemma main_backend_defaults_sample :
  reachable (@nil Emission)
  ∧ Z.of_nat (length (@nil Emission)) + 20 < 2 ^ 63
  ∧ (∀ i, 1 <= i <= 20 → random_ok sample_random i)
  ∧ ∃ rows tr,
      main backend_post backend_get sleep_returns sample_random
           ["" ; ""] ([], [])
      = (([] ++ rows, Get (Some 200) :: tr), Complete 20)
      ∧ length rows = 20%nat
      ∧ Forall (fun row => badge row = PStr "Green") rows.
Proof.
  split; [constructor|]. split; [reflexivity|].
  split; [intros i _; exact (sample_random_ok i)|].
  exact (main_backend_defaults sample_random [] [] reachable_nil eq_refl
           (fun i _ => sample_random_ok i)).
Defined.

(** X19 on [sample_frame], from 2024-01-01 to 2024-01-03. *)
Lemma filter_keeps_range_sample :
  df_date sample_frame = Some snd
  ∧ ∃ df',
      filter_data_by_date_range sample_frame
        [mkdate 2024 1 1; mkdate 2024 1 3] = Some df'
      ∧ df_date df' = df_date sample_frame
      ∧ sublist (df_rows df') (df_rows sample_frame)
      ∧ (∀ r, r ∈ df_rows df'
              ↔ r ∈ df_rows sample_frame
                ∧ date_leb (mkdate 2024 1 1) (snd r) = true
                ∧ date_leb (snd r) (mkdate 2024 1 3) = true)
      ∧ (date_leb (mkdate 2024 1 1) (mkdate 2024 1 3) = false →
         df_rows df' = []).
Proof.
  split; [reflexivity|].
  exact (filter_keeps_range sample_frame snd (mkdate 2024 1 1)
           (mkdate 2024 1 3) eq_refl).
Defined.

(** X20 on [sample_frame]. *)
Lemma filter_default_range_sample :
  df_date sample_frame = Some snd ∧ df_rows sample_frame ≠ []
  ∧ ∃ date_range,
      default_date_range sample_frame = Some date_range
      ∧ filter_data_by_date_range sample_frame date_range = Some sample_frame.
Proof.
  split; [reflexivity|]. split; [discriminate|].
  exact (filter_default_range sample_frame snd eq_refl ltac:(discriminate)).
Defined.
